(** * Risk-Management-Software: the analytics core, embedded and verified

    The development follows the Python sources under [src/models]:

    - [strategy_model.py]      the Metrics Engine        (module [StrategyModel])
    - [portfolio_model.py]     the Allocation Optimizer  (module [PortfolioModel])
    - [stress_test_engine.py]  the Stress Test Engine    (module [StressTestEngine])
    - [monte_carlo_engine.py]  the Monte Carlo simulator (module [MonteCarloEngine])
    - [overfitting_detector.py] the Overfitting Detector (module [OverfittingDetector])

    Numbers.  A Python [float] is modelled by [pyfloat]: an exact rational
    ([Q]), one of the two infinities, or NaN.  Rounding is not modelled
    (and neither is the sign of a zero);
    the special values are, because the code branches on them and produces
    them ([np.inf] sentinels, [np.sqrt] of a negative number).  Where only
    finite values can occur a plain [Q] is used.  Where the code compares
    with 0 a value that rounding alone can move away from 0 (the
    [np.std] of a series, the [np.sum] of the weights), the double that
    numpy returns is a parameter of the model, and module [Double] computes
    it in binary64 for short arrays.

    Dictionaries are [gmap string _]; a dictionary whose iteration order is
    observable (the metric substitution of the formula engines) is an
    association list. *)

From Stdlib Require Import QArith Qabs Qround Qminmax Qpower Lqa Lia ZArith.
From Stdlib Require Import String Ascii List.
From Stdlib Require PrimFloat FloatOps SpecFloat Uint63.
From stdpp Require Import gmap strings list fin_maps.

Local Open Scope Q_scope.

(** ** Rationals: boolean tests and sums *)

Definition Qlt_bool (x y : Q) : bool := negb (Qle_bool y x).

(** [np.sum] over a one-dimensional array. *)
Definition np_sum (l : list Q) : Q := foldr Qplus 0 l.

(** [np.mean]; the caller guards the empty array. *)
Definition np_mean (l : list Q) : Q := np_sum l / inject_Z (Z.of_nat (length l)).

(** [np.prod]. *)
Definition np_prod (l : list Q) : Q := foldr Qmult 1 l.

(** ** Python floats *)

Inductive pyfloat : Type :=
| Fin (q : Q)
| PInf
| NInf
| NaN.

(** [a < b] on floats: every comparison with NaN is false. *)
Definition flt (a b : pyfloat) : bool :=
  match a, b with
  | Fin x, Fin y => Qlt_bool x y
  | Fin _, PInf => true
  | NInf, Fin _ => true
  | NInf, PInf => true
  | _, _ => false
  end.

(** The builtins [max(a, b)] and [min(a, b)] of two arguments: the first
    argument is kept unless the second is strictly better, so a NaN in
    second position is never chosen and one in first position always is. *)
Definition py_max (a b : pyfloat) : pyfloat := if flt a b then b else a.
Definition py_min (a b : pyfloat) : pyfloat := if flt b a then b else a.

(** ** Doubles

    The reductions of numpy on an array of binary64 values, with the
    kernel's floats (IEEE 754, round to nearest even).  [np.add.reduce]
    adds the entries to the identity 0 from left to right when the array
    has fewer than 8 of them, which is the case modelled; [np.mean] divides
    that sum by the length; [np.std] is
    [sqrt(sum((x - mean) * (x - mean)) / n)]. *)

Module Double.

Definition of_Z (z : Z) : PrimFloat.float :=
  match z with
  | Z0 => PrimFloat.zero
  | Zpos _ => PrimFloat.of_uint63 (Uint63.of_Z z)
  | Zneg p => PrimFloat.opp (PrimFloat.of_uint63 (Uint63.of_Z (Zpos p)))
  end.

(** The double nearest to a decimal such as [0.1], written [1#10]:
    numerator and denominator are exact below 2^53 and the division rounds
    once. *)
Definition of_Q (q : Q) : PrimFloat.float :=
  PrimFloat.div (of_Z (Qnum q)) (of_Z (Z.pos (Qden q))).

(** The rational a finite double denotes (0 for the infinities and NaN,
    which the examples do not meet). *)
Definition to_Q (x : PrimFloat.float) : Q :=
  match FloatOps.Prim2SF x with
  | SpecFloat.S754_finite s m e => (if s then -(1) else 1) * inject_Z (Z.pos m) * 2 ^ e
  | _ => 0
  end.

Definition np_sum (x : list PrimFloat.float) : PrimFloat.float :=
  foldl PrimFloat.add PrimFloat.zero x.

Definition np_mean (x : list PrimFloat.float) : PrimFloat.float :=
  PrimFloat.div (np_sum x) (of_Z (Z.of_nat (length x))).

Definition np_std (x : list PrimFloat.float) : PrimFloat.float :=
  let arrmean := np_mean x in
  let x := map (fun v => PrimFloat.sub v arrmean) x in
  let x := map (fun v => PrimFloat.mul v v) x in
  PrimFloat.sqrt (PrimFloat.div (np_sum x) (of_Z (Z.of_nat (length x)))).

(** [np.std(np.array(x))] and [np.sum(np.array(x))] on decimals. *)
Definition np_std_of (x : list Q) : Q := to_Q (np_std (map of_Q x)).
Definition np_sum_of (x : list Q) : Q := to_Q (np_sum (map of_Q x)).

End Double.

(** * The Metrics Engine ([strategy_model.py]) *)

Module StrategyModel.

(** [_calculate_omega_ratio(threshold)] on [self.returns]:
<<
    gains  = self.returns[self.returns > threshold] - threshold
    losses = threshold - self.returns[self.returns <= threshold]
    if len(losses) == 0 or np.sum(losses) == 0: return np.inf
    return np.sum(gains) / np.sum(losses)
>> *)
Definition omega_gains (returns : list Q) (threshold : Q) : list Q :=
  map (fun r => r - threshold) (List.filter (fun r => Qlt_bool threshold r) returns).

Definition omega_losses (returns : list Q) (threshold : Q) : list Q :=
  map (fun r => threshold - r) (List.filter (fun r => Qle_bool r threshold) returns).

Definition _calculate_omega_ratio (returns : list Q) (threshold : Q) : pyfloat :=
  let gains := omega_gains returns threshold in
  let losses := omega_losses returns threshold in
  if (length losses =? 0)%nat || Qeq_bool (np_sum losses) 0 then PInf
  else Fin (np_sum gains / np_sum losses).

(** The two sums as the specification words them: every observation
    contributes its gain above the threshold, respectively its shortfall
    below it. *)
Definition sum_gains_above (returns : list Q) (t : Q) : Q :=
  np_sum (map (fun r => Qmax (r - t) 0) returns).

Definition sum_shortfalls_below (returns : list Q) (t : Q) : Q :=
  np_sum (map (fun r => Qmax (t - r) 0) returns).

End StrategyModel.

(** * The C library behind [np.sqrt], [np.log] and [np.exp]

    The values of the three functions on finite arguments inside their
    domain are not rational; they are parameters of the model.  What the
    code observes outside the domain is written out in [np_sqrt], [np_log]
    and [np_exp]. *)

Record Libm : Type := {
  m_sqrt : Q -> Q;        (* on arguments >= 0 *)
  m_log : Q -> Q;         (* on arguments > 0 *)
  m_exp : Q -> pyfloat    (* may overflow to [PInf] *)
}.

(** A coarse instance for closed examples: the square root is rounded
    down to a multiple of [1/den] (exact on squares), the logarithm and the
    exponential are right at [log 1] and [exp 0] only. *)
Definition sqrt_floor (q : Q) : Q :=
  inject_Z (Z.sqrt (Qnum q * Z.pos (Qden q))) / inject_Z (Z.pos (Qden q)).

Definition libm_floor : Libm :=
  {| m_sqrt := sqrt_floor;
     m_log := fun _ => 0;
     m_exp := fun q => if Qeq_bool q 0 then Fin 1 else if Qlt_bool q 0 then Fin 0 else PInf |}.

(** * The Allocation Optimizer ([portfolio_model.py]) *)

Module PortfolioModel.

(** [StrategyModel] as the portfolio sees it: [returns] is [None] until
    [set_returns] stores an array; [metrics] is the cached metric mapping. *)
Record Strategy : Type := {
  s_name : string;
  returns : option (list Q);
  metrics : gmap string pyfloat
}.

Record Portfolio : Type := {
  name : string;
  initial_capital : Q;
  current_capital : Q;
  strategies : gmap string Strategy;
  allocations : gmap string Q
}.

Definition with_allocations (p : Portfolio) (a : gmap string Q) : Portfolio :=
  {| name := name p; initial_capital := initial_capital p;
     current_capital := current_capital p;
     strategies := strategies p; allocations := a |}.

(** [sum(d.values())] *)
Definition sum_values (d : gmap string Q) : Q :=
  map_fold (fun _ v acc => acc + v) 0 d.

(** The loop [for key in d: d[key] /= total]. *)
Definition divide_all (d : gmap string Q) (total : Q) : gmap string Q :=
  (fun v => v / total) <$> d.

(** [_normalize_allocations] *)
Definition _normalize_allocations (p : Portfolio) : Portfolio :=
  let total := sum_values (allocations p) in
  if Qlt_bool 0 total then with_allocations p (divide_all (allocations p) total)
  else p.

(** [add_strategy(name, strategy, allocation=0)] *)
Definition add_strategy (n : string) (s : Strategy) (allocation : Q)
    (p : Portfolio) : Portfolio :=
  _normalize_allocations
    {| name := name p; initial_capital := initial_capital p;
       current_capital := current_capital p;
       strategies := <[n := s]> (strategies p);
       allocations := <[n := allocation]> (allocations p) |}.





(** [_equal_weight_allocation] *)
Definition _equal_weight_allocation (strats : gmap string Strategy) : gmap string Q :=
  let n := size strats in
  if (n =? 0)%nat then ∅
  else (fun _ => 1 / inject_Z (Z.of_nat n)) <$> strats.

(** Multiplication of a float by a finite positive constant. *)
Definition fscale (a : pyfloat) (c : Q) : pyfloat :=
  match a with
  | Fin x => Fin (x * c)
  | other => other
  end.

Definition finite_part (a : pyfloat) : Q :=
  match a with Fin x => x | _ => 0 end.

(** [max(0, min(kelly * 0.25, 0.25))] *)
Definition kelly_fraction (kelly : pyfloat) : Q :=
  finite_part (py_max (Fin 0) (py_min (fscale kelly (1#4)) (Fin (1#4)))).

(** [_kelly_allocation] *)
Definition kelly_step (n : string) (strategy : Strategy)
    (allocs : gmap string Q) : gmap string Q :=
  match metrics strategy !! "kelly_criterion"%string with
  | Some kelly => <[n := kelly_fraction kelly]> allocs
  | None => <[n := 2#100]> allocs
  end.

Definition _kelly_allocation (strats : gmap string Strategy) : gmap string Q :=
  let allocs := map_fold kelly_step ∅ strats in
  let total := sum_values allocs in
  if Qlt_bool 0 total then divide_all allocs total else allocs.

(** The weight the loop of [_kelly_allocation] stores for a strategy. *)
Definition kelly_weight (s : Strategy) : Q :=
  match metrics s !! "kelly_criterion"%string with
  | Some kelly => kelly_fraction kelly
  | None => 2#100
  end.

(** [_get_returns_matrix].  [min_length] starts at [float('inf')], here
    [None]; [returns[-min_length:]] keeps the last [min_length] entries. *)
Definition min_with (m : option nat) (n : nat) : nat :=
  match m with Some k => Nat.min k n | None => n end.

Definition collect_step (acc : list (list Q) * option nat) (strategy : Strategy)
    : list (list Q) * option nat :=
  match returns strategy with
  | Some r =>
      if (0 <? length r)%nat
      then (acc.1 ++ [r], Some (min_with acc.2 (length r)))
      else acc
  | None => acc
  end.

Definition py_slice_last (n : nat) (r : list Q) : list Q :=
  if (n =? 0)%nat then r else drop (length r - n) r.

(** [d.values()].  A Python dictionary iterates in insertion order, a
    [gmap] in an order of its own; nothing below depends on the order. *)
Definition dict_values {A} (d : gmap string A) : list A := (map_to_list d).*2.

Definition _get_returns_matrix (strats : gmap string Strategy) : option (list (list Q)) :=
  if (size strats =? 0)%nat then None
  else
    let '(returns_list, min_length) := foldl collect_step ([], None) (dict_values strats) in
    match returns_list, min_length with
    | [], _ | _, None => None
    | _, Some n =>
        if (n <? 1)%nat then None
        else Some (map (py_slice_last n) returns_list)
    end.


(** The return series that are present and non-empty, in the order of
    [self.strategies.values()]. *)
Definition valid_series (vals : list Strategy) : list (list Q) :=
  List.filter (fun r => (0 <? length r)%nat) (omap returns vals).

Definition shortest (m : option nat) (rs : list (list Q)) : option nat :=
  foldl (fun m r => Some (min_with m (length r))) m rs.

Section Optimizer.

(** [np.std(x)], the population standard deviation as numpy computes it
    in double precision.  The double it returns is a parameter: nothing is
    assumed of it, and in particular not that it is 0 on a constant series
    (the rounded mean can leave a residue: [Double.np_std]). *)
Variable np_std : list Q -> Q.

(** [_risk_parity_allocation]: the loop over [self.strategies.items()]
    carries the pair [(allocations, total_inv_vol)]. *)
Definition risk_parity_step (n : string) (strategy : Strategy)
    (acc : gmap string Q * Q) : gmap string Q * Q :=
  match returns strategy with
  | Some r =>
      if (0 <? length r)%nat then
        let vol := np_std r in
        if Qlt_bool 0 vol then
          let inv_vol := 1 / vol in
          (<[n := inv_vol]> acc.1, acc.2 + inv_vol)
        else acc
      else acc
  | None => acc
  end.

Definition _risk_parity_allocation (strats : gmap string Strategy) : gmap string Q :=
  let '(allocs, total_inv_vol) := map_fold risk_parity_step (∅, 0) strats in
  if Qlt_bool 0 total_inv_vol then divide_all allocs total_inv_vol else allocs.

(** What the loop of [_risk_parity_allocation] stores for a strategy, if
    anything. *)
Definition inverse_volatility (s : Strategy) : option Q :=
  match returns s with
  | Some r =>
      if (0 <? length r)%nat && Qlt_bool 0 (np_std r)
      then Some (1 / np_std r) else None
  | None => None
  end.

(** The three methods that call into [numpy.linalg] and
    [scipy.optimize]; their results are parameters. *)
Variable _min_variance_allocation : gmap string Strategy -> gmap string Q.
Variable _max_sharpe_allocation : gmap string Strategy -> gmap string Q.
Variable _max_omega_allocation : gmap string Strategy -> gmap string Q.

Definition methods : list (string * (gmap string Strategy -> gmap string Q)) :=
  [ ("equal_weight", _equal_weight_allocation);
    ("risk_parity", _risk_parity_allocation);
    ("min_variance", _min_variance_allocation);
    ("max_sharpe", _max_sharpe_allocation);
    ("max_omega", _max_omega_allocation);
    ("kelly", _kelly_allocation) ]%string.

Definition find_method (method : string)
    : option (gmap string Strategy -> gmap string Q) :=
  snd <$> List.find (fun kv => String.eqb method kv.1) methods.

(** [optimize_allocations(method)] *)
Definition optimize_allocations (method : string) (p : Portfolio) : Portfolio :=
  match find_method method with
  | Some f => _normalize_allocations (with_allocations p (f (strategies p)))
  | None => p
  end.



End Optimizer.

(** [list(d.keys())], in the order of [dict_values]. *)
Definition dict_keys {A} (d : gmap string A) : list string := (map_to_list d).*1.

(** [np.array([self.allocations.get(name, 0) for name in self.strategies.keys()])] *)
Definition portfolio_weights (p : Portfolio) : list Q :=
  map (fun n => default 0 (allocations p !! n)) (dict_keys (strategies p)).

(** [returns_matrix.T @ weights]: entry [t] is the sum over the rows of
    [row[t] * weight]. *)
Definition matrix_T_dot (rows : list (list Q)) (weights : list Q) : list Q :=
  let columns := match rows with [] => 0%nat | r :: _ => length r end in
  map (fun t => np_sum (zip_with (fun row w => default 0 (row !! t) * w) rows weights))
      (seq 0 columns).

(** [returns_matrix.size] *)
Definition matrix_size (rows : list (list Q)) : nat :=
  match rows with [] => 0%nat | r :: _ => (length rows * length r)%nat end.

Section Returns.

(** [np.sum(weights)] as numpy computes it in double precision.  The code
    asks only whether it is 0, and rounding decides that ([0.1 + 0.2 - 0.3]
    is not 0 in doubles, [1e16 + 1 - 1e16] is): the double numpy returns is
    a parameter, of which nothing is assumed ([Double.np_sum] computes it
    for short arrays). *)
Variable np_sum_double : list Q -> Q.

(** [calculate_portfolio_returns]; the empty list is [np.array([])]. *)
Definition calculate_portfolio_returns (p : Portfolio) : list Q :=
  match _get_returns_matrix (strategies p) with
  | None => []
  | Some returns_matrix =>
      if (matrix_size returns_matrix =? 0)%nat then []
      else
        let weights := portfolio_weights p in
        if negb (length weights =? length returns_matrix)%nat then []
        else if Qeq_bool (np_sum_double weights) 0 then []
        else matrix_T_dot returns_matrix weights
  end.

(** [_calculate_concentration]: [sum(w**2 for w in weights)]. *)
Definition _calculate_concentration (p : Portfolio) : Q :=
  map_fold (fun _ w acc => acc + w * w) 0 (allocations p).

(** The loop of [generate_equity_curve]:
    [equity_values.append(equity_values[-1] * (1 + ret))]. *)
Fixpoint equity_loop (last : Q) (portfolio_returns : list Q) : list Q :=
  match portfolio_returns with
  | [] => []
  | ret :: rest => let next := last * (1 + ret) in next :: equity_loop next rest
  end.

(** The values of the series [generate_equity_curve] returns (its index,
    the days up to today, is left out).  On empty returns the loop adds
    nothing and the series is [[initial_capital]], as in the early return. *)
Definition generate_equity_curve (p : Portfolio) : list Q :=
  initial_capital p :: equity_loop (initial_capital p) (calculate_portfolio_returns p).

End Returns.

End PortfolioModel.

(** * Python's [eval] on arithmetic formulas

    The three formula consumers hand a text to the builtin [eval].  The
    model follows [eval] on a fragment of Python's expression language:
    decimal literals, names, unary [+ -], binary [+ - * / // %],
    parentheses and calls with positional arguments.  Whatever lies outside
    the fragment is [Unmodelled] and left to the host interpreter, which is
    a parameter ([Host]); nothing is assumed about it. *)

Module PyEval.

Inductive pyexc : Type :=
| SyntaxError | NameError | ZeroDivisionError | TypeError | ValueError | OtherException.

Inductive outcome (A : Type) : Type :=
| Ret (a : A)
| Raise (e : pyexc)
| Unmodelled.
Arguments Ret {A} a.
Arguments Raise {A} e.
Arguments Unmodelled {A}.

#[global] Instance outcome_ret : MRet outcome := fun _ a => Ret a.

#[global] Instance outcome_bind : MBind outcome := fun _ _ k x =>
  match x with
  | Ret a => k a
  | Raise e => Raise e
  | Unmodelled => Unmodelled
  end.

(** ** Texts *)

Definition chars (s : string) : list ascii := list_ascii_of_string s.
Definition text (l : list ascii) : string := string_of_list_ascii l.

Definition code (c : ascii) : nat := nat_of_ascii c.

Definition is_digit (c : ascii) : bool := (48 <=? code c)%nat && (code c <=? 57)%nat.
Definition is_upper (c : ascii) : bool := (65 <=? code c)%nat && (code c <=? 90)%nat.
Definition is_lower (c : ascii) : bool := (97 <=? code c)%nat && (code c <=? 122)%nat.
Definition is_name_start (c : ascii) : bool := is_upper c || is_lower c || (code c =? 95)%nat.
Definition is_name_char (c : ascii) : bool := is_name_start c || is_digit c.
Definition is_blank (c : ascii) : bool := (code c =? 32)%nat || (code c =? 9)%nat.
Definition is_ascii_char (c : ascii) : bool := (code c <? 128)%nat.

(** [str.lower()] on a text of ASCII characters. *)
Definition lower_char (c : ascii) : ascii :=
  if is_upper c then ascii_of_nat (code c + 32) else c.

Definition lower (s : list ascii) : list ascii := map lower_char s.

(** [s.replace(old, new)] for a non-empty [old]: every non-overlapping
    occurrence, scanning from the left.  [skip] counts the characters of
    the occurrence just replaced that are still to be dropped. *)
Fixpoint is_prefix (p s : list ascii) : bool :=
  match p, s with
  | [], _ => true
  | a :: p', b :: s' => if Ascii.eqb a b then is_prefix p' s' else false
  | _ :: _, [] => false
  end.

Fixpoint replace_from (skip : nat) (old new s : list ascii) : list ascii :=
  match s with
  | [] => []
  | c :: s' =>
      match skip with
      | S k => replace_from k old new s'
      | O =>
          if is_prefix old s
          then new ++ replace_from (length old - 1) old new s'
          else c :: replace_from 0 old new s'
      end
  end.

Definition replace (old new s : list ascii) : list ascii := replace_from 0 old new s.

(** ** [str(value)] of a float

    [repr] prints the shortest decimal that reads back as the same float,
    in plain notation when [1e-4 <= |x| < 1e16].  A decimal of at most 15
    significant digits is such a shortest decimal; the model prints those
    in that range, and any other finite value has no modelled text. *)

Fixpoint digits_from (fuel : nat) (n : N) (acc : list ascii) : list ascii :=
  match fuel with
  | O => acc
  | S f =>
      let d := ascii_of_N (48 + n mod 10) in
      if (n <? 10)%N then d :: acc else digits_from f (n / 10)%N (d :: acc)
  end.

(** The decimal digits of [n]; a number has no more decimal digits than
    binary ones. *)
Definition digits_of (n : N) : list ascii :=
  digits_from (S (N.to_nat (N.log2 n))) n [].

(** The least [k <= bound] with [q * 10^k] an integer. *)
Fixpoint decimal_places (bound k : nat) (q : Q) : option nat :=
  if Z.eqb ((Qnum q * 10 ^ Z.of_nat k) mod Z.pos (Qden q)) 0 then Some k
  else match bound with
       | O => None
       | S b => decimal_places b (S k) q
       end.

Definition plain_range (q : Q) : bool :=
  Qeq_bool q 0 ||
  (Qle_bool (1 # 10000) (Qabs q) && Qlt_bool (Qabs q) (inject_Z (10 ^ 16))).

Definition float_repr_finite (q : Q) : option (list ascii) :=
  if plain_range q then
    match decimal_places 20 0 q with
    | Some k =>
        let m := Z.abs (Qnum q * 10 ^ Z.of_nat k / Z.pos (Qden q)) in
        let ds := digits_of (Z.to_N m) in
        let ds := repeat "0"%char (S k - length ds) ++ ds in
        let int_part := take (length ds - k) ds in
        let frac_part := drop (length ds - k) ds in
        let frac_part := match frac_part with [] => ["0"%char] | _ => frac_part end in
        let sign := if Qlt_bool q 0 then ["-"%char] else [] in
        if (length (digits_of (Z.to_N m)) <=? 15)%nat
        then Some (sign ++ int_part ++ ["."%char] ++ frac_part)
        else None
    | None => None
    end
  else None.

Definition float_str (f : pyfloat) : option (list ascii) :=
  match f with
  | Fin q => float_repr_finite q
  | PInf => Some (chars "inf")
  | NInf => Some (chars "-inf")
  | NaN => Some (chars "nan")
  end.


(** ** Tokens *)

Inductive token : Type :=
| TInt (z : Z)
| TFloat (q : Q)
| TName (s : string)
| TPlus | TMinus | TStar | TSlash | TDSlash | TPercent
| TLPar | TRPar | TComma.

(** Names the tokenizer does not hand out as identifiers: the keywords,
    and [__builtins__], which the globals passed to [eval] do bind. *)
Definition reserved_names : list string :=
  ["False"; "None"; "True"; "and"; "as"; "assert"; "async"; "await";
   "break"; "class"; "continue"; "def"; "del"; "elif"; "else"; "except";
   "finally"; "for"; "from"; "global"; "if"; "import"; "in"; "is";
   "lambda"; "nonlocal"; "not"; "or"; "pass"; "raise"; "return"; "try";
   "while"; "with"; "yield"; "__builtins__"; "__debug__"]%string.

Definition digit_value (c : ascii) : Z := Z.of_nat (code c - 48).

(** Digits are collected most recent first. *)
Fixpoint digits_value (rev_digits : list ascii) : Z :=
  match rev_digits with
  | [] => 0
  | d :: ds => digit_value d + 10 * digits_value ds
  end.

(** The token being read. *)
Inductive lexing : Type :=
| LIdle
| LName (rev_chars : list ascii)
| LInt (rev_digits : list ascii)
| LFrac (rev_int rev_frac : list ascii)
| LExpStart (mantissa : Q)
| LExpSign (mantissa : Q) (negative : bool)
| LExp (mantissa : Q) (negative : bool) (rev_digits : list ascii)
| LSlash
| LStar.

Definition fraction_value (rev_int rev_frac : list ascii) : Q :=
  inject_Z (digits_value (rev_frac ++ rev_int)) / inject_Z (10 ^ Z.of_nat (length rev_frac)).

Definition is_exponent_mark (c : ascii) : bool :=
  Ascii.eqb c "e"%char || Ascii.eqb c "E"%char.

(** The token completed when [st] ends; [None] when the text read so far
    is outside the fragment. *)
Definition finish (st : lexing) : option (list token) :=
  match st with
  | LIdle => Some []
  | LName rc =>
      let n := text (rev rc) in
      if bool_decide (n ∈ reserved_names) then None else Some [TName n]
  | LInt rd =>
      match rev rd with
      | "0"%char :: _ :: _ => None          (* 007: not a decimal literal *)
      | _ => Some [TInt (digits_value rd)]
      end
  | LFrac ri rf =>
      match ri, rf with
      | [], [] => None                      (* a lone dot *)
      | _, _ => Some [TFloat (fraction_value ri rf)]
      end
  | LExpStart _ | LExpSign _ _ => None      (* 1e, 1e+ *)
  | LExp m negative rd =>
      let scale := inject_Z (10 ^ digits_value rd) in
      Some [TFloat (if negative then m / scale else m * scale)]
  | LSlash => Some [TSlash]
  | LStar => Some [TStar]
  end.

(** A character that begins a token, or a blank. *)
Definition start (c : ascii) : option (lexing * list token) :=
  if is_blank c then Some (LIdle, [])
  else if is_name_start c then Some (LName [c], [])
  else if is_digit c then Some (LInt [c], [])
  else match c with
       | "."%char => Some (LFrac [] [], [])
       | "/"%char => Some (LSlash, [])
       | "*"%char => Some (LStar, [])
       | "+"%char => Some (LIdle, [TPlus])
       | "-"%char => Some (LIdle, [TMinus])
       | "%"%char => Some (LIdle, [TPercent])
       | "("%char => Some (LIdle, [TLPar])
       | ")"%char => Some (LIdle, [TRPar])
       | ","%char => Some (LIdle, [TComma])
       | _ => None
       end.

(** One character: extend the current token, or finish it and start the
    next.  A literal directly followed by a letter other than an exponent
    mark, by an underscore or by a second dot ([1j], [0x10], [1_000],
    [1.2.real]) is outside the fragment, and so is [**]. *)
Definition lex_step (st : lexing) (c : ascii) : option (lexing * list token) :=
  let next :=
    match finish st, start c with
    | Some done, Some (st', emitted) => Some (st', done ++ emitted)
    | _, _ => None
    end in
  match st with
  | LIdle => start c
  | LName rc => if is_name_char c then Some (LName (c :: rc), []) else
                if Ascii.eqb c "."%char then None else next
  | LInt rd =>
      if is_digit c then Some (LInt (c :: rd), [])
      else if Ascii.eqb c "."%char then Some (LFrac rd [], [])
      else if is_exponent_mark c then Some (LExpStart (inject_Z (digits_value rd)), [])
      else if is_name_start c then None
      else next
  | LFrac ri rf =>
      if is_digit c then Some (LFrac ri (c :: rf), [])
      else if is_exponent_mark c then
        match ri, rf with
        | [], [] => None
        | _, _ => Some (LExpStart (fraction_value ri rf), [])
        end
      else if is_name_start c || Ascii.eqb c "."%char then None
      else next
  | LExpStart m =>
      if is_digit c then Some (LExp m false [c], [])
      else if Ascii.eqb c "+"%char then Some (LExpSign m false, [])
      else if Ascii.eqb c "-"%char then Some (LExpSign m true, [])
      else None
  | LExpSign m negative =>
      if is_digit c then Some (LExp m negative [c], []) else None
  | LExp m negative rd =>
      if is_digit c then Some (LExp m negative (c :: rd), [])
      else if is_name_start c || Ascii.eqb c "."%char then None
      else next
  | LSlash => if Ascii.eqb c "/"%char then Some (LIdle, [TDSlash]) else next
  | LStar => if Ascii.eqb c "*"%char then None else next
  end.

Fixpoint lex_from (st : lexing) (cs : list ascii) : option (list token) :=
  match cs with
  | [] => finish st
  | c :: cs' =>
      match lex_step st c with
      | Some (st', emitted) =>
          match lex_from st' cs' with
          | Some rest => Some (emitted ++ rest)
          | None => None
          end
      | None => None
      end
  end.

Definition tokenize (s : list ascii) : option (list token) :=
  if forallb is_ascii_char s then lex_from LIdle s else None.


(** ** Expressions *)

Inductive binop : Type := Add | Sub | Mul | Div | FloorDiv | Mod.

#[warnings="-register-all"]
Inductive expr : Type :=
| EInt (z : Z)
| EFloat (q : Q)
| EName (s : string)
| EPos (e : expr)
| ENeg (e : expr)
| EBin (op : binop) (l r : expr)
| ECall (f : expr) (args : list expr).

(** Recursive descent along Python's grammar:
<<
    sum     ::= term (('+' | '-') term)*
    term    ::= factor (('*' | '/' | '//' | '%') factor)*
    factor  ::= ('+' | '-') factor | primary
    primary ::= atom ('(' [sum (',' sum)* [',']] ')')*
    atom    ::= NAME | NUMBER | '(' sum ')'
>>
    [fuel] bounds the depth of the descent. *)
Fixpoint parse_sum (fuel : nat) (ts : list token) : option (expr * list token) :=
  match fuel with
  | O => None
  | S n =>
      match parse_term n ts with
      | Some (lhs, rest) => sum_tail n lhs rest
      | None => None
      end
  end
with sum_tail (fuel : nat) (lhs : expr) (ts : list token) : option (expr * list token) :=
  match fuel with
  | O => None
  | S n =>
      match ts with
      | TPlus :: ts' =>
          match parse_term n ts' with
          | Some (rhs, rest) => sum_tail n (EBin Add lhs rhs) rest
          | None => None
          end
      | TMinus :: ts' =>
          match parse_term n ts' with
          | Some (rhs, rest) => sum_tail n (EBin Sub lhs rhs) rest
          | None => None
          end
      | _ => Some (lhs, ts)
      end
  end
with parse_term (fuel : nat) (ts : list token) : option (expr * list token) :=
  match fuel with
  | O => None
  | S n =>
      match parse_factor n ts with
      | Some (lhs, rest) => term_tail n lhs rest
      | None => None
      end
  end
with term_tail (fuel : nat) (lhs : expr) (ts : list token) : option (expr * list token) :=
  match fuel with
  | O => None
  | S n =>
      let continue op ts' :=
        match parse_factor n ts' with
        | Some (rhs, rest) => term_tail n (EBin op lhs rhs) rest
        | None => None
        end in
      match ts with
      | TStar :: ts' => continue Mul ts'
      | TSlash :: ts' => continue Div ts'
      | TDSlash :: ts' => continue FloorDiv ts'
      | TPercent :: ts' => continue Mod ts'
      | _ => Some (lhs, ts)
      end
  end
with parse_factor (fuel : nat) (ts : list token) : option (expr * list token) :=
  match fuel with
  | O => None
  | S n =>
      match ts with
      | TPlus :: ts' =>
          match parse_factor n ts' with
          | Some (e, rest) => Some (EPos e, rest)
          | None => None
          end
      | TMinus :: ts' =>
          match parse_factor n ts' with
          | Some (e, rest) => Some (ENeg e, rest)
          | None => None
          end
      | _ => parse_primary n ts
      end
  end
with parse_primary (fuel : nat) (ts : list token) : option (expr * list token) :=
  match fuel with
  | O => None
  | S n =>
      match ts with
      | TInt z :: ts' => call_tail n (EInt z) ts'
      | TFloat q :: ts' => call_tail n (EFloat q) ts'
      | TName x :: ts' => call_tail n (EName x) ts'
      | TLPar :: ts' =>
          match parse_sum n ts' with
          | Some (e, TRPar :: rest) => call_tail n e rest
          | _ => None
          end
      | _ => None
      end
  end
with call_tail (fuel : nat) (f : expr) (ts : list token) : option (expr * list token) :=
  match fuel with
  | O => None
  | S n =>
      match ts with
      | TLPar :: TRPar :: rest => call_tail n (ECall f []) rest
      | TLPar :: ts' =>
          match parse_args n ts' with
          | Some (args, rest) => call_tail n (ECall f args) rest
          | None => None
          end
      | _ => Some (f, ts)
      end
  end
with parse_args (fuel : nat) (ts : list token) : option (list expr * list token) :=
  match fuel with
  | O => None
  | S n =>
      match parse_sum n ts with
      | Some (a, TRPar :: rest) => Some ([a], rest)
      | Some (a, TComma :: TRPar :: rest) => Some ([a], rest)
      | Some (a, TComma :: ts') =>
          match parse_args n ts' with
          | Some (args, rest) => Some (a :: args, rest)
          | None => None
          end
      | _ => None
      end
  end.

Inductive parsed : Type :=
| Parsed (e : expr)
| NotPython            (* [eval] raises SyntaxError *)
| OutsideFragment.

Definition is_operator (t : token) : bool :=
  match t with
  | TPlus | TMinus | TStar | TSlash | TDSlash | TPercent | TLPar => true
  | _ => false
  end.

(** Over the characters the tokenizer accepts, an empty text and a text
    that ends with an operator or an opening parenthesis are no Python
    expressions at all. *)
Definition surely_malformed (ts : list token) : bool :=
  match last ts with
  | None => true
  | Some t => is_operator t
  end.

(** Long texts are left out: the interpreter bounds the nesting of an
    expression, and the fragment stays well below the bound. *)
Definition max_tokens : nat := 100.

Definition parse (s : list ascii) : parsed :=
  match tokenize s with
  | None => OutsideFragment
  | Some ts =>
      if (max_tokens <? length ts)%nat then OutsideFragment
      else if surely_malformed ts then NotPython
      else match parse_sum (10 * (length ts + 2)) ts with
           | Some (e, []) => Parsed e
           | _ => OutsideFragment
           end
  end.



(** ** Values and IEEE arithmetic *)

(** The function objects the engines put into [safe_dict]. *)
Inductive func : Type :=
| NpSqrt | NpAbs | NpMaximum | NpMinimum | NpLog | NpExp
| PyAbs | PyMax | PyMin.

(** A Python [int], a Python [float], a [numpy.float64], or a function. *)
Inductive pyval : Type :=
| VInt (z : Z)
| VFloat (f : pyfloat)
| VNp (f : pyfloat)
| VFun (fn : func).

Definition is_zero (a : pyfloat) : bool :=
  match a with Fin x => Qeq_bool x 0 | _ => false end.

Definition is_neg (a : pyfloat) : bool :=
  match a with Fin x => Qlt_bool x 0 | NInf => true | _ => false end.

Definition is_nan (a : pyfloat) : bool :=
  match a with NaN => true | _ => false end.

Definition fneg (a : pyfloat) : pyfloat :=
  match a with Fin x => Fin (- x) | PInf => NInf | NInf => PInf | NaN => NaN end.

Definition fabs (a : pyfloat) : pyfloat :=
  match a with Fin x => Fin (Qabs x) | PInf | NInf => PInf | NaN => NaN end.

Definition fadd (a b : pyfloat) : pyfloat :=
  match a, b with
  | NaN, _ | _, NaN => NaN
  | Fin x, Fin y => Fin (x + y)
  | PInf, NInf | NInf, PInf => NaN
  | PInf, _ | _, PInf => PInf
  | NInf, _ | _, NInf => NInf
  end.

Definition fsub (a b : pyfloat) : pyfloat := fadd a (fneg b).

Definition fmul (a b : pyfloat) : pyfloat :=
  match a, b with
  | NaN, _ | _, NaN => NaN
  | Fin x, Fin y => Fin (x * y)
  | _, _ =>
      if is_zero a || is_zero b then NaN
      else if xorb (is_neg a) (is_neg b) then NInf else PInf
  end.

(** Division by a divisor that is not zero. *)
Definition fdiv (a b : pyfloat) : pyfloat :=
  match a, b with
  | NaN, _ | _, NaN => NaN
  | Fin x, Fin y => Fin (x / y)
  | Fin _, _ => Fin 0
  | _, Fin _ => if xorb (is_neg a) (is_neg b) then NInf else PInf
  | _, _ => NaN
  end.

(** A double holds magnitudes between about 1e-308 and 1e308.  The model
    stays inside [2^-1000, 2^1000]: a finite value outside it may overflow
    or underflow in the interpreter and is not followed. *)
Definition magnitude_bound : Q := inject_Z (2 ^ 1000).

Definition representable (a : pyfloat) : bool :=
  match a with
  | Fin x =>
      Qeq_bool x 0 ||
      (Qle_bool (1 / magnitude_bound) (Qabs x) && Qle_bool (Qabs x) magnitude_bound)
  | _ => true
  end.

Definition checked (a : pyfloat) : outcome pyfloat :=
  if representable a then Ret a else Unmodelled.

Definition to_float (v : pyval) : option pyfloat :=
  match v with
  | VInt z => Some (Fin (inject_Z z))
  | VFloat f | VNp f => Some f
  | VFun _ => None
  end.

Definition is_np (v : pyval) : bool :=
  match v with VNp _ => true | _ => false end.

(** Arithmetic of two Python floats.  Division by zero raises. *)
Definition float_arith (op : binop) (a b : pyfloat) : outcome pyfloat :=
  match op with
  | Add => checked (fadd a b)
  | Sub => checked (fsub a b)
  | Mul => checked (fmul a b)
  | Div => if is_zero b then Raise ZeroDivisionError else checked (fdiv a b)
  | FloorDiv =>
      if is_zero b then Raise ZeroDivisionError
      else match a, b with
           | Fin x, Fin y => checked (Fin (inject_Z (Qfloor (x / y))))
           | _, _ => Unmodelled
           end
  | Mod =>
      if is_zero b then Raise ZeroDivisionError
      else match a, b with
           | Fin x, Fin y => checked (Fin (x - y * inject_Z (Qfloor (x / y))))
           | _, _ => Unmodelled
           end
  end.

(** Arithmetic with a [numpy.float64] operand.  Division by zero warns
    and returns; [0/0] is NaN, and [x/0] is an infinity whose sign is that
    of [x] times that of the zero, which the model does not carry. *)
Definition np_arith (op : binop) (a b : pyfloat) : outcome pyfloat :=
  match op with
  | Add => checked (fadd a b)
  | Sub => checked (fsub a b)
  | Mul => checked (fmul a b)
  | Div =>
      if is_zero b then
        if is_zero a || is_nan a then Ret NaN else Unmodelled
      else checked (fdiv a b)
  | FloorDiv | Mod => Unmodelled
  end.

Definition int_arith (op : binop) (x y : Z) : outcome pyval :=
  match op with
  | Add => Ret (VInt (x + y))
  | Sub => Ret (VInt (x - y))
  | Mul => Ret (VInt (x * y))
  | Div =>
      if Z.eqb y 0 then Raise ZeroDivisionError
      else f ← checked (Fin (inject_Z x / inject_Z y)); Ret (VFloat f)
  | FloorDiv => if Z.eqb y 0 then Raise ZeroDivisionError else Ret (VInt (x / y))
  | Mod => if Z.eqb y 0 then Raise ZeroDivisionError else Ret (VInt (x mod y))
  end.

Definition arith (op : binop) (a b : pyval) : outcome pyval :=
  match a, b with
  | VInt x, VInt y => int_arith op x y
  | _, _ =>
      match to_float a, to_float b with
      | Some fa, Some fb =>
          if representable fa && representable fb then
            if is_np a || is_np b
            then f ← np_arith op fa fb; Ret (VNp f)
            else f ← float_arith op fa fb; Ret (VFloat f)
          else Unmodelled
      | _, _ => Raise TypeError
      end
  end.

Definition negate (v : pyval) : outcome pyval :=
  match v with
  | VInt z => Ret (VInt (- z))
  | VFloat f => Ret (VFloat (fneg f))
  | VNp f => Ret (VNp (fneg f))
  | VFun _ => Raise TypeError
  end.

Definition posate (v : pyval) : outcome pyval :=
  match v with
  | VFun _ => Raise TypeError
  | _ => Ret v
  end.

(** The builtin [max(a, b, ...)] / [min(a, b, ...)]: the first best
    argument is returned as it is. *)
Fixpoint py_best (better : pyfloat -> pyfloat -> bool) (best : pyval) (fbest : pyfloat)
    (rest : list pyval) : outcome pyval :=
  match rest with
  | [] => Ret best
  | v :: rest' =>
      match to_float v with
      | Some f => if better f fbest then py_best better v f rest'
                  else py_best better best fbest rest'
      | None => Raise TypeError
      end
  end.

Definition py_extremum (better : pyfloat -> pyfloat -> bool) (args : list pyval)
    : outcome pyval :=
  match args with
  | a :: (_ :: _) as rest =>
      match to_float a with
      | Some fa => py_best better a fa rest
      | None => Raise TypeError
      end
  | _ => Raise TypeError      (* no argument, or one that is not iterable *)
  end.

(** [np.maximum] / [np.minimum]: a NaN operand wins. *)
Definition np_extremum (better : pyfloat -> pyfloat -> bool) (a b : pyfloat) : pyfloat :=
  if is_nan a then NaN else if is_nan b then NaN
  else if better b a then b else a.

Section Evaluation.

Variable libm : Libm.

Definition np_sqrt (a : pyfloat) : pyfloat :=
  match a with
  | Fin x => if Qlt_bool x 0 then NaN else Fin (m_sqrt libm x)
  | PInf => PInf
  | NInf | NaN => NaN
  end.

Definition np_log (a : pyfloat) : pyfloat :=
  match a with
  | Fin x => if Qlt_bool x 0 then NaN
             else if Qeq_bool x 0 then NInf
             else Fin (m_log libm x)
  | PInf => PInf
  | NInf | NaN => NaN
  end.

Definition np_exp (a : pyfloat) : pyfloat :=
  match a with
  | Fin x => m_exp libm x
  | PInf => PInf
  | NInf => Fin 0
  | NaN => NaN
  end.

(** A numpy function of one argument.  On a Python [int] [np.abs] returns
    a [numpy.int64], which the model does not carry. *)
Definition np_unary (f : pyfloat -> pyfloat) (int_result : bool) (args : list pyval)
    : outcome pyval :=
  match args with
  | [VFun _] => Raise TypeError
  | [VInt z] =>
      if int_result then Unmodelled
      else a ← checked (Fin (inject_Z z)); r ← checked (f a); Ret (VNp r)
  | [VFloat a] | [VNp a] => r ← checked (f a); Ret (VNp r)
  | _ => Raise TypeError
  end.

Definition np_binary (f : pyfloat -> pyfloat -> pyfloat) (args : list pyval)
    : outcome pyval :=
  match args with
  | [VInt _; VInt _] => Unmodelled
  | [a; b] =>
      match to_float a, to_float b with
      | Some fa, Some fb =>
          if representable fa && representable fb then Ret (VNp (f fa fb))
          else Unmodelled
      | _, _ => Raise TypeError
      end
  | _ => Raise TypeError
  end.

Definition apply_func (fn : func) (args : list pyval) : outcome pyval :=
  match fn with
  | NpSqrt => np_unary np_sqrt false args
  | NpLog => np_unary np_log false args
  | NpExp => np_unary np_exp false args
  | NpAbs => np_unary fabs true args
  | NpMaximum => np_binary (np_extremum (fun x best => flt best x)) args
  | NpMinimum => np_binary (np_extremum (fun x best => flt x best)) args
  | PyAbs =>
      match args with
      | [VInt z] => Ret (VInt (Z.abs z))
      | [VFloat a] => Ret (VFloat (fabs a))
      | [VNp a] => Ret (VNp (fabs a))
      | _ => Raise TypeError
      end
  | PyMax => py_extremum (fun x best => flt best x) args
  | PyMin => py_extremum (fun x best => flt x best) args
  end.

Variable env : gmap string pyval.

(** Operands are evaluated left to right, the callee before its
    arguments; the first exception ends the evaluation. *)
Fixpoint eval (e : expr) : outcome pyval :=
  match e with
  | EInt z => Ret (VInt z)
  | EFloat q => f ← checked (Fin q); Ret (VFloat f)
  | EName x => match env !! x with Some v => Ret v | None => Raise NameError end
  | EPos e1 => v ← eval e1; posate v
  | ENeg e1 => v ← eval e1; negate v
  | EBin op l r => a ← eval l; b ← eval r; arith op a b
  | ECall f args =>
      fv ← eval f;
      vs ← (fix eval_args (l : list expr) : outcome (list pyval) :=
              match l with
              | [] => Ret []
              | a :: l' => v ← eval a; vs ← eval_args l'; Ret (v :: vs)
              end) args;
      match fv with
      | VFun fn => apply_func fn vs
      | _ => Raise TypeError
      end
  end.

(** The argument loop of a call. *)
Definition eval_args : list expr -> outcome (list pyval) :=
  fix eval_args (l : list expr) : outcome (list pyval) :=
    match l with
    | [] => Ret []
    | a :: l' => v ← eval a; vs ← eval_args l'; Ret (v :: vs)
    end.

(** [float(eval(text, {"__builtins__": {}}, env))] *)
Definition float_of (v : pyval) : outcome pyfloat :=
  match to_float v with
  | Some f => checked f
  | None => Raise TypeError
  end.

Definition float_eval (s : list ascii) : outcome pyfloat :=
  match parse s with
  | Parsed e => v ← eval e; float_of v
  | NotPython => Raise SyntaxError
  | OutsideFragment => Unmodelled
  end.

End Evaluation.


(** ** The host interpreter

    [host_eval] stands for [float(eval(...))] on the calls the fragment
    does not cover: [Some f] when it returns the float [f], [None] when it
    raises an [Exception]. *)

Inductive engine : Type := MonteCarlo | StressTest | Overfitting.

Record Host : Type := {
  host_libm : Libm;
  host_eval : engine -> string -> list (string * pyval) -> option pyfloat
}.

Definition host_floor : Host :=
  {| host_libm := libm_floor; host_eval := fun _ _ _ => None |}.

(** ** Substituting metric values into the text

    [for key, value in metrics.items():
         formula_lower = formula_lower.replace(key, str(value))] *)

Fixpoint occurs (old s : list ascii) : bool :=
  is_prefix old s ||
  match s with
  | [] => false
  | _ :: s' => occurs old s'
  end.

Definition substitute_one (acc : option (list ascii)) (kv : string * pyfloat)
    : option (list ascii) :=
  match acc with
  | None => None
  | Some s =>
      match chars kv.1 with
      | [] => None                   (* replacing the empty string *)
      | key =>
          if occurs key s then
            match float_str kv.2 with
            | Some v => Some (replace key v s)
            | None => None
            end
          else Some s
      end
  end.

Definition substitute (formula_lower : list ascii) (metrics : list (string * pyfloat))
    : option (list ascii) :=
  foldl substitute_one (Some formula_lower) metrics.

(** [float(eval(text, {"__builtins__": {}}, safe_dict))] after the
    substitution, as the Monte Carlo and Stress Test engines run it. *)
Definition substituted_eval (libm : Libm) (safe_dict : gmap string pyval)
    (formula : string) (metrics : list (string * pyfloat)) : outcome pyfloat :=
  if forallb is_ascii_char (chars formula) then
    match substitute (lower (chars formula)) metrics with
    | Some s => float_eval libm safe_dict s
    | None => Unmodelled
    end
  else Unmodelled.

(** [max(0, min(100, x))] and [min(50, max(0, x))]: always finite. *)
Definition clamp_0_100 (x : pyfloat) : Q :=
  PortfolioModel.finite_part (py_max (Fin 0) (py_min (Fin 100) x)).

Definition clamp_0_50 (x : pyfloat) : Q :=
  PortfolioModel.finite_part (py_min (Fin 50) (py_max (Fin 0) x)).

End PyEval.

(** * The Stress Test Engine ([stress_test_engine.py]) *)

Module StressTestEngine.
Import PyEval.

Record StressScenario : Type := {
  name : string;
  description : string;
  period : string;
  sharpe_impact : Q;
  omega_impact : Q;
  volatility_multiplier : Q;
  drawdown_multiplier : Q;
  win_rate_impact : Q;
  duration_months : nat
}.

(** [_create_historical_scenarios] *)
Definition _create_historical_scenarios : list StressScenario :=
  [ {| name := "Black Monday 1987";
       description := "Krach boursier du 19 octobre 1987";
       period := "Oct 1987";
       sharpe_impact := -(25#10); omega_impact := -(6#10);
       volatility_multiplier := 32#10; drawdown_multiplier := 45#10;
       win_rate_impact := -(35#100); duration_months := 6 |};
    {| name := "Dot-com Crash 2000";
       description := "Éclatement de la bulle internet";
       period := "2000-2002";
       sharpe_impact := -(18#10); omega_impact := -(45#100);
       volatility_multiplier := 21#10; drawdown_multiplier := 28#10;
       win_rate_impact := -(25#100); duration_months := 24 |};
    {| name := "Lehman Crisis 2008";
       description := "Crise financière mondiale";
       period := "Sep 2008 - Mar 2009";
       sharpe_impact := -(32#10); omega_impact := -(8#10);
       volatility_multiplier := 41#10; drawdown_multiplier := 52#10;
       win_rate_impact := -(42#100); duration_months := 18 |};
    {| name := "Flash Crash 2010";
       description := "Krach éclair du 6 mai 2010";
       period := "May 2010";
       sharpe_impact := -(38#10); omega_impact := -(7#10);
       volatility_multiplier := 62#10; drawdown_multiplier := 45#10;
       win_rate_impact := -(48#100); duration_months := 1 |};
    {| name := "COVID-19 2020";
       description := "Pandémie mondiale et confinements";
       period := "Mar-Apr 2020";
       sharpe_impact := -(21#10); omega_impact := -(52#100);
       volatility_multiplier := 53#10; drawdown_multiplier := 38#10;
       win_rate_impact := -(38#100); duration_months := 3 |};
    {| name := "Taux Fed 2022";
       description := "Hausse agressive des taux d'intérêt";
       period := "2022-2023";
       sharpe_impact := -(12#10); omega_impact := -(28#100);
       volatility_multiplier := 19#10; drawdown_multiplier := 21#10;
       win_rate_impact := -(18#100); duration_months := 12 |};
    {| name := "Extrême Synthétique";
       description := "Scénario catastrophe combiné";
       period := "Hypothétique";
       sharpe_impact := -(5); omega_impact := -(12#10);
       volatility_multiplier := 10; drawdown_multiplier := 8;
       win_rate_impact := -(70#100); duration_months := 36 |} ]%string.

(** [min(a, b)] and [max(a, b)] on finite floats. *)
Definition qmin (a b : Q) : Q := if Qlt_bool b a then b else a.
Definition qmax (a b : Q) : Q := if Qlt_bool a b then b else a.

(** [_calculate_scenario_severity] *)
Definition severity_factors (scenario : StressScenario) : list Q :=
  [ Qabs (sharpe_impact scenario) / 5;
    Qabs (omega_impact scenario) / (12#10);
    (volatility_multiplier scenario - 1) / 9;
    (drawdown_multiplier scenario - 1) / 7;
    Qabs (win_rate_impact scenario) / (7#10) ].

Definition _calculate_scenario_severity (scenario : StressScenario) : Q :=
  qmin 1 (np_mean (severity_factors scenario)).

(** [_get_baseline_metrics(None)]: the default baseline. *)
Definition default_baseline : list (string * pyfloat) :=
  [ ("sharpe", Fin (4#10)); ("omega", Fin (105#100)); ("volatility", Fin (18#100));
    ("drawdown", Fin (12#100)); ("win_rate", Fin (52#100));
    ("profit_factor", Fin (115#100)); ("total_return", Fin (8#100));
    ("calmar", Fin (6#10)); ("sortino", Fin (5#10)) ]%string.

Definition _get_baseline_metrics (base_metrics : option (list (string * pyfloat)))
    : list (string * pyfloat) :=
  match base_metrics with
  | Some (_ :: _ as m) => m
  | _ => default_baseline
  end.

Definition safe_dict : gmap string pyval :=
  list_to_map [ ("sqrt", VFun NpSqrt); ("abs", VFun PyAbs); ("max", VFun PyMax);
                ("min", VFun PyMin); ("log", VFun NpLog); ("exp", VFun NpExp) ]%string.

Definition as_values (metrics : list (string * pyfloat)) : list (string * pyval) :=
  map (fun kv => (kv.1, VFloat kv.2)) metrics.

(** What the [try] block of [_calculate_allocation] does before the
    clamp: [Ret x] when [float(result)] is [x], [Raise] when an exception
    reaches the [except]. *)
Definition formula_outcome (host : Host) (formula : string)
    (metrics : list (string * pyfloat)) : outcome pyfloat :=
  match substituted_eval (host_libm host) safe_dict formula metrics with
  | Unmodelled =>
      match host_eval host StressTest formula (as_values metrics) with
      | Some x => Ret x
      | None => Raise OtherException
      end
  | known => known
  end.

(** [_calculate_allocation] *)
Definition _calculate_allocation (host : Host) (formula : string)
    (metrics : list (string * pyfloat)) : Q :=
  match formula_outcome host formula metrics with
  | Ret x => clamp_0_100 x
  | _ => 5
  end.

(** ** The scenario runs

    The metric dictionaries hold Python floats, as their annotation
    [Dict[str, float]] says: a division by a baseline of zero raises.  A
    dictionary is the list of its items, in their order. *)

Inductive pyerror : Type :=
| KeyError (key : string)
| ZeroDivision.

Inductive raising (A : Type) : Type :=
| Done (a : A)
| Raises (e : pyerror).
Arguments Done {A} a.
Arguments Raises {A} e.

#[global] Instance raising_ret : MRet raising := fun _ a => Done a.

#[global] Instance raising_bind : MBind raising := fun _ _ k x =>
  match x with
  | Done a => k a
  | Raises e => Raises e
  end.

(** [d[key]] *)
Fixpoint getitem (key : string) (d : list (string * pyfloat)) : raising pyfloat :=
  match d with
  | [] => Raises (KeyError key)
  | (k, v) :: d' => if String.eqb key k then Done v else getitem key d'
  end.

(** [d[key] = value]: an existing key keeps its place, a new one goes to
    the end. *)
Fixpoint setitem (key : string) (value : pyfloat) (d : list (string * pyfloat))
    : list (string * pyfloat) :=
  match d with
  | [] => [(key, value)]
  | (k, v) :: d' =>
      if String.eqb key k then (k, value) :: d' else (k, v) :: setitem key value d'
  end.

(** [_apply_stress] *)
Definition _apply_stress (baseline : list (string * pyfloat)) (scenario : StressScenario)
    : raising (list (string * pyfloat)) :=
  let stressed := baseline in
  sharpe ← getitem "sharpe" baseline;
  let stressed :=
    setitem "sharpe" (py_max (Fin (-(3))) (fadd sharpe (Fin (sharpe_impact scenario))))
            stressed in
  omega ← getitem "omega" baseline;
  let stressed :=
    setitem "omega" (py_max (Fin (1#10)) (fadd omega (Fin (omega_impact scenario))))
            stressed in
  volatility ← getitem "volatility" baseline;
  let stressed :=
    setitem "volatility" (fmul volatility (Fin (volatility_multiplier scenario))) stressed in
  drawdown ← getitem "drawdown" baseline;
  let stressed :=
    setitem "drawdown"
            (py_min (Fin (95#100)) (fmul drawdown (Fin (drawdown_multiplier scenario))))
            stressed in
  win_rate ← getitem "win_rate" baseline;
  let stressed :=
    setitem "win_rate" (py_max (Fin (5#100)) (fadd win_rate (Fin (win_rate_impact scenario))))
            stressed in
  profit_factor ← getitem "profit_factor" baseline;
  let stressed :=
    setitem "profit_factor"
            (py_max (Fin (2#10)) (fmul profit_factor (Fin (1 + omega_impact scenario))))
            stressed in
  total_return ← getitem "total_return" baseline;
  let stressed :=
    setitem "total_return"
            (fmul total_return (Fin (1 + sharpe_impact scenario * (3#10)))) stressed in
  calmar ← getitem "calmar" baseline;
  let stressed :=
    setitem "calmar"
            (py_max (Fin (1#10)) (fmul calmar (Fin (1 + sharpe_impact scenario * (2#10)))))
            stressed in
  sortino ← getitem "sortino" baseline;
  let stressed :=
    setitem "sortino"
            (py_max (Fin (1#10)) (fadd sortino (Fin (sharpe_impact scenario * (8#10)))))
            stressed in
  Done stressed.

(** The keys [_apply_stress] reads and assigns. *)
Definition stressed_keys : list string :=
  ["sharpe"; "omega"; "volatility"; "drawdown"; "win_rate"; "profit_factor";
   "total_return"; "calmar"; "sortino"]%string.

(** [_calculate_risk_score] *)
Definition _calculate_risk_score (allocation prob_ruin worst_case : Q) : string :=
  if Qle_bool allocation 2 && Qle_bool prob_ruin 5 && Qle_bool worst_case 10
  then "🟢 TRÈS FAIBLE"
  else if Qle_bool allocation 5 && Qle_bool prob_ruin 15 && Qle_bool worst_case 25
  then "🟡 FAIBLE"
  else if Qle_bool allocation 15 && Qle_bool prob_ruin 35 && Qle_bool worst_case 50
  then "🟠 MODÉRÉ"
  else if Qle_bool allocation 30 && Qle_bool prob_ruin 60 && Qle_bool worst_case 75
  then "🔴 ÉLEVÉ"
  else "💀 EXTRÊME".

Record StressTestResults : Type := {
  scenario_name : string;
  formula : string;
  original_allocation : Q;
  stressed_allocation : Q;
  allocation_change_pct : Q;
  expected_loss : Q;
  worst_case_loss : Q;
  probability_ruin : Q;
  recovery_months : Z;
  risk_score : string;
  impact_analysis : list (string * pyfloat)
}.

(** [int(x)]: truncation towards zero. *)
Definition py_int (x : Q) : Z := Z.quot (Qnum x) (Z.pos (Qden x)).

(** [a / b] on two Python floats. *)
Definition float_div (a b : pyfloat) : raising pyfloat :=
  if is_zero b then Raises ZeroDivision else Done (fdiv a b).

(** [_analyze_impact] *)
Definition _analyze_impact (scenario : StressScenario) (formula : string)
    (baseline_alloc stressed_alloc : Q)
    (baseline_metrics stressed_metrics : list (string * pyfloat))
    : raising StressTestResults :=
  let alloc_change := ((stressed_alloc - baseline_alloc) / qmax baseline_alloc (1#100)) * 100 in
  let severity := _calculate_scenario_severity scenario in
  let allocation_ratio := stressed_alloc / 100 in
  let expected_loss := allocation_ratio * severity * (3#10) in
  let worst_case_loss := allocation_ratio * severity * (8#10) in
  let monthly_ruin_prob := (allocation_ratio ^ 2) * (2#100) in
  let prob_ruin := 1 - (1 - monthly_ruin_prob) ^ Z.of_nat (duration_months scenario) in
  let prob_ruin := qmin (95#100) prob_ruin in
  let recovery_months :=
    py_int (inject_Z (Z.of_nat (duration_months scenario)) * (1 + allocation_ratio * 2)) in
  let risk_score := _calculate_risk_score stressed_alloc prob_ruin worst_case_loss in
  stressed_sharpe ← getitem "sharpe" stressed_metrics;
  baseline_sharpe ← getitem "sharpe" baseline_metrics;
  stressed_volatility ← getitem "volatility" stressed_metrics;
  baseline_volatility ← getitem "volatility" baseline_metrics;
  volatility_ratio ← float_div stressed_volatility baseline_volatility;
  stressed_drawdown ← getitem "drawdown" stressed_metrics;
  baseline_drawdown ← getitem "drawdown" baseline_metrics;
  drawdown_ratio ← float_div stressed_drawdown baseline_drawdown;
  stressed_win_rate ← getitem "win_rate" stressed_metrics;
  baseline_win_rate ← getitem "win_rate" baseline_metrics;
  let impact_analysis :=
    [ ("sharpe_degradation", fsub stressed_sharpe baseline_sharpe);
      ("volatility_increase", fmul (fsub volatility_ratio (Fin 1)) (Fin 100));
      ("drawdown_increase", fmul (fsub drawdown_ratio (Fin 1)) (Fin 100));
      ("win_rate_drop", fmul (fsub stressed_win_rate baseline_win_rate) (Fin 100)) ]%string in
  Done {| scenario_name := name scenario;
          formula := formula;
          original_allocation := baseline_alloc;
          stressed_allocation := stressed_alloc;
          allocation_change_pct := alloc_change;
          expected_loss := expected_loss * 100;
          worst_case_loss := worst_case_loss * 100;
          probability_ruin := prob_ruin * 100;
          recovery_months := recovery_months;
          risk_score := risk_score;
          impact_analysis := impact_analysis |}.

(** The scenarios [run_stress_test] goes through: all of them when
    [scenario_name] is [None] or empty, else those of that name. *)
Definition selected_scenarios (scenario_name : option string) : list StressScenario :=
  match scenario_name with
  | Some n =>
      if String.eqb n "" then _create_historical_scenarios
      else List.filter (fun s => String.eqb (name s) n) _create_historical_scenarios
  | None => _create_historical_scenarios
  end.

(** [run_stress_test] *)
Definition run_stress_test (host : Host) (formula : string) (scenario_name : option string)
    (base_metrics : option (list (string * pyfloat))) : raising (list StressTestResults) :=
  let scenarios := selected_scenarios scenario_name in
  let baseline_metrics := _get_baseline_metrics base_metrics in
  let baseline_allocation := _calculate_allocation host formula baseline_metrics in
  mapM (fun scenario =>
          stressed_metrics ← _apply_stress baseline_metrics scenario;
          let stressed_allocation := _calculate_allocation host formula stressed_metrics in
          _analyze_impact scenario formula baseline_allocation stressed_allocation
                          baseline_metrics stressed_metrics)
       scenarios.

End StressTestEngine.

(** * The Monte Carlo Risk Simulator ([monte_carlo_engine.py]) *)

Module MonteCarloEngine.
Import PyEval.

(** The nine sampled arrays of [_generate_realistic_distributions]. *)
Record Distributions : Type := {
  d_sharpe : list pyfloat;
  d_omega : list pyfloat;
  d_volatility : list pyfloat;
  d_drawdown : list pyfloat;
  d_win_rate : list pyfloat;
  d_profit_factor : list pyfloat;
  d_total_return : list pyfloat;
  d_calmar : list pyfloat;
  d_sortino : list pyfloat
}.

Definition safe_dict : gmap string pyval :=
  list_to_map [ ("sqrt", VFun NpSqrt); ("abs", VFun NpAbs); ("max", VFun NpMaximum);
                ("min", VFun NpMinimum); ("log", VFun NpLog); ("exp", VFun NpExp) ]%string.

(** [sim_values] of trial [i]; [None] when an array is too short and the
    indexing raises. *)
Definition sim_values (metrics : Distributions) (i : nat) : option (list (string * pyfloat)) :=
  sharpe ← d_sharpe metrics !! i;
  omega ← d_omega metrics !! i;
  volatility ← d_volatility metrics !! i;
  drawdown ← d_drawdown metrics !! i;
  win_rate ← d_win_rate metrics !! i;
  profit_factor ← d_profit_factor metrics !! i;
  total_return ← d_total_return metrics !! i;
  calmar ← d_calmar metrics !! i;
  sortino ← d_sortino metrics !! i;
  Some [ ("sharpe", sharpe); ("omega", omega); ("volatility", volatility);
         ("drawdown", drawdown); ("win_rate", win_rate);
         ("profit_factor", profit_factor); ("total_return", total_return);
         ("calmar", calmar); ("sortino", sortino) ]%string.

Definition as_values (metrics : list (string * pyfloat)) : list (string * pyval) :=
  map (fun kv => (kv.1, VNp kv.2)) metrics.

(** The [try] block of one trial, before the clamp. *)
Definition formula_outcome (host : Host) (formula : string)
    (values : list (string * pyfloat)) : outcome pyfloat :=
  match substituted_eval (host_libm host) safe_dict formula values with
  | Unmodelled =>
      match host_eval host MonteCarlo formula (as_values values) with
      | Some x => Ret x
      | None => Raise OtherException
      end
  | known => known
  end.

(** The body of the loop of [_calculate_allocations] for one trial. *)
Definition trial_allocation (host : Host) (formula : string)
    (values : list (string * pyfloat)) : Q :=
  match formula_outcome host formula values with
  | Ret x => clamp_0_100 x
  | _ => 5
  end.

(** [_calculate_allocations]: [allocations[i]] is written for
    [i = 0 .. n_sims - 1] in turn. *)
Definition _calculate_allocations (host : Host) (formula : string)
    (metrics : Distributions) : option (list Q) :=
  let n_sims := length (d_sharpe metrics) in
  mapM (fun i => values ← sim_values metrics i;
                 Some (trial_allocation host formula values))
       (seq 0 n_sims).

(** Arrays of one size, as [_generate_realistic_distributions] makes them. *)
Definition well_sized (metrics : Distributions) (n : nat) : Prop :=
  length (d_sharpe metrics) = n /\ length (d_omega metrics) = n /\
  length (d_volatility metrics) = n /\ length (d_drawdown metrics) = n /\
  length (d_win_rate metrics) = n /\ length (d_profit_factor metrics) = n /\
  length (d_total_return metrics) = n /\ length (d_calmar metrics) = n /\
  length (d_sortino metrics) = n.

(** ** The random source

    [np.random] is a state [St] and the five draws the simulator makes. *)
Record RandomState (St : Type) : Type := {
  np_random : St -> Q * St;                   (* random() *)
  np_uniform : Q -> Q -> St -> Q * St;        (* uniform(low, high) *)
  np_normal : Q -> Q -> nat -> St -> list Q * St;  (* normal(loc, scale, size) *)
  np_poisson : Q -> St -> nat * St;           (* poisson(lam) *)
  np_randint : nat -> nat -> St -> nat * St   (* randint(low, high) *)
}.
Arguments np_random {St}.
Arguments np_uniform {St}.
Arguments np_normal {St}.
Arguments np_poisson {St}.
Arguments np_randint {St}.

Definition qmax (a b : Q) : Q := if Qlt_bool a b then b else a.

Section Simulation.

Context {St : Type} (rs : RandomState St).

(** The loop [for _ in range(n_tail_events)]. *)
Fixpoint tail_events (n : nat) (allocation : Q) (horizon : nat)
    (daily_returns : list Q) (s : St) : list Q * St :=
  match n with
  | O => (daily_returns, s)
  | S n' =>
      let '(day, s) := np_randint rs 0 horizon s in
      let '(u, s) := np_random rs s in
      if Qlt_bool u ((7#10) + allocation * (2#10)) then
        let '(shock, s) := np_uniform rs (5#100) (15#100) s in
        tail_events n' allocation horizon
          (alter (fun r => r - allocation * shock) day daily_returns) s
      else
        let '(shock, s) := np_uniform rs (3#100) (8#100) s in
        tail_events n' allocation horizon
          (alter (fun r => r + allocation * shock) day daily_returns) s
  end.

(** The path of a trial that is not ruined. *)
Definition simulate_path (allocation : Q) (horizon : nat) (s : St) : Q * St :=
  let daily_expected_return := allocation * (8#10000) in
  let daily_volatility := allocation * (25#1000) in
  let '(daily_returns, s) :=
    np_normal rs daily_expected_return daily_volatility horizon s in
  let '(n_tail_events, s) :=
    np_poisson rs ((1#10) * inject_Z (Z.of_nat horizon) / 252) s in
  let '(daily_returns, s) := tail_events n_tail_events allocation horizon daily_returns s in
  let cumulative_return := np_prod (map (fun r => 1 + r) daily_returns) - 1 in
  (qmax (-1) cumulative_return, s).

(** The body of the loop of [_simulate_returns] for one trial: the value
    stored in [returns[i]]. *)
Definition simulate_trial (allocation_pct : Q) (horizon : nat) (s : St) : Q * St :=
  let allocation := allocation_pct / 100 in
  if Qlt_bool (5#10) allocation then
    let ruin_probability := (allocation - (5#10)) * (2#100) in
    let '(u, s) := np_random rs s in
    if Qlt_bool u (ruin_probability * inject_Z (Z.of_nat horizon)) then
      let '(loss, s) := np_uniform rs (7#10) 1 s in
      (- allocation * loss, s)
    else simulate_path allocation horizon s
  else simulate_path allocation horizon s.

Fixpoint simulate_loop (indices : list nat) (allocations : list Q) (horizon : nat)
    (returns : list Q) (s : St) : option (list Q) * St :=
  match indices with
  | [] => (Some returns, s)
  | i :: rest =>
      match allocations !! i with
      | None => (None, s)                      (* IndexError *)
      | Some a =>
          let '(r, s) := simulate_trial a horizon s in
          simulate_loop rest allocations horizon (<[i := r]> returns) s
      end
  end.

(** [_simulate_returns(allocations, horizon, n_sims)] *)
Definition _simulate_returns (allocations : list Q) (horizon n_sims : nat) (s : St)
    : option (list Q) * St :=
  simulate_loop (seq 0 n_sims) allocations horizon (replicate n_sims 0) s.

(** Steps 2 and 3 of [run_simulation]. *)
Definition simulated_returns (host : Host) (formula : string) (n_simulations : nat)
    (horizon_days : nat) (metrics_distributions : Distributions) (s : St)
    : option (list Q) * St :=
  match _calculate_allocations host formula metrics_distributions with
  | Some allocations => _simulate_returns allocations horizon_days n_simulations s
  | None => (None, s)
  end.

End Simulation.

End MonteCarloEngine.

(** * The Overfitting Detector ([overfitting_detector.py]) *)

Module OverfittingDetector.
Import PyEval.

(** The values of the result dictionary. *)
#[warnings="-register-all"]
Inductive pyobj : Type :=
| ONum (q : Q)
| OStr (s : string)
| OList (l : list string)
| ODict (d : list (string * pyobj)).

Record StrategyData : Type := {
  sd_returns : option (list Q);
  sd_metrics : gmap string pyval
}.

Definition safe_dict : gmap string pyval :=
  list_to_map [ ("sqrt", VFun NpSqrt); ("max", VFun PyMax);
                ("min", VFun PyMin); ("abs", VFun PyAbs) ]%string.

(** The [try] block of [_evaluate_formula] before the clamp:
    [safe_dict.update(metrics); eval(formula, safe_dict)]. *)
Definition formula_outcome (host : Host) (formula : string)
    (metrics : gmap string pyval) : outcome pyfloat :=
  match float_eval (host_libm host) (metrics ∪ safe_dict) (chars formula) with
  | Unmodelled =>
      match host_eval host Overfitting formula (map_to_list metrics) with
      | Some x => Ret x
      | None => Raise OtherException
      end
  | known => known
  end.

(** [_evaluate_formula] *)
Definition _evaluate_formula (host : Host) (formula : string)
    (metrics : gmap string pyval) : Q :=
  match formula_outcome host formula metrics with
  | Ret x => clamp_0_50 x
  | _ => 10
  end.

Definition initial_results : gmap string pyobj :=
  list_to_map [ ("overfitting_score", ONum 0); ("risk_level", OStr "FAIBLE");
                ("warnings", OList []); ("recommendations", OList []);
                ("detailed_analysis", ODict []); ("time_stability", ODict []);
                ("cross_validation", ODict []); ("robustness_test", ODict []);
                ("correlation_analysis", ODict []) ]%string.

Definition not_enough_strategies : string :=
  "Pas assez de stratégies pour une analyse robuste".

(** [results['warnings'].append(w)] *)
Definition append_warning (w : string) (results : gmap string pyobj) : gmap string pyobj :=
  match results !! "warnings"%string with
  | Some (OList ws) => <["warnings"%string := OList (ws ++ [w])]> results
  | _ => results
  end.

Section Analysis.

(** The [try] block of [analyze_formula_overfitting]: the five analyses
    (which draw on scikit-learn, scipy and the random source) and what
    they store in [results]. *)
Variable run_analyses :
  gmap string StrategyData -> string -> gmap string Q ->
  gmap string pyobj -> gmap string pyobj.

(** [analyze_formula_overfitting] *)
Definition analyze_formula_overfitting (strategy_data : gmap string StrategyData)
    (formula : string) (current_allocations : gmap string Q) : gmap string pyobj :=
  let results := initial_results in
  if (size strategy_data <? 2)%nat then append_warning not_enough_strategies results
  else run_analyses strategy_data formula current_allocations results.

End Analysis.

(** ** The scores *)

Definition qmin (a b : Q) : Q := if Qlt_bool b a then b else a.
Definition qmax (a b : Q) : Q := if Qlt_bool a b then b else a.

(** [alloc > 50 or alloc < 0] *)
Definition is_extreme (alloc : Q) : bool := Qlt_bool 50 alloc || Qlt_bool alloc 0.

(** [_detect_extreme_allocations] *)
Definition _detect_extreme_allocations (current_allocations : gmap string Q) : Q :=
  if (size current_allocations =? 0)%nat then 50
  else
    let allocations := PortfolioModel.dict_values current_allocations in
    let extreme_count := length (List.filter is_extreme allocations) in
    let total_count := length allocations in
    let extreme_ratio :=
      if (0 <? total_count)%nat
      then inject_Z (Z.of_nat extreme_count) / inject_Z (Z.of_nat total_count)
      else 0 in
    qmax 0 (100 - extreme_ratio * 150).

(** [d.get('score', 0)] when that is a number. *)
Definition sub_score (d : gmap string pyobj) : Q :=
  match d !! "score"%string with
  | Some (ONum q) => q
  | _ => 0
  end.

(** [d.get('score', 0) * weight]; [None] is the [TypeError] of a score
    that is no number. *)
Definition weighted_score (d : gmap string pyobj) (weight : Q) : option Q :=
  match d !! "score"%string with
  | None => Some (0 * weight)
  | Some (ONum q) => Some (q * weight)
  | Some _ => None
  end.

(** The builtin [sum]: from 0, left to right. *)
Definition py_sum (l : list Q) : Q := foldl Qplus 0 l.

(** [_calculate_overfitting_score] *)
Definition _calculate_overfitting_score (stability cv robustness correlation : gmap string pyobj)
    (extreme : Q) : option Q :=
  s1 ← weighted_score stability (25#100);
  s2 ← weighted_score cv (25#100);
  s3 ← weighted_score robustness (20#100);
  s4 ← weighted_score correlation (20#100);
  let scores := [s1; s2; s3; s4; extreme * (10#100)] in
  let final_score := py_sum scores in
  let overfitting_score := 100 - final_score in
  Some (qmax 0 (qmin 100 overfitting_score)).

(** [_determine_risk_level] *)
Definition _determine_risk_level (overfitting_score : Q) : string :=
  if Qlt_bool overfitting_score 30 then "FAIBLE"
  else if Qlt_bool overfitting_score 60 then "MODERE"
  else "ELEVE".

(** [s.count(sub)] for a non-empty [sub]: the occurrences that do not
    overlap, scanning from the left. *)
Fixpoint count_from (skip : nat) (sub s : list ascii) : nat :=
  match s with
  | [] => 0
  | _ :: s' =>
      match skip with
      | S k => count_from k sub s'
      | O =>
          if is_prefix sub s then S (count_from (length sub - 1) sub s')
          else count_from 0 sub s'
      end
  end.

Definition count (sub : string) (s : string) : nat := count_from 0 (chars sub) (chars s).

(** [len([x for x in candidates if x in formula])] *)
Definition count_present (candidates : list string) (formula : string) : nat :=
  length (List.filter (fun x => occurs (chars x) (chars formula)) candidates).

Record Complexity : Type := {
  complexity_score : nat;
  complexity_level : string;
  operator_count : nat;
  function_count : nat
}.

(** [_analyze_formula_complexity] *)
Definition _analyze_formula_complexity (formula : string) : Complexity :=
  let operators := ["+"; "-"; "*"; "/"; "**"; "("; ")"]%string in
  let functions := ["sqrt"; "max"; "min"; "abs"]%string in
  let complexity_score := 0%nat in
  let complexity_score := (complexity_score + count_present operators formula * 1)%nat in
  let complexity_score := (complexity_score + count_present functions formula * 2)%nat in
  let complexity_score := (complexity_score + count "/" formula * 3)%nat in
  let complexity_score := (complexity_score + count "**" formula * 4)%nat in
  {| complexity_score := complexity_score;
     complexity_level :=
       if (complexity_score <? 5)%nat then "SIMPLE"
       else if (15 <? complexity_score)%nat then "COMPLEXE" else "MODEREE";
     operator_count := count_present operators formula;
     function_count := count_present functions formula |}.

End OverfittingDetector.

(** * The Metrics Engine: the trade statistics ([strategy_model.py])

    The metrics of a return series that are built from counts, sums and
    products.  [self.returns] is an array of finite values; a metric is a
    [pyfloat] where the code can produce an infinity or NaN. *)

Module StrategyMetrics.
Import PyEval.

(** [self.returns[self.returns > 0]] and [self.returns[self.returns < 0]] *)
Definition wins (returns : list Q) : list Q := List.filter (fun r => Qlt_bool 0 r) returns.
Definition losses (returns : list Q) : list Q := List.filter (fun r => Qlt_bool r 0) returns.

(** [_calculate_total_return]: [np.prod(1 + self.returns) - 1] *)
Definition _calculate_total_return (returns : list Q) : Q :=
  np_prod (map (fun r => 1 + r) returns) - 1.

(** [_calculate_win_rate]: [np.sum(self.returns > 0) / len(self.returns)],
    a [numpy] division, NaN on the empty array. *)
Definition _calculate_win_rate (returns : list Q) : pyfloat :=
  match returns with
  | [] => NaN
  | _ => Fin (inject_Z (Z.of_nat (length (wins returns)))
              / inject_Z (Z.of_nat (length returns)))
  end.

(** [_calculate_profit_factor] *)
Definition _calculate_profit_factor (returns : list Q) : pyfloat :=
  let gains := np_sum (wins returns) in
  let losses := Qabs (np_sum (losses returns)) in
  if Qeq_bool losses 0 then PInf else Fin (gains / losses).

(** [_calculate_payoff_ratio] *)
Definition _calculate_payoff_ratio (returns : list Q) : pyfloat :=
  let wins := wins returns in
  let losses := losses returns in
  if (length losses =? 0)%nat then PInf
  else if (length wins =? 0)%nat then Fin 0
  else Fin (np_mean wins / Qabs (np_mean losses)).

(** [_calculate_kelly_criterion] *)
Definition _calculate_kelly_criterion (returns : list Q) : pyfloat :=
  let win_rate := _calculate_win_rate returns in
  let payoff_ratio := _calculate_payoff_ratio returns in
  if is_zero payoff_ratio then Fin 0
  else fdiv (fsub (fmul payoff_ratio win_rate) (fsub (Fin 1) win_rate)) payoff_ratio.

(** [_calculate_expectancy] *)
Definition _calculate_expectancy (returns : list Q) : pyfloat :=
  let win_rate := _calculate_win_rate returns in
  let wins := wins returns in
  let losses := losses returns in
  let avg_win := if (0 <? length wins)%nat then np_mean wins else 0 in
  let avg_loss := if (0 <? length losses)%nat then np_mean losses else 0 in
  fadd (fmul win_rate (Fin avg_win)) (fmul (fsub (Fin 1) win_rate) (Fin avg_loss)).

(** [np.cumprod] and [np.maximum.accumulate] *)
Fixpoint cumprod_from (acc : Q) (l : list Q) : list Q :=
  match l with
  | [] => []
  | x :: l' => let acc := acc * x in acc :: cumprod_from acc l'
  end.

Definition np_cumprod (l : list Q) : list Q :=
  match l with
  | [] => []
  | x :: l' => x :: cumprod_from x l'
  end.

Fixpoint maximum_from (best : Q) (l : list Q) : list Q :=
  match l with
  | [] => []
  | x :: l' => let best := if Qlt_bool best x then x else best in best :: maximum_from best l'
  end.

Definition np_maximum_accumulate (l : list Q) : list Q :=
  match l with
  | [] => []
  | x :: l' => x :: maximum_from x l'
  end.

(** An entry of [(peak - cumulative) / peak].  The division of [numpy]
    warns on a zero divisor and returns NaN for [0/0]; the infinity it
    returns otherwise has the sign of the zero, which is not modelled. *)
Definition drawdown_entry (pc : Q * Q) : outcome pyfloat :=
  let '(peak, cumulative) := pc in
  if Qeq_bool peak 0 then
    if Qeq_bool (peak - cumulative) 0 then Ret NaN else Unmodelled
  else Ret (Fin ((peak - cumulative) / peak)).

(** [_get_drawdown_series] *)
Definition _get_drawdown_series (returns : list Q) : outcome (list pyfloat) :=
  let cumulative := np_cumprod (map (fun r => 1 + r) returns) in
  let peak := np_maximum_accumulate cumulative in
  mapM drawdown_entry (zip peak cumulative).

(** [np.max]: NaN if an entry is, [ValueError] on the empty array. *)
Definition np_max (l : list pyfloat) : outcome pyfloat :=
  match l with
  | [] => Raise ValueError
  | x :: l' => Ret (foldl (np_extremum (fun candidate best => flt best candidate)) x l')
  end.

(** [_calculate_max_drawdown] *)
Definition _calculate_max_drawdown (returns : list Q) : outcome pyfloat :=
  drawdown ← _get_drawdown_series returns;
  np_max drawdown.

(** [np.mean] of an array of floats: NaN (0/0) on the empty array. *)
Definition np_mean_float (l : list pyfloat) : pyfloat :=
  match l with
  | [] => NaN
  | _ => fdiv (foldr fadd (Fin 0) l) (Fin (inject_Z (Z.of_nat (length l))))
  end.

(** [_calculate_pain_index]: [np.mean(np.abs(drawdowns))] *)
Definition _calculate_pain_index (returns : list Q) : outcome pyfloat :=
  drawdowns ← _get_drawdown_series returns;
  Ret (np_mean_float (map fabs drawdowns)).

(** [_calculate_recovery_factor] *)
Definition _calculate_recovery_factor (returns : list Q) : outcome pyfloat :=
  let total_return := _calculate_total_return returns in
  max_dd ← _calculate_max_drawdown returns;
  if is_zero max_dd then Ret (Fin 0)
  else Ret (fdiv (Fin total_return) (fabs max_dd)).

(** [_calculate_gain_to_pain_ratio] *)
Definition _calculate_gain_to_pain_ratio (returns : list Q) : outcome pyfloat :=
  let total_return := _calculate_total_return returns in
  pain_index ← _calculate_pain_index returns;
  if is_zero pain_index then Ret (Fin 0)
  else Ret (fdiv (Fin total_return) pain_index).

Section Annualized.

(** [_calculate_annualized_return] raises the total return to the power
    [252 / n]; its result is a parameter. *)
Variable _calculate_annualized_return : list Q -> pyfloat.

(** [_calculate_calmar_ratio] *)
Definition _calculate_calmar_ratio (returns : list Q) : outcome pyfloat :=
  max_dd ← _calculate_max_drawdown returns;
  if is_zero max_dd then Ret (Fin 0)
  else Ret (fdiv (_calculate_annualized_return returns) (fabs max_dd)).

End Annualized.

Section PositionSize.

(** The three sizing rules that call into [scipy.optimize] or take a
    square root; their results are parameters. *)
Variable _calculate_optimal_f : list Q -> pyfloat.
Variable _calculate_volatility_target : list Q -> pyfloat.
Variable _calculate_risk_parity : list Q -> pyfloat.

Definition sizing_methods : list (string * (list Q -> pyfloat)) :=
  [ ("kelly", _calculate_kelly_criterion);
    ("optimal_f", _calculate_optimal_f);
    ("fixed_fractional", fun _ => Fin (2#100));
    ("volatility_targeting", _calculate_volatility_target);
    ("risk_parity", _calculate_risk_parity) ]%string.

(** [optimize_position_size(method, max_position)] *)
Definition optimize_position_size (returns : list Q) (method : string) (max_position : Q)
    : pyfloat :=
  match List.find (fun kv => String.eqb method kv.1) sizing_methods with
  | Some (_, f) =>
      let position := f returns in
      py_min position (Fin max_position)
  | None => Fin (2#100)
  end.

End PositionSize.

End StrategyMetrics.

(** * The specification's wording

    Definitions that follow the sentences of the specification rather
    than the code; the theorems below compare the two. *)

Module Spec.
Import PyEval.






(** §4.3, [kelly]: "per-strategy Kelly criterion from the Metrics Engine,
    capped to [0, 0.25], renormalized; strategies lacking the metric
    default to a small constant (0.02) before renormalization". *)
Definition kelly_capped (s : PortfolioModel.Strategy) : Q :=
  match PortfolioModel.metrics s !! "kelly_criterion"%string with
  | Some kelly => PortfolioModel.finite_part (py_max (Fin 0) (py_min kelly (Fin (1#4))))
  | None => 2#100
  end.

Definition option_Qeq (a b : option Q) : Prop :=
  match a, b with
  | Some x, Some y => x == y
  | None, None => True
  | _, _ => False
  end.

Definition kelly_as_specified : Prop :=
  forall (strats : gmap string PortfolioModel.Strategy) (n : string),
    let raw := kelly_capped <$> strats in
    option_Qeq (PortfolioModel._kelly_allocation strats !! n)
               ((fun w => w / PortfolioModel.sum_values raw) <$> raw !! n).




(** §4.6: fewer than 2 strategies "yields a documented insufficient data
    result rather than a numeric score". *)
Definition has_numeric_score (results : gmap string OverfittingDetector.pyobj) : Prop :=
  exists q, results !! "overfitting_score"%string = Some (OverfittingDetector.ONum q).

Definition no_score_when_insufficient : Prop :=
  forall run_analyses strategy_data formula current_allocations,
    (size strategy_data < 2)%nat ->
    ~ has_numeric_score
        (OverfittingDetector.analyze_formula_overfitting run_analyses
           strategy_data formula current_allocations).

End Spec.

(** * Data for the examples *)

Module Examples.
Import PyEval PortfolioModel StressTestEngine MonteCarloEngine.

Definition mild_shock : StressScenario :=
  {| name := "mild"; description := ""; period := "";
     sharpe_impact := -(5); omega_impact := -(12#10);
     volatility_multiplier := 2; drawdown_multiplier := 2;
     win_rate_impact := -(7#10); duration_months := 1 |}.

(** Two scenarios of the engine's table. *)
Definition black_monday_1987 : StressScenario :=
  nth 0 _create_historical_scenarios mild_shock.
Definition taux_fed_2022 : StressScenario :=
  nth 5 _create_historical_scenarios mild_shock.

Definition pure_volatility_shock : StressScenario :=
  {| name := "volatility only"; description := ""; period := "";
     sharpe_impact := 0; omega_impact := 0;
     volatility_multiplier := 3; drawdown_multiplier := 3;
     win_rate_impact := 0; duration_months := 1 |}.

Definition no_strategy : Strategy :=
  {| s_name := "A"; returns := None; metrics := ∅ |}.

Definition overweight : Portfolio :=
  {| PortfolioModel.name := "Portfolio";
     initial_capital := 100000; current_capital := 100000;
     strategies := {["A"%string := no_strategy]};
     allocations := {["A"%string := 2]} |}.

Definition with_kelly (k : Q) : Strategy :=
  {| s_name := "A"; returns := None;
     metrics := {["kelly_criterion"%string := Fin k]} |}.

Definition two_strategies : gmap string Strategy :=
  {["A"%string := with_kelly (4#10); "B"%string := no_strategy]}.

Definition steady : Strategy :=
  {| s_name := "steady"; returns := Some [1; 1; 1]; metrics := ∅ |}.
Definition swinging : Strategy :=
  {| s_name := "swinging"; returns := Some [1; -1]; metrics := ∅ |}.
Definition wild : Strategy :=
  {| s_name := "wild"; returns := Some [2; -2]; metrics := ∅ |}.
Definition empty_series : Strategy :=
  {| s_name := "empty"; returns := Some []; metrics := ∅ |}.

Definition four_strategies : gmap string Strategy :=
  {["steady"%string := steady; "swinging"%string := swinging;
    "wild"%string := wild; "empty"%string := empty_series]}.

Definition long_series : Strategy :=
  {| s_name := "long"; returns := Some [1; 2; 3; 4]; metrics := ∅ |}.

(** [np.array([0.1, 0.1, 0.1])] and [np.array([0.01, 0.03])]. *)
Definition constant_series : Strategy :=
  {| s_name := "constant"; returns := Some [1#10; 1#10; 1#10]; metrics := ∅ |}.
Definition moving_series : Strategy :=
  {| s_name := "moving"; returns := Some [1#100; 3#100]; metrics := ∅ |}.

Definition constant_and_moving : gmap string Strategy :=
  {["constant"%string := constant_series; "moving"%string := moving_series]}.

(** Weights 0.1, 0.2 and -0.3 on three series of two observations. *)
Definition long_short : Portfolio :=
  {| PortfolioModel.name := "Portfolio";
     initial_capital := 100000; current_capital := 100000;
     strategies := {["a"%string := {| s_name := "a"; returns := Some [1; 2]; metrics := ∅ |};
                     "b"%string := {| s_name := "b"; returns := Some [2; 4]; metrics := ∅ |};
                     "c"%string := {| s_name := "c"; returns := Some [4; 10]; metrics := ∅ |}]};
     allocations := {["a"%string := 1#10; "b"%string := 2#10; "c"%string := -(3#10)]} |}.

Definition sharpe_one_drawdown_zero : list (string * pyfloat) :=
  [("sharpe"%string, Fin 1); ("drawdown"%string, Fin 0)].

(** A random source that always draws the same: 0 from [random()], the
    upper bound from [uniform], the mean from [normal], and no tail event. *)
Definition fixed_draws : RandomState unit :=
  {| np_random := fun s => (0, s);
     np_uniform := fun low high s => (high, s);
     np_normal := fun loc scale size s => (replicate size loc, s);
     np_poisson := fun lam s => (0%nat, s);
     np_randint := fun low high s => (low, s) |}.

Definition one_trial : Distributions :=
  {| d_sharpe := [Fin (4#10)]; d_omega := [Fin (105#100)]; d_volatility := [Fin (18#100)];
     d_drawdown := [Fin (12#100)]; d_win_rate := [Fin (52#100)];
     d_profit_factor := [Fin (115#100)]; d_total_return := [Fin (8#100)];
     d_calmar := [Fin (6#10)]; d_sortino := [Fin (5#10)] |}.

End Examples.

(** * Facts about the numeric base *)

Lemma Qlt_bool_iff (x y : Q) : Qlt_bool x y = true <-> x < y.
Proof.
  unfold Qlt_bool. rewrite negb_true_iff.
  split; intros H.
  - apply Qnot_le_lt. intros Hle. apply Qle_bool_iff in Hle. congruence.
  - destruct (Qle_bool y x) eqn:E; [|reflexivity].
    apply Qle_bool_iff in E. exfalso. apply (Qlt_not_le _ _ H E).
Qed.

Lemma Qlt_bool_false (x y : Q) : Qlt_bool x y = false <-> y <= x.
Proof.
  unfold Qlt_bool. rewrite negb_false_iff. apply Qle_bool_iff.
Qed.

Lemma Qle_bool_false (x y : Q) : Qle_bool x y = false <-> y < x.
Proof.
  rewrite <- Qlt_bool_iff. unfold Qlt_bool.
  destruct (Qle_bool x y); simpl; split; congruence.
Qed.

Lemma Qeq_bool_false (x y : Q) : Qeq_bool x y = false <-> ~ x == y.
Proof.
  split.
  - intros H E. apply Qeq_eq_bool in E. congruence.
  - intros H. destruct (Qeq_bool x y) eqn:E; [|reflexivity].
    apply Qeq_bool_eq in E. contradiction.
Qed.

(** Case analysis on the boolean tests of the code. *)
Ltac qcase b :=
  let E := fresh "E" in
  destruct b eqn:E;
  [ first [ apply Qlt_bool_iff in E | apply Qle_bool_iff in E | apply Qeq_bool_eq in E ]
  | first [ apply Qlt_bool_false in E | apply Qle_bool_false in E | apply Qeq_bool_false in E ] ].

Lemma np_sum_cons (x : Q) (l : list Q) : np_sum (x :: l) = x + np_sum l.
Proof. reflexivity. Qed.

Lemma np_sum_nonneg (l : list Q) : Forall (fun x => 0 <= x) l -> 0 <= np_sum l.
Proof.
  induction 1 as [|x l Hx _ IH]; [cbn; lra|].
  rewrite np_sum_cons. lra.
Qed.

Lemma np_sum_app (l1 l2 : list Q) : np_sum (l1 ++ l2) == np_sum l1 + np_sum l2.
Proof.
  induction l1 as [|x l1 IH]; cbn [app].
  - cbn. lra.
  - rewrite !np_sum_cons. lra.
Qed.

(** * The Metrics Engine: the Omega ratio *)

Section OmegaFacts.
Import StrategyModel.

Lemma omega_losses_nonneg (returns : list Q) (t : Q) :
  Forall (fun x => 0 <= x) (omega_losses returns t).
Proof.
  unfold omega_losses. induction returns as [|r l IH]; cbn; [constructor|].
  qcase (Qle_bool r t); cbn; [constructor; [lra|]|]; exact IH.
Qed.

(** The filtered sums of the code are the sums of the specification. *)
Lemma omega_losses_sum (returns : list Q) (t : Q) :
  np_sum (omega_losses returns t) == sum_shortfalls_below returns t.
Proof.
  unfold omega_losses, sum_shortfalls_below.
  induction returns as [|r l IH]; cbn [map List.filter]; [reflexivity|].
  rewrite np_sum_cons.
  qcase (Qle_bool r t); cbn [map]; rewrite ?np_sum_cons, IH.
  - rewrite Q.max_l by lra. reflexivity.
  - rewrite Q.max_r by lra. lra.
Qed.

Lemma omega_gains_sum (returns : list Q) (t : Q) :
  np_sum (omega_gains returns t) == sum_gains_above returns t.
Proof.
  unfold omega_gains, sum_gains_above.
  induction returns as [|r l IH]; cbn [map List.filter]; [reflexivity|].
  rewrite np_sum_cons.
  qcase (Qlt_bool t r); cbn [map]; rewrite ?np_sum_cons, IH.
  - rewrite Q.max_l by lra. reflexivity.
  - rewrite Q.max_r by lra. lra.
Qed.

Lemma omega_losses_empty (returns : list Q) (t : Q) :
  Forall (fun r => t < r) returns -> omega_losses returns t = [].
Proof.
  unfold omega_losses. induction 1 as [|r l Hr _ IH]; cbn; [reflexivity|].
  qcase (Qle_bool r t); [lra|exact IH].
Qed.

(** C3.  The Omega ratio of a return series is the positive-infinite
    sentinel when there are no shortfalls below the threshold or they sum to
    zero, and otherwise the sum of the gains above the threshold divided by
    the sum of the shortfalls below it; on a series whose observations all
    lie above the threshold it is the sentinel.  The function is total, so
    it never raises. *)
Theorem omega_ratio_spec (returns : list Q) (t : Q) :
  (sum_shortfalls_below returns t == 0 -> _calculate_omega_ratio returns t = PInf) /\
  (~ sum_shortfalls_below returns t == 0 ->
     exists q, _calculate_omega_ratio returns t = Fin q /\
               q == sum_gains_above returns t / sum_shortfalls_below returns t) /\
  (Forall (fun r => t < r) returns -> _calculate_omega_ratio returns t = PInf).
Proof.
  unfold _calculate_omega_ratio. repeat split.
  - intros H0. rewrite <- omega_losses_sum in H0.
    apply Qeq_eq_bool in H0. rewrite H0, orb_true_r. reflexivity.
  - intros Hne. rewrite <- omega_losses_sum in Hne.
    apply Qeq_bool_false in Hne. rewrite Hne, orb_false_r.
    destruct (omega_losses returns t) as [|x l] eqn:El.
    + exfalso. apply Qeq_bool_false in Hne. apply Hne. reflexivity.
    + cbn [length Nat.eqb]. eexists. split; [reflexivity|].
      rewrite omega_gains_sum, <- El, omega_losses_sum. reflexivity.
  - intros Hall. rewrite (omega_losses_empty _ _ Hall). reflexivity.
Qed.

End OmegaFacts.

(** * The Stress Test Engine: scenario severity *)

Section SeverityFacts.
Import StressTestEngine Examples.

Lemma qmin_spec (a b : Q) : qmin a b <= a /\ qmin a b <= b /\ (qmin a b = a \/ qmin a b = b).
Proof.
  unfold qmin. qcase (Qlt_bool b a); repeat split; auto; lra.
Qed.

Lemma qmin_monotone (a b c : Q) : b <= c -> qmin a b <= qmin a c.
Proof.
  intros H. unfold qmin.
  qcase (Qlt_bool b a); qcase (Qlt_bool c a); lra.
Qed.

Lemma severity_mean (s : StressScenario) :
  np_mean (severity_factors s) ==
  (Qabs (sharpe_impact s) * (1#5) + Qabs (omega_impact s) * (10#12)
   + (volatility_multiplier s - 1) * (1#9) + (drawdown_multiplier s - 1) * (1#7)
   + Qabs (win_rate_impact s) * (10#7)) * (1#5).
Proof.
  unfold np_mean, severity_factors. cbn [length np_sum foldr].
  change (inject_Z (Z.of_nat 5)) with 5. field.
Qed.

(** The score never exceeds 1. *)
Lemma severity_capped (s : StressScenario) : _calculate_scenario_severity s <= 1.
Proof. unfold _calculate_scenario_severity. apply qmin_spec. Qed.

(** For scenarios at large the two multipliers do not order the scores
    by themselves, the three impacts count as much; together they do. *)
Lemma severity_monotone (s1 s2 : StressScenario) :
  volatility_multiplier s1 < volatility_multiplier s2 ->
  drawdown_multiplier s1 < drawdown_multiplier s2 ->
  Qabs (sharpe_impact s1) <= Qabs (sharpe_impact s2) ->
  Qabs (omega_impact s1) <= Qabs (omega_impact s2) ->
  Qabs (win_rate_impact s1) <= Qabs (win_rate_impact s2) ->
  _calculate_scenario_severity s1 <= _calculate_scenario_severity s2.
Proof.
  intros Hv Hd Hs Ho Hw. unfold _calculate_scenario_severity.
  apply qmin_monotone. rewrite !severity_mean.
  set (a1 := Qabs (sharpe_impact s1)) in *. set (a2 := Qabs (sharpe_impact s2)) in *.
  set (b1 := Qabs (omega_impact s1)) in *. set (b2 := Qabs (omega_impact s2)) in *.
  set (c1 := Qabs (win_rate_impact s1)) in *. set (c2 := Qabs (win_rate_impact s2)) in *.
  clearbody a1 a2 b1 b2 c1 c2. lra.
Qed.

(** Two scenarios that are not in the table: 41/63 and 32/315. *)
Example severity_of_the_two_shocks :
  _calculate_scenario_severity mild_shock == 41#63 /\
  _calculate_scenario_severity pure_volatility_shock == 32#315.
Proof. split; vm_compute; reflexivity. Qed.

(** C7.  The engine scores the scenarios of its table
    ([self.scenarios], the seven historical scenarios; no other scenario
    is built).  Of two of them, the one with the strictly larger
    volatility multiplier and drawdown multiplier never has the lower
    severity score; the score is the mean of the five normalized shock
    magnitudes, capped at 1. *)
Theorem severity_monotone_on_the_table (s1 s2 : StressScenario) :
  In s1 _create_historical_scenarios -> In s2 _create_historical_scenarios ->
  volatility_multiplier s1 < volatility_multiplier s2 ->
  drawdown_multiplier s1 < drawdown_multiplier s2 ->
  _calculate_scenario_severity s1 <= _calculate_scenario_severity s2 /\
  _calculate_scenario_severity s2 = qmin 1 (np_mean (severity_factors s2)) /\
  _calculate_scenario_severity s2 <= 1.
Proof.
  intros H1 H2 Hv Hd.
  split; [|split; [reflexivity|apply severity_capped]].
  apply Qlt_bool_iff in Hv. apply Qlt_bool_iff in Hd. apply Qle_bool_iff.
  cbn [In _create_historical_scenarios] in H1, H2.
  repeat (destruct H1 as [<-|H1]; [|]); try contradiction;
    repeat (destruct H2 as [<-|H2]; [|]); try contradiction;
    vm_compute in Hv, Hd |- *; congruence.
Qed.

Lemma severity_monotone_on_the_table_witness :
  _calculate_scenario_severity taux_fed_2022
  <= _calculate_scenario_severity black_monday_1987 /\
  _calculate_scenario_severity black_monday_1987
  = qmin 1 (np_mean (severity_factors black_monday_1987)) /\
  _calculate_scenario_severity black_monday_1987 <= 1.
Proof.
  apply (severity_monotone_on_the_table taux_fed_2022 black_monday_1987).
  - do 5 right. left. reflexivity.
  - left. reflexivity.
  - vm_compute. reflexivity.
  - vm_compute. reflexivity.
Defined.

End SeverityFacts.

(** * The Overfitting Detector: the guard on the number of strategies *)

Section DetectorFacts.
Import OverfittingDetector.

Lemma insufficient_result run_analyses strategy_data formula current_allocations :
  (size strategy_data < 2)%nat ->
  analyze_formula_overfitting run_analyses strategy_data formula current_allocations
  = <["warnings"%string := OList [not_enough_strategies]]> initial_results.
Proof.
  intros H. unfold analyze_formula_overfitting.
  apply Nat.ltb_lt in H. rewrite H. reflexivity.
Qed.

(** C9, as the code has it.  With fewer than two strategies no analysis is
    run: the result is the initial dictionary with the one warning "Pas
    assez de stratégies pour une analyse robuste" appended.  Its
    [overfitting_score] entry is the initial 0.0 and its [risk_level] the
    initial 'FAIBLE'. *)
Theorem insufficient_strategies_result run_analyses strategy_data formula current_allocations :
  (size strategy_data < 2)%nat ->
  let results :=
    analyze_formula_overfitting run_analyses strategy_data formula current_allocations in
  results !! "warnings"%string = Some (OList [not_enough_strategies]) /\
  results !! "overfitting_score"%string = Some (ONum 0) /\
  results !! "risk_level"%string = Some (OStr "FAIBLE") /\
  (forall k, k <> "warnings"%string -> results !! k = initial_results !! k).
Proof.
  intros H results. subst results. rewrite (insufficient_result _ _ _ _ H).
  split; [apply lookup_insert_eq|].
  split; [vm_compute; reflexivity|].
  split; [vm_compute; reflexivity|].
  intros k Hk. apply lookup_insert_ne. congruence.
Qed.

Lemma insufficient_strategies_result_witness :
  let results := analyze_formula_overfitting (fun _ _ _ r => r) ∅ "sharpe" ∅ in
  results !! "warnings"%string = Some (OList [not_enough_strategies]) /\
  results !! "overfitting_score"%string = Some (ONum 0) /\
  results !! "risk_level"%string = Some (OStr "FAIBLE") /\
  (forall k, k <> "warnings"%string -> results !! k = initial_results !! k).
Proof.
  apply (insufficient_strategies_result (fun _ _ _ r => r) ∅ "sharpe" ∅).
  rewrite map_size_empty. lia.
Defined.

(** With no strategy at all the result still carries a number under
    [overfitting_score]. *)
Lemma insufficient_result_has_a_score : ~ Spec.no_score_when_insufficient.
Proof.
  intros H.
  apply (H (fun _ _ _ r => r) ∅ "sharpe"%string ∅).
  - rewrite map_size_empty. lia.
  - exists 0. reflexivity.
Qed.

End DetectorFacts.

(** * The Allocation Optimizer *)

Section PortfolioFacts.
Import PortfolioModel Examples.

(** ** Sums over a weight mapping *)

Lemma sum_values_empty : sum_values ∅ = 0.
Proof. unfold sum_values. apply map_fold_empty. Qed.

Lemma sum_values_insert (d : gmap string Q) (k : string) (v : Q) :
  d !! k = None -> sum_values (<[k := v]> d) == sum_values d + v.
Proof.
  intros Hk. unfold sum_values.
  apply (map_fold_insert Qeq (fun _ v acc => acc + v)); [| |exact Hk].
  - intros j z x y Hxy. rewrite Hxy. reflexivity.
  - intros j1 j2 z1 z2 y _ _ _. ring.
Qed.

Lemma sum_values_nonneg (d : gmap string Q) :
  map_Forall (fun _ v => 0 <= v) d -> 0 <= sum_values d.
Proof.
  induction d as [|k v d Hk IH] using map_ind; intros Hall.
  - rewrite sum_values_empty. lra.
  - rewrite sum_values_insert by exact Hk.
    apply map_Forall_insert in Hall; [|exact Hk]. destruct Hall as [Hv Hd].
    specialize (IH Hd). lra.
Qed.

Lemma sum_values_positive (d : gmap string Q) :
  map_Forall (fun _ v => 0 < v) d -> d <> ∅ -> 0 < sum_values d.
Proof.
  induction d as [|k v d Hk IH] using map_ind; intros Hall Hne; [congruence|].
  rewrite sum_values_insert by exact Hk.
  apply map_Forall_insert in Hall; [|exact Hk]. destruct Hall as [Hv Hd].
  assert (0 <= sum_values d).
  { apply sum_values_nonneg. intros i x Hi. apply Qlt_le_weak. exact (Hd i x Hi). }
  lra.
Qed.

Lemma sum_values_divide_all (d : gmap string Q) (t : Q) :
  sum_values (divide_all d t) == sum_values d / t.
Proof.
  unfold divide_all.
  induction d as [|k v d Hk IH] using map_ind.
  - rewrite fmap_empty, sum_values_empty. unfold Qdiv. ring.
  - rewrite fmap_insert, !sum_values_insert, IH.
    + unfold Qdiv. ring.
    + exact Hk.
    + rewrite lookup_fmap, Hk. reflexivity.
Qed.

(** Dividing by a positive total makes the weights sum to 1. *)
Lemma divide_all_sums_to_one (d : gmap string Q) :
  0 < sum_values d -> sum_values (divide_all d (sum_values d)) == 1.
Proof.
  intros Hpos. rewrite sum_values_divide_all. field. lra.
Qed.

Lemma divide_all_sums_to_one' (d : gmap string Q) (t : Q) :
  t == sum_values d -> 0 < t -> sum_values (divide_all d t) == 1.
Proof.
  intros Ht Hpos. rewrite sum_values_divide_all, <- Ht. field. lra.
Qed.

Lemma lookup_divide_all (d : gmap string Q) (t : Q) (k : string) :
  divide_all d t !! k = (fun v => v / t) <$> d !! k.
Proof. unfold divide_all. apply lookup_fmap. Qed.

(** ** [_normalize_allocations] *)

Lemma normalize_positive (p : Portfolio) :
  0 < sum_values (allocations p) ->
  allocations (_normalize_allocations p)
  = divide_all (allocations p) (sum_values (allocations p)).
Proof.
  intros H. unfold _normalize_allocations.
  apply Qlt_bool_iff in H. rewrite H. reflexivity.
Qed.

Lemma normalize_not_positive (p : Portfolio) :
  sum_values (allocations p) <= 0 -> _normalize_allocations p = p.
Proof.
  intros H. unfold _normalize_allocations.
  apply Qlt_bool_false in H. rewrite H. reflexivity.
Qed.




(** [add_strategy] ends with [_normalize_allocations] as well. *)
Example add_strategy_rescales :
  option_map Qred (allocations (add_strategy "B" no_strategy 0 overweight) !! "A"%string)
  = Some 1.
Proof. vm_compute. reflexivity. Qed.



(** ** The [kelly] method *)

Lemma kelly_loop (strats : gmap string Strategy) :
  map_fold kelly_step ∅ strats = kelly_weight <$> strats.
Proof.
  apply (map_fold_weak_ind (fun r m => r = kelly_weight <$> m)).
  - rewrite fmap_empty. reflexivity.
  - intros k s m r _ ->. rewrite fmap_insert.
    unfold kelly_step, kelly_weight.
    destruct (metrics s !! "kelly_criterion"%string); reflexivity.
Qed.

(** A quarter of the Kelly criterion, cut to [0, 0.25]; 0 on NaN. *)
Lemma kelly_fraction_finite (k : Q) :
  kelly_fraction (Fin k) == Qmax 0 (Qmin (k * (1#4)) (1#4)).
Proof.
  unfold kelly_fraction, py_max, py_min, fscale, flt.
  qcase (Qlt_bool (1#4) (k * (1#4))); cbn [finite_part].
  - rewrite Q.min_r by lra. qcase (Qlt_bool 0 (1#4)); cbn [finite_part].
    + rewrite Q.max_r by lra. reflexivity.
    + lra.
  - rewrite Q.min_l by lra. qcase (Qlt_bool 0 (k * (1#4))); cbn [finite_part].
    + rewrite Q.max_r by lra. reflexivity.
    + rewrite Q.max_l by lra. reflexivity.
Qed.

Lemma kelly_fraction_special :
  kelly_fraction NaN = 0 /\ kelly_fraction PInf = (1#4) /\ kelly_fraction NInf = 0.
Proof. repeat split. Qed.

Lemma kelly_fraction_range (kelly : pyfloat) :
  0 <= kelly_fraction kelly <= 1#4.
Proof.
  destruct kelly as [k| | |].
  - rewrite kelly_fraction_finite.
    destruct (Q.max_spec 0 (Qmin (k * (1#4)) (1#4))) as [[? ->]|[? ->]];
      destruct (Q.min_spec (k * (1#4)) (1#4)) as [[? E]|[? E]]; rewrite ?E in *; lra.
  - rewrite (proj1 (proj2 kelly_fraction_special)). lra.
  - rewrite (proj2 (proj2 kelly_fraction_special)). lra.
  - rewrite (proj1 kelly_fraction_special). lra.
Qed.

Lemma kelly_weight_range (s : Strategy) : 0 <= kelly_weight s <= 1#4.
Proof.
  unfold kelly_weight. destruct (metrics s !! "kelly_criterion"%string).
  - apply kelly_fraction_range.
  - lra.
Qed.

(** C4, as the code has it.  The [kelly] method gives every strategy a
    quarter of its Kelly criterion cut to the interval [0, 0.25] (0 when the
    criterion is NaN) and 0.02 when the metric is missing; when the total of
    these weights is positive every weight is divided by it, so that they
    sum to 1, and otherwise the weights stay as they are. *)
Theorem kelly_allocation_spec (strats : gmap string Strategy) :
  let raw := kelly_weight <$> strats in
  let total := sum_values raw in
  (forall n, _kelly_allocation strats !! n
             = (fun w => if Qlt_bool 0 total then w / total else w) <$> raw !! n) /\
  (0 < total -> sum_values (_kelly_allocation strats) == 1) /\
  (forall s, 0 <= kelly_weight s <= 1#4) /\
  (forall s k, metrics s !! "kelly_criterion"%string = Some (Fin k) ->
     kelly_weight s == Qmax 0 (Qmin (k * (1#4)) (1#4))) /\
  (forall s, metrics s !! "kelly_criterion"%string = None -> kelly_weight s = 2#100).
Proof.
  intros raw total. unfold _kelly_allocation. rewrite kelly_loop.
  fold raw. fold total.
  split.
  { intros n. destruct (Qlt_bool 0 total).
    - apply lookup_divide_all.
    - destruct (raw !! n); reflexivity. }
  split.
  { intros Hpos. pose proof Hpos as Hb. apply Qlt_bool_iff in Hb. rewrite Hb.
    apply divide_all_sums_to_one. exact Hpos. }
  split; [apply kelly_weight_range|].
  split.
  { intros s k Hk. unfold kelly_weight. rewrite Hk. apply kelly_fraction_finite. }
  intros s Hk. unfold kelly_weight. rewrite Hk. reflexivity.
Qed.

(** Kelly criterion 0.4 next to a strategy without the metric: the code
    weighs 0.1 against 0.02, the specification 0.25 against 0.02. *)
Example kelly_of_two_strategies :
  option_map Qred (_kelly_allocation two_strategies !! "A"%string) = Some (5#6) /\
  option_map Qred (_kelly_allocation two_strategies !! "B"%string) = Some (1#6).
Proof. split; vm_compute; reflexivity. Qed.

Lemma kelly_is_not_the_capped_criterion : ~ Spec.kelly_as_specified.
Proof.
  intros H. specialize (H two_strategies "A"%string).
  cbv zeta in H.
  destruct (_kelly_allocation two_strategies !! "A"%string) as [x|] eqn:Ex;
    [|vm_compute in Ex; discriminate].
  destruct ((Spec.kelly_capped <$> two_strategies) !! "A"%string) as [y|] eqn:Ey;
    [|vm_compute in Ey; discriminate].
  cbn in H.
  assert (Hx : Qred x = 5#6).
  { pose proof (proj1 kelly_of_two_strategies) as Hk. rewrite Ex in Hk.
    cbn in Hk. congruence. }
  assert (Hy : y = 1#4) by (vm_compute in Ey; congruence).
  subst y.
  assert (Ht : Qred (sum_values (Spec.kelly_capped <$> two_strategies)) = 27#100)
    by (vm_compute; reflexivity).
  rewrite <- (Qred_correct x), Hx in H.
  rewrite <- (Qred_correct (sum_values _)), Ht in H.
  apply Qeq_bool_iff in H. vm_compute in H. discriminate.
Qed.


(** ** The [risk_parity] method *)

Section RiskParity.

Variable np_std : list Q -> Q.

Lemma inverse_volatility_Some (s : Strategy) (v : Q) :
  (inverse_volatility np_std) s = Some v <->
  exists r, returns s = Some r /\ r <> [] /\ 0 < np_std r /\ v = 1 / np_std r.
Proof.
  unfold inverse_volatility. split.
  - destruct (returns s) as [r|]; [|discriminate].
    destruct (0 <? length r)%nat eqn:El; [|discriminate].
    qcase (Qlt_bool 0 (np_std r)); [|discriminate].
    cbn. intros [= <-]. exists r. repeat split; auto.
    intros ->. cbn in El. discriminate.
  - intros (r & -> & Hne & Hpos & ->).
    destruct r as [|x r]; [congruence|]. cbn [length Nat.ltb Nat.leb andb].
    apply Qlt_bool_iff in Hpos. rewrite Hpos. reflexivity.
Qed.

Lemma inverse_volatility_positive (s : Strategy) (v : Q) :
  (inverse_volatility np_std) s = Some v -> 0 < v.
Proof.
  intros H. apply inverse_volatility_Some in H.
  destruct H as (r & _ & _ & Hpos & ->).
  unfold Qdiv. rewrite Qmult_1_l. apply Qinv_lt_0_compat. exact Hpos.
Qed.

Lemma risk_parity_step_spec (n : string) (s : Strategy) (acc : gmap string Q * Q) :
  risk_parity_step np_std n s acc =
  match (inverse_volatility np_std) s with
  | Some v => (<[n := v]> acc.1, acc.2 + v)
  | None => acc
  end.
Proof.
  unfold risk_parity_step, inverse_volatility.
  destruct (returns s) as [r|]; [|reflexivity].
  destruct (0 <? length r)%nat; [|reflexivity].
  destruct (Qlt_bool 0 (np_std r)); reflexivity.
Qed.

(** The loop invariant: the stored weights are the inverse volatilities
    of the strategies seen so far, and the running total is their sum. *)
Lemma risk_parity_loop (strats : gmap string Strategy) :
  (map_fold (risk_parity_step np_std) (∅, 0) strats).1 = omap (inverse_volatility np_std) strats /\
  (map_fold (risk_parity_step np_std) (∅, 0) strats).2
    == sum_values (omap (inverse_volatility np_std) strats).
Proof.
  apply (map_fold_weak_ind
           (fun r m => r.1 = omap (inverse_volatility np_std) m /\
                       r.2 == sum_values (omap (inverse_volatility np_std) m))).
  - rewrite omap_empty, sum_values_empty. split; reflexivity.
  - intros k s m r Hk [H1 H2]. rewrite risk_parity_step_spec.
    destruct ((inverse_volatility np_std) s) as [v|] eqn:Ev.
    + rewrite (omap_insert_Some _ _ _ _ _ Ev). cbn [fst snd]. split.
      * rewrite H1. reflexivity.
      * rewrite sum_values_insert, H2; [reflexivity|].
        rewrite lookup_omap, Hk. reflexivity.
    + rewrite (omap_insert_None _ _ _ _ Ev).
      rewrite delete_id by (rewrite lookup_omap, Hk; reflexivity).
      split; assumption.
Qed.

(** Whatever double [np.std] returns: the output of the [risk_parity]
    method has an entry exactly for the strategies whose return series is
    present, non-empty and of strictly positive computed standard
    deviation; the others are left out.  When some strategy qualifies,
    every entry is the inverse of the strategy's computed standard
    deviation divided by one common positive total, and the entries sum
    to 1 (in exact arithmetic). *)
Lemma risk_parity_spec (strats : gmap string Strategy) :
  let weights := _risk_parity_allocation np_std strats in
  (forall n, is_Some (weights !! n) <->
     exists s r, strats !! n = Some s /\ returns s = Some r /\ r <> [] /\
                 0 < np_std r) /\
  ((exists n s r, strats !! n = Some s /\ returns s = Some r /\ r <> [] /\
                  0 < np_std r) ->
   exists total, 0 < total /\
     (forall n s r, strats !! n = Some s -> returns s = Some r -> r <> [] ->
        0 < np_std r -> weights !! n = Some (1 / np_std r / total)) /\
     sum_values weights == 1).
Proof.
  intros weights. subst weights. unfold _risk_parity_allocation.
  destruct (risk_parity_loop strats) as [H1 H2].
  destruct (map_fold (risk_parity_step np_std) (∅, 0) strats) as [allocs total].
  cbn [fst snd] in H1, H2. subst allocs.
  set (raw := omap (inverse_volatility np_std) strats) in *.
  assert (Hraw : forall n, is_Some (raw !! n) <->
            exists s r, strats !! n = Some s /\ returns s = Some r /\ r <> [] /\
                        0 < np_std r).
  { intros n. unfold raw. rewrite lookup_omap. split.
    - intros [v Hv]. destruct (strats !! n) as [s|]; [|discriminate].
      cbn in Hv. apply inverse_volatility_Some in Hv.
      destruct Hv as (r & Hr & Hne & Hpos & _). exists s, r. auto.
    - intros (s & r & -> & Hr & Hne & Hpos). cbn.
      exists (1 / np_std r). apply inverse_volatility_Some. exists r. auto. }
  assert (Hall : map_Forall (fun _ v => 0 < v) raw).
  { intros n v Hv. unfold raw in Hv. rewrite lookup_omap in Hv.
    destruct (strats !! n) as [s|]; [|discriminate].
    exact (inverse_volatility_positive s v Hv). }
  split.
  - intros n. rewrite <- Hraw.
    destruct (Qlt_bool 0 total); [|reflexivity].
    rewrite lookup_divide_all, fmap_is_Some. reflexivity.
  - intros (n0 & s0 & r0 & Hq).
    assert (Hne : raw <> ∅).
    { intros He. assert (Hs : is_Some (raw !! n0)) by (apply Hraw; eauto).
      rewrite He, lookup_empty in Hs. destruct Hs; discriminate. }
    assert (Hpos : 0 < total).
    { rewrite H2. apply sum_values_positive; assumption. }
    pose proof Hpos as Hb. apply Qlt_bool_iff in Hb. rewrite Hb.
    exists total. split; [exact Hpos|]. split.
    + intros n s r Hs Hr Hnn Hstd.
      rewrite lookup_divide_all. unfold raw. rewrite lookup_omap, Hs. cbn.
      assert (Hv : (inverse_volatility np_std) s = Some (1 / np_std r)).
      { apply inverse_volatility_Some. exists r. auto. }
      rewrite Hv. reflexivity.
    + apply divide_all_sums_to_one'; assumption.
Qed.

End RiskParity.

(** Standard deviations 0, 1 and 2, all exact in doubles: the constant
    series [1, 1, 1] and the empty series get no entry, the other two 2/3
    and 1/3. *)
Example risk_parity_of_four :
  let weights := _risk_parity_allocation Double.np_std_of four_strategies in
  weights !! "steady"%string = None /\ weights !! "empty"%string = None /\
  option_map Qred (weights !! "swinging"%string) = Some (2#3) /\
  option_map Qred (weights !! "wild"%string) = Some (1#3).
Proof. vm_compute. repeat split. Qed.

(** C10.  The claim has a strategy of zero volatility left out of the
    mapping.  The series [0.1, 0.1, 0.1] is constant, yet the standard
    deviation numpy computes for it in double precision is 2^-56 and not
    0 (the mean of the three doubles rounds to 0.10000000000000002), and
    the guard [vol > 0] lets it through.  Beside a strategy of standard
    deviation 0.01 the constant strategy is kept, with more than 0.999999
    of the weight, and the other strategy, to which the claim gives the
    whole weight, is left with less than a millionth. *)
Theorem constant_series_is_not_omitted :
  let weights := _risk_parity_allocation Double.np_std_of constant_and_moving in
  (returns constant_series = Some [1#10; 1#10; 1#10]) /\
  (Double.np_std_of [1#10; 1#10; 1#10] == 2 ^ (-56)) /\
  (0 < Double.np_std_of [1#10; 1#10; 1#10]) /\
  (exists w, weights !! "constant"%string = Some w /\ 999999#1000000 < w) /\
  (exists w, weights !! "moving"%string = Some w /\ w < 1#1000000).
Proof.
  split; [reflexivity|]. split; [vm_compute; reflexivity|].
  split; [vm_compute; reflexivity|].
  split; eexists; (split; [vm_compute; reflexivity|vm_compute; reflexivity]).
Qed.


(** ** The return matrix *)

Lemma valid_series_cons (s : Strategy) (vals : list Strategy) :
  valid_series (s :: vals) =
  match returns s with
  | Some r => if (0 <? length r)%nat then r :: valid_series vals else valid_series vals
  | None => valid_series vals
  end.
Proof.
  unfold valid_series. cbn [omap list_omap].
  destruct (returns s) as [r|]; [|reflexivity].
  cbn [List.filter]. destruct (0 <? length r)%nat; reflexivity.
Qed.

Lemma collect_loop (vals : list Strategy) (acc : list (list Q)) (m : option nat) :
  foldl collect_step (acc, m) vals
  = (acc ++ valid_series vals, shortest m (valid_series vals)).
Proof.
  revert acc m. induction vals as [|s vals IH]; intros acc m.
  - cbn. rewrite app_nil_r. reflexivity.
  - cbn [foldl]. rewrite valid_series_cons. unfold collect_step at 2.
    destruct (returns s) as [r|]; [|apply IH].
    destruct (0 <? length r)%nat; [|apply IH].
    cbn [fst snd]. rewrite IH, <- app_assoc. reflexivity.
Qed.

Lemma shortest_Some (rs : list (list Q)) (k : nat) :
  exists n, shortest (Some k) rs = Some n /\ (n <= k)%nat /\
            Forall (fun r => (n <= length r)%nat) rs /\
            (n = k \/ Exists (fun r => length r = n) rs).
Proof.
  revert k. induction rs as [|r rs IH]; intros k.
  - exists k. cbn. repeat split; auto.
  - cbn [shortest foldl]. fold (shortest (Some (min_with (Some k) (length r))) rs).
    destruct (IH (min_with (Some k) (length r))) as (n & Hn & Hle & Hall & Hex).
    cbn [min_with] in *. exists n. split; [exact Hn|].
    split; [lia|]. split.
    + constructor; [lia|exact Hall].
    + destruct Hex as [->|Hex].
      * destruct (Nat.min_spec k (length r)) as [[_ E]|[_ E]]; rewrite E; auto.
      * right. apply Exists_cons_tl. exact Hex.
Qed.

Lemma shortest_None (rs : list (list Q)) :
  match rs with
  | [] => shortest None rs = None
  | _ :: _ => exists n, shortest None rs = Some n /\
                Forall (fun r => (n <= length r)%nat) rs /\
                Exists (fun r => length r = n) rs
  end.
Proof.
  destruct rs as [|r rs]; [reflexivity|].
  cbn [shortest foldl min_with]. fold (shortest (Some (length r)) rs).
  destruct (shortest_Some rs (length r)) as (n & Hn & Hle & Hall & Hex).
  exists n. split; [exact Hn|]. split.
  - constructor; assumption.
  - destruct Hex as [->|Hex]; [apply Exists_cons_hd; reflexivity|].
    apply Exists_cons_tl. exact Hex.
Qed.

Lemma valid_series_nonempty (vals : list Strategy) :
  Forall (fun r => (1 <= length r)%nat) (valid_series vals).
Proof.
  unfold valid_series. apply Forall_forall. intros r Hin.
  apply list_elem_of_In, filter_In in Hin. destruct Hin as [_ H].
  apply Nat.ltb_lt in H. lia.
Qed.

Lemma py_slice_last_length (n : nat) (r : list Q) :
  (1 <= n <= length r)%nat -> length (py_slice_last n r) = n.
Proof.
  intros H. unfold py_slice_last.
  destruct (n =? 0)%nat eqn:E; [apply Nat.eqb_eq in E; lia|].
  rewrite length_drop. lia.
Qed.

(** The slice keeps the most recent observations: it is the series with
    its oldest entries removed. *)
Lemma py_slice_last_suffix (n : nat) (r : list Q) :
  (1 <= n)%nat -> py_slice_last n r = drop (length r - n) r.
Proof.
  intros H. unfold py_slice_last.
  destruct (n =? 0)%nat eqn:E; [apply Nat.eqb_eq in E; lia|reflexivity].
Qed.

(** C6.  The return matrix is built from the return series that are
    present and non-empty.  When there is none the construction yields
    [None].  Otherwise every such series is cut to the length [n] of the
    shortest of them by dropping its oldest observations, so every row has
    length [n], with [n >= 1]. *)
Theorem returns_matrix_spec (strats : gmap string Strategy) :
  let series := valid_series (dict_values strats) in
  match _get_returns_matrix strats with
  | None => series = []
  | Some rows =>
      exists n, (1 <= n)%nat /\
        Forall (fun r => (n <= length r)%nat) series /\
        Exists (fun r => length r = n) series /\
        rows = map (fun r => drop (length r - n) r) series /\
        Forall (fun row => length row = n) rows
  end.
Proof.
  intros series. unfold _get_returns_matrix.
  destruct (size strats =? 0)%nat eqn:Esize.
  { apply Nat.eqb_eq in Esize. apply map_size_empty_iff in Esize. subst strats.
    subst series. unfold dict_values. rewrite map_to_list_empty. reflexivity. }
  rewrite collect_loop. cbn [app]. fold series.
  pose proof (shortest_None series) as Hs.
  pose proof (valid_series_nonempty (dict_values strats)) as Hne. fold series in Hne.
  destruct series as [|r rs] eqn:Eser; [reflexivity|].
  destruct Hs as (n & Hs & Hall & Hex). rewrite Hs.
  assert (Hn : (1 <= n)%nat).
  { apply Exists_exists in Hex. destruct Hex as (x & Hin & <-).
    rewrite Forall_forall in Hne. apply Hne. exact Hin. }
  destruct (n <? 1)%nat eqn:En; [apply Nat.ltb_lt in En; lia|].
  exists n. split; [exact Hn|]. split; [exact Hall|]. split; [exact Hex|].
  split.
  - apply map_ext. intros x. apply py_slice_last_suffix. exact Hn.
  - apply Forall_map. apply Forall_forall. intros x Hin.
    rewrite Forall_forall in Hall. specialize (Hall x Hin).
    apply py_slice_last_length. lia.
Qed.

(** Series of lengths 4, 2 and 0, and one strategy without returns: two
    rows of length 2, holding the last two observations (rows in the order
    of the map). *)
Example returns_matrix_of_four :
  _get_returns_matrix
    {["long"%string := long_series; "swinging"%string := swinging;
      "empty"%string := empty_series; "none"%string := no_strategy]}
  = Some [[1; -1]; [3; 4]].
Proof. vm_compute. reflexivity. Qed.

Example returns_matrix_of_none :
  _get_returns_matrix {["empty"%string := empty_series; "none"%string := no_strategy]}
  = None.
Proof. vm_compute. reflexivity. Qed.

End PortfolioFacts.

(** * The formula engines: the clamp *)

Section ClampFacts.
Import PyEval.

Lemma clamp_0_100_range (x : pyfloat) : 0 <= clamp_0_100 x <= 100.
Proof.
  unfold clamp_0_100, py_max, py_min.
  destruct x as [q| | |]; cbn [flt].
  - qcase (Qlt_bool q 100); cbn [flt].
    + qcase (Qlt_bool 0 q); cbn; lra.
    + change (Qlt_bool 0 100) with true. cbn. lra.
  - change (Qlt_bool 0 100) with true. cbn. lra.
  - cbn. lra.
  - change (Qlt_bool 0 100) with true. cbn. lra.
Qed.

Lemma clamp_0_50_range (x : pyfloat) : 0 <= clamp_0_50 x <= 50.
Proof.
  unfold clamp_0_50, py_max, py_min.
  destruct x as [q| | |]; cbn [flt].
  - qcase (Qlt_bool 0 q); cbn [flt].
    + qcase (Qlt_bool q 50); cbn; lra.
    + change (Qlt_bool 0 50) with true. cbn. lra.
  - cbn. lra.
  - change (Qlt_bool 0 50) with true. cbn. lra.
  - change (Qlt_bool 0 50) with true. cbn. lra.
Qed.

(** What the two clamps make of the special values: a NaN becomes the
    upper bound 100 in [max(0, min(100, x))] and the lower bound 0 in
    [min(50, max(0, x))]. *)
Lemma clamp_special :
  clamp_0_100 NaN = 100 /\ clamp_0_100 PInf = 100 /\ clamp_0_100 NInf = 0 /\
  clamp_0_50 NaN = 0 /\ clamp_0_50 PInf = 50 /\ clamp_0_50 NInf = 0.
Proof. repeat split. Qed.

End ClampFacts.

(** * The Monte Carlo Risk Simulator *)

Section MonteCarloFacts.
Import PyEval MonteCarloEngine.

Lemma trial_allocation_range (host : Host) (formula : string)
    (values : list (string * pyfloat)) :
  0 <= trial_allocation host formula values <= 100.
Proof.
  unfold trial_allocation.
  destruct (formula_outcome host formula values); try lra.
  apply clamp_0_100_range.
Qed.

Lemma sim_values_is_Some (metrics : Distributions) (n i : nat) :
  well_sized metrics n -> (i < n)%nat -> is_Some (sim_values metrics i).
Proof.
  intros (H1 & H2 & H3 & H4 & H5 & H6 & H7 & H8 & H9) Hi.
  unfold sim_values.
  destruct (lookup_lt_is_Some_2 (d_sharpe metrics) i) as [x1 ->]; [lia|].
  destruct (lookup_lt_is_Some_2 (d_omega metrics) i) as [x2 ->]; [lia|].
  destruct (lookup_lt_is_Some_2 (d_volatility metrics) i) as [x3 ->]; [lia|].
  destruct (lookup_lt_is_Some_2 (d_drawdown metrics) i) as [x4 ->]; [lia|].
  destruct (lookup_lt_is_Some_2 (d_win_rate metrics) i) as [x5 ->]; [lia|].
  destruct (lookup_lt_is_Some_2 (d_profit_factor metrics) i) as [x6 ->]; [lia|].
  destruct (lookup_lt_is_Some_2 (d_total_return metrics) i) as [x7 ->]; [lia|].
  destruct (lookup_lt_is_Some_2 (d_calmar metrics) i) as [x8 ->]; [lia|].
  destruct (lookup_lt_is_Some_2 (d_sortino metrics) i) as [x9 ->]; [lia|].
  cbn. eauto.
Qed.

(** Every allocation the engine computes is a percentage. *)
Lemma calculate_allocations_range (host : Host) (formula : string)
    (metrics : Distributions) (allocations : list Q) :
  _calculate_allocations host formula metrics = Some allocations ->
  length allocations = length (d_sharpe metrics) /\
  Forall (fun a => 0 <= a <= 100) allocations.
Proof.
  unfold _calculate_allocations. intros H.
  pose proof (length_mapM _ _ _ H) as Hlen. rewrite length_seq in Hlen.
  split; [symmetry; exact Hlen|]. clear Hlen.
  apply mapM_Some in H.
  induction H as [|i a l k Hf _ IH]; constructor; [|apply IH].
  destruct (sim_values metrics i) as [values|]; [|discriminate].
  cbn in Hf. injection Hf as <-. apply trial_allocation_range.
Qed.

(** One formula that fails does not stop the loop: with arrays of one
    size every trial gets its allocation. *)
Lemma calculate_allocations_total (host : Host) (formula : string)
    (metrics : Distributions) (n : nat) :
  well_sized metrics n ->
  exists allocations, _calculate_allocations host formula metrics = Some allocations /\
                      length allocations = n.
Proof.
  intros Hw. pose proof Hw as (Hn & _).
  assert (Hs : is_Some (_calculate_allocations host formula metrics)).
  { unfold _calculate_allocations. apply mapM_is_Some. rewrite Hn.
    apply Forall_forall. intros i Hi. apply elem_of_seq in Hi.
    destruct (sim_values_is_Some metrics n i Hw) as [v Hv]; [lia|].
    cbn. rewrite Hv. cbn. eauto. }
  destruct Hs as [allocations Ha]. exists allocations. split; [exact Ha|].
  destruct (calculate_allocations_range _ _ _ _ Ha) as [Hl _]. lia.
Qed.

Context {St : Type} (rs : RandomState St).

Lemma qmax_lower (a b : Q) : a <= qmax a b.
Proof. unfold qmax. qcase (Qlt_bool a b); lra. Qed.

(** A path that is simulated to the end is clamped. *)
Lemma simulate_path_bound (allocation : Q) (horizon : nat) (s : St) :
  -1 <= (simulate_path rs allocation horizon s).1.
Proof.
  unfold simulate_path.
  destruct (np_normal rs _ _ horizon s) as [daily s1].
  destruct (np_poisson rs _ s1) as [n s2].
  destruct (tail_events rs n allocation horizon daily s2) as [daily' s3].
  cbn [fst]. apply qmax_lower.
Qed.

Hypothesis uniform_in_range :
  forall (low high : Q) (s : St), low <= high ->
    low <= (np_uniform rs low high s).1 <= high.

(** A ruined trial is not clamped; it stays above -1 because the
    allocation is at most 100% and the loss fraction at most 1. *)
Lemma simulate_trial_bound (allocation_pct : Q) (horizon : nat) (s : St) :
  0 <= allocation_pct <= 100 ->
  -1 <= (simulate_trial rs allocation_pct horizon s).1.
Proof.
  intros Ha. unfold simulate_trial.
  assert (Hx : allocation_pct / 100 == allocation_pct * (1#100)) by field.
  set (x := allocation_pct / 100) in *.
  qcase (Qlt_bool (5#10) x); [|apply simulate_path_bound].
  destruct (np_random rs s) as [u s1].
  destruct (Qlt_bool u _); [|apply simulate_path_bound].
  pose proof (uniform_in_range (7#10) 1 s1) as Hu.
  destruct (np_uniform rs (7#10) 1 s1) as [loss s2]. cbn [fst] in *.
  assert (Hl : 7#10 <= loss <= 1) by (apply Hu; lra).
  assert (Hx1 : x <= 1) by lra.
  assert (Hprod : x * loss <= 1 * 1).
  { apply Qmult_le_compat_nonneg; split; lra. }
  lra.
Qed.

Lemma simulate_loop_spec (indices : list nat) (allocations : list Q) (horizon : nat)
    (returns : list Q) (s : St) :
  Forall (fun a => 0 <= a <= 100) allocations ->
  Forall (fun r => -1 <= r) returns ->
  match simulate_loop rs indices allocations horizon returns s with
  | (Some result, _) =>
      length result = length returns /\ Forall (fun r => -1 <= r) result
  | (None, _) => Exists (fun i => (length allocations <= i)%nat) indices
  end.
Proof.
  intros Ha. revert returns s.
  induction indices as [|i rest IH]; intros returns s Hr; cbn [simulate_loop].
  - split; [reflexivity|exact Hr].
  - destruct (allocations !! i) as [a|] eqn:Ei.
    + pose proof (simulate_trial_bound a horizon s) as Hb.
      destruct (simulate_trial rs a horizon s) as [r s1]. cbn [fst] in Hb.
      assert (Hai : 0 <= a <= 100).
      { rewrite Forall_forall in Ha. apply Ha. eapply list_elem_of_lookup_2, Ei. }
      specialize (IH (<[i := r]> returns) s1).
      destruct (simulate_loop rs rest allocations horizon (<[i:=r]> returns) s1)
        as [[result|] s2].
      * destruct IH as [Hl Hf].
        { apply Forall_insert; [exact Hr|apply Hb; exact Hai]. }
        split; [rewrite Hl; apply length_insert|exact Hf].
      * apply Exists_cons_tl. apply IH.
        apply Forall_insert; [exact Hr|apply Hb; exact Hai].
    + apply Exists_cons_hd. apply lookup_ge_None. exact Ei.
Qed.

(** [_simulate_returns] on allocations that are percentages. *)
Lemma simulate_returns_bound (allocations : list Q) (horizon n_sims : nat) (s : St) :
  Forall (fun a => 0 <= a <= 100) allocations ->
  (n_sims <= length allocations)%nat ->
  exists result s', _simulate_returns rs allocations horizon n_sims s = (Some result, s') /\
    length result = n_sims /\ Forall (fun r => -1 <= r) result.
Proof.
  intros Ha Hn. unfold _simulate_returns.
  pose proof (simulate_loop_spec (seq 0 n_sims) allocations horizon
                (replicate n_sims 0) s Ha) as H.
  destruct (simulate_loop rs (seq 0 n_sims) allocations horizon (replicate n_sims 0) s)
    as [[result|] s'].
  - destruct H as [Hl Hf].
    { apply Forall_replicate. lra. }
    exists result, s'. rewrite length_replicate in Hl. auto.
  - exfalso. assert (He : Exists (fun i => (length allocations <= i)%nat) (seq 0 n_sims)).
    { apply H. apply Forall_replicate. lra. }
    apply Exists_exists in He. destruct He as (i & Hi & Hle).
    apply elem_of_seq in Hi. lia.
Qed.

(** C8.  Whatever the formula, the sampled metrics and the random draws
    (a uniform draw lying between its bounds), every trial of a simulation
    gets a terminal return, and that return is at least -100%: a path
    simulated to the end is clamped at -1, and a trial ended by the ruin
    check loses the allocation, which the engine has clamped to at most
    100%, times a fraction of at most 1. *)
Theorem simulated_returns_at_least_minus_one (host : Host) (formula : string)
    (n_simulations horizon_days : nat) (metrics_distributions : Distributions) (s : St) :
  well_sized metrics_distributions n_simulations ->
  exists returns s',
    simulated_returns rs host formula n_simulations horizon_days metrics_distributions s
      = (Some returns, s') /\
    length returns = n_simulations /\
    Forall (fun r => -1 <= r) returns.
Proof.
  intros Hw. unfold simulated_returns.
  destruct (calculate_allocations_total host formula _ _ Hw) as (allocations & Ha & Hl).
  rewrite Ha.
  destruct (calculate_allocations_range _ _ _ _ Ha) as [_ Hrange].
  apply simulate_returns_bound; [exact Hrange|lia].
Qed.

End MonteCarloFacts.

(** * The formula engines: names and exceptions *)

Section FormulaFacts.
Import PyEval Examples.



Section Unbound.

Variables (libm : Libm) (env : gmap string pyval).





End Unbound.






Lemma overfitting_fallback (host : Host) formula metrics (exc : pyexc) :
  OverfittingDetector.formula_outcome host formula metrics = Raise exc ->
  OverfittingDetector._evaluate_formula host formula metrics = 10.
Proof. unfold OverfittingDetector._evaluate_formula. intros ->. reflexivity. Qed.

(** The two outcomes of the [try] block, and what a NaN becomes. *)
Lemma stress_allocation_cases (host : Host) formula metrics :
  (exists x, StressTestEngine.formula_outcome host formula metrics = Ret x /\
             StressTestEngine._calculate_allocation host formula metrics = clamp_0_100 x) \/
  ((exists exc, StressTestEngine.formula_outcome host formula metrics = Raise exc) /\
   StressTestEngine._calculate_allocation host formula metrics = 5).
Proof.
  unfold StressTestEngine._calculate_allocation, StressTestEngine.formula_outcome.
  destruct (substituted_eval _ _ formula metrics) as [x|exc|]; [left; eauto|right; eauto|].
  destruct (host_eval host _ formula _) as [x|]; [left; eauto|right; eauto].
Qed.

Lemma nan_allocates_everything (host : Host) formula metrics :
  (StressTestEngine.formula_outcome host formula metrics = Ret NaN ->
   StressTestEngine._calculate_allocation host formula metrics = 100) /\
  (MonteCarloEngine.formula_outcome host formula metrics = Ret NaN ->
   MonteCarloEngine.trial_allocation host formula metrics = 100).
Proof.
  unfold StressTestEngine._calculate_allocation, MonteCarloEngine.trial_allocation.
  split; intros ->; reflexivity.
Qed.




(** The floor-division operator is not in the vocabulary, and the formula
    is evaluated all the same: [10 * 1.05 // 1] is 10. *)
Example floor_division_is_evaluated (host : Host) :
  StressTestEngine.formula_outcome host "10 * omega // 1" StressTestEngine.default_baseline
    = Ret (Fin (inject_Z (Qfloor (10 * (inject_Z 105 / inject_Z (10 ^ 2)) / 1)))) /\
  StressTestEngine._calculate_allocation host "10 * omega // 1"
    StressTestEngine.default_baseline == 10.
Proof. split; vm_compute; reflexivity. Qed.

Example modulo_is_evaluated (host : Host) :
  StressTestEngine._calculate_allocation host "7 % 4" StressTestEngine.default_baseline == 3 /\
  MonteCarloEngine.trial_allocation host "7 % 4" StressTestEngine.default_baseline == 3.
Proof. split; vm_compute; reflexivity. Qed.



(** ** Failures that raise, and failures that do not *)

(** [sharpe / drawdown] with a drawdown of 0: the text is [1.0 / 0.0],
    the division raises, and the allocation is the fallback. *)
Example division_by_zero_falls_back (host : Host) :
  substitute (lower (chars "sharpe / drawdown")) sharpe_one_drawdown_zero
    = Some (chars "1.0 / 0.0") /\
  StressTestEngine.formula_outcome host "sharpe / drawdown" sharpe_one_drawdown_zero
    = Raise ZeroDivisionError /\
  StressTestEngine._calculate_allocation host "sharpe / drawdown" sharpe_one_drawdown_zero = 5 /\
  MonteCarloEngine.trial_allocation host "sharpe / drawdown" sharpe_one_drawdown_zero = 5 /\
  OverfittingDetector._evaluate_formula host "sharpe / drawdown"
    {["sharpe"%string := VFloat (Fin 1); "drawdown"%string := VFloat (Fin 0)]} = 10.
Proof. repeat split; vm_compute; reflexivity. Qed.

(** A text that is no expression, and a name that is not bound. *)
Example parse_error_falls_back (host : Host) :
  StressTestEngine.formula_outcome host "sharpe *" StressTestEngine.default_baseline
    = Raise SyntaxError /\
  StressTestEngine._calculate_allocation host "sharpe *" StressTestEngine.default_baseline = 5 /\
  MonteCarloEngine.trial_allocation host "sharpe *" StressTestEngine.default_baseline = 5 /\
  OverfittingDetector._evaluate_formula host "sharpe *" {["sharpe"%string := VFloat (Fin 1)]} = 10.
Proof. repeat split; vm_compute; reflexivity. Qed.

Example unknown_identifier_falls_back (host : Host) :
  StressTestEngine._calculate_allocation host "sharpe + alpha" StressTestEngine.default_baseline = 5 /\
  MonteCarloEngine.trial_allocation host "sharpe + alpha" StressTestEngine.default_baseline = 5 /\
  OverfittingDetector._evaluate_formula host "sharpe + alpha" {["sharpe"%string := VFloat (Fin 1)]} = 10 /\
  OverfittingDetector._evaluate_formula host "log(sharpe)" {["sharpe"%string := VFloat (Fin 1)]} = 10.
Proof. repeat split; vm_compute; reflexivity. Qed.

(** C2, where the code departs from it.  [np.sqrt] and [np.log] do not
    raise outside their domain: they return NaN or -inf, no exception
    reaches the [except] clause, and the clamp decides.  The square root of
    a negative number gives the allocation 100 in the Monte Carlo and Stress
    Test engines and 0 in the Overfitting Detector, the logarithm of 0 gives
    0; none of them is the fallback (5.0, 5.0, 10.0). *)
Theorem domain_error_is_not_the_fallback (host : Host) :
  StressTestEngine.formula_outcome host "sqrt(0 - 1)" StressTestEngine.default_baseline
    = Ret NaN /\
  StressTestEngine._calculate_allocation host "sqrt(0 - 1)" StressTestEngine.default_baseline
    = 100 /\
  MonteCarloEngine.trial_allocation host "sqrt(0 - 1)" StressTestEngine.default_baseline
    = 100 /\
  OverfittingDetector._evaluate_formula host "sqrt(0 - 1)" ∅ = 0 /\
  StressTestEngine._calculate_allocation host "log(0)" StressTestEngine.default_baseline = 0 /\
  MonteCarloEngine.trial_allocation host "log(0)" StressTestEngine.default_baseline = 0.
Proof. repeat split; vm_compute; reflexivity. Qed.

(** The same with a metric under the root: a Sharpe ratio of -0.5. *)
Example sqrt_of_a_negative_sharpe (host : Host) :
  substitute (lower (chars "sqrt(sharpe) * 10")) [("sharpe"%string, Fin (-(1#2)))]
    = Some (chars "sqrt(-0.5) * 10") /\
  StressTestEngine._calculate_allocation host "sqrt(sharpe) * 10"
    [("sharpe"%string, Fin (-(1#2)))] = 100 /\
  MonteCarloEngine.trial_allocation host "sqrt(sharpe) * 10"
    [("sharpe"%string, Fin (-(1#2)))] = 100.
Proof. repeat split; vm_compute; reflexivity. Qed.

(** In the detector the metrics are bound as values; when they are
    [numpy.float64] the division [0 / 0] does not raise either. *)
Example numpy_zero_by_zero (host : Host) :
  OverfittingDetector.formula_outcome host "sharpe / drawdown"
    {["sharpe"%string := VNp (Fin 0); "drawdown"%string := VNp (Fin 0)]} = Ret NaN /\
  OverfittingDetector._evaluate_formula host "sharpe / drawdown"
    {["sharpe"%string := VNp (Fin 0); "drawdown"%string := VNp (Fin 0)]} = 0.
Proof. repeat split; vm_compute; reflexivity. Qed.

End FormulaFacts.

(** * The Monte Carlo Risk Simulator: concrete runs *)

Section MonteCarloRuns.
Import PyEval MonteCarloEngine Examples.

Lemma simulated_returns_at_least_minus_one_witness :
  exists returns s',
    simulated_returns fixed_draws host_floor "sharpe * 1000" 1 252 one_trial tt
      = (Some returns, s') /\
    length returns = 1%nat /\
    Forall (fun r => -1 <= r) returns.
Proof.
  apply (simulated_returns_at_least_minus_one fixed_draws).
  - intros low high s H. cbn. split; [exact H|apply Qle_refl].
  - repeat split.
Defined.

(** The formula asks for 400%, the engine clamps to 100%, the ruin check
    fires and the whole allocation is lost: exactly -1. *)
Example ruined_at_full_allocation :
  _calculate_allocations host_floor "sharpe * 1000" one_trial = Some [100] /\
  (_simulate_returns fixed_draws [100] 252 1 tt).1 = Some [- (100 / 100) * 1].
Proof. split; vm_compute; reflexivity. Qed.

(** The bound rests on the clamp of step 2: [_simulate_returns] itself,
    given 200%, records -2. *)
Example unclamped_allocation_loses_more :
  exists r, (_simulate_returns fixed_draws [200] 252 1 tt).1 = Some [r] /\ r == -2.
Proof. eexists. split; [vm_compute; reflexivity|]. reflexivity. Qed.

End MonteCarloRuns.

(** * Further properties of the Allocation Optimizer *)

Section PortfolioMore.
Import PortfolioModel Examples.


Lemma sum_values_const {A} (m : gmap string A) (c : Q) :
  sum_values ((fun _ => c) <$> m) == c * inject_Z (Z.of_nat (size m)).
Proof.
  induction m as [|k v m Hk IH] using map_ind.
  - rewrite fmap_empty, sum_values_empty, map_size_empty. cbn. ring.
  - rewrite fmap_insert, sum_values_insert by (rewrite lookup_fmap, Hk; reflexivity).
    rewrite IH, map_size_insert_None by exact Hk.
    rewrite Nat2Z.inj_succ. unfold Z.succ. rewrite inject_Z_plus. ring.
Qed.

Lemma size_positive {A} (m : gmap string A) :
  m <> ∅ -> 0 < inject_Z (Z.of_nat (size m)).
Proof.
  intros Hne. assert (size m <> 0%nat) by (intros H; apply map_size_empty_iff in H; auto).
  change 0 with (inject_Z 0). rewrite <- Zlt_Qlt. lia.
Qed.

Lemma equal_weight_lookup (strats : gmap string Strategy) (n : string) :
  strats <> ∅ ->
  _equal_weight_allocation strats !! n
  = (fun _ => 1 / inject_Z (Z.of_nat (size strats))) <$> strats !! n.
Proof.
  intros Hne. unfold _equal_weight_allocation.
  destruct (size strats =? 0)%nat eqn:E.
  - apply Nat.eqb_eq, map_size_empty_iff in E. contradiction.
  - apply lookup_fmap.
Qed.

Lemma equal_weight_sum (strats : gmap string Strategy) :
  strats <> ∅ -> sum_values (_equal_weight_allocation strats) == 1.
Proof.
  intros Hne. pose proof (size_positive strats Hne) as Hpos.
  unfold _equal_weight_allocation.
  destruct (size strats =? 0)%nat eqn:E.
  - apply Nat.eqb_eq, map_size_empty_iff in E. contradiction.
  - rewrite sum_values_const.
    generalize dependent (inject_Z (Z.of_nat (size strats))). intros n Hn.
    field. lra.
Qed.

(** Equal weighting: no strategy, no weight; otherwise every strategy, and
    nothing else, gets [1/n], and the weights sum to 1.  The normalization
    that [optimize_allocations] runs afterwards leaves them at [1/n]. *)
Theorem equal_weight_spec (np_std : list Q -> Q)
    (mv ms mo : gmap string Strategy -> gmap string Q) (p : Portfolio) :
  let n := inject_Z (Z.of_nat (size (strategies p))) in
  let optimized := allocations (optimize_allocations np_std mv ms mo "equal_weight" p) in
  (strategies p = ∅ -> _equal_weight_allocation (strategies p) = ∅ /\ optimized = ∅) /\
  (strategies p <> ∅ ->
     (forall k, _equal_weight_allocation (strategies p) !! k
                = (fun _ => 1 / n) <$> strategies p !! k) /\
     sum_values (_equal_weight_allocation (strategies p)) == 1 /\
     (forall k, Spec.option_Qeq (optimized !! k) ((fun _ => 1 / n) <$> strategies p !! k)) /\
     sum_values optimized == 1).
Proof.
  intros n optimized. subst optimized. unfold optimize_allocations.
  change (find_method np_std mv ms mo "equal_weight") with (Some _equal_weight_allocation).
  split.
  - intros He. rewrite He. split; [reflexivity|].
    rewrite normalize_not_positive; [reflexivity|].
    cbn. unfold _equal_weight_allocation. rewrite map_size_empty. cbn.
    rewrite sum_values_empty. lra.
  - intros Hne.
    pose proof (equal_weight_sum (strategies p) Hne) as Hsum.
    split; [intros k; apply equal_weight_lookup; exact Hne|].
    split; [exact Hsum|].
    assert (Hpos : 0 < sum_values
              (allocations (with_allocations p (_equal_weight_allocation (strategies p))))).
    { cbn. rewrite Hsum. lra. }
    rewrite (normalize_positive _ Hpos). cbn [allocations with_allocations].
    split.
    + intros k. rewrite lookup_divide_all, equal_weight_lookup by exact Hne.
      destruct (strategies p !! k);
        cbn [Spec.option_Qeq fmap option_fmap option_map]; [|exact I].
      rewrite Hsum. pose proof (size_positive (strategies p) Hne) as Hn. fold n in Hn.
      fold n. clearbody n. field. lra.
    + apply divide_all_sums_to_one. cbn in Hpos. exact Hpos.
Qed.


(** ** Concentration *)

Lemma concentration_insert (d : gmap string Q) (k : string) (v : Q) :
  d !! k = None ->
  map_fold (fun _ w acc => acc + w * w) 0 (<[k := v]> d)
  == map_fold (fun _ w acc => acc + w * w) 0 d + v * v.
Proof.
  intros Hk.
  apply (map_fold_insert Qeq (fun _ w acc => acc + w * w)); [| |exact Hk].
  - intros j z x y Hxy. rewrite Hxy. reflexivity.
  - intros j1 j2 z1 z2 y _ _ _. ring.
Qed.

Lemma concentration_below_square (d : gmap string Q) :
  map_Forall (fun _ w => 0 <= w) d ->
  0 <= map_fold (fun _ w acc => acc + w * w) 0 d /\
  map_fold (fun _ w acc => acc + w * w) 0 d <= sum_values d * sum_values d.
Proof.
  induction d as [|k v d Hk IH] using map_ind; intros Hall.
  - rewrite map_fold_empty, sum_values_empty. split; lra.
  - apply map_Forall_insert in Hall; [|exact Hk]. destruct Hall as [Hv Hd].
    destruct (IH Hd) as [H0 Hsq].
    pose proof (sum_values_nonneg d Hd) as Hs.
    rewrite concentration_insert, sum_values_insert by exact Hk.
    assert (0 <= v * v) by (apply Qmult_le_0_compat; assumption).
    assert (0 <= sum_values d * v) by (apply Qmult_le_0_compat; assumption).
    split; [lra|].
    assert (E : (sum_values d + v) * (sum_values d + v)
                == sum_values d * sum_values d + 2 * (sum_values d * v) + v * v) by ring.
    rewrite E. lra.
Qed.

Lemma concentration_nonneg (d : gmap string Q) :
  0 <= map_fold (fun _ w acc => acc + w * w) 0 d.
Proof.
  induction d as [|k v d Hk IH] using map_ind.
  - rewrite map_fold_empty. lra.
  - rewrite concentration_insert by exact Hk.
    assert (0 <= v * v).
    { destruct (Qlt_le_dec v 0) as [Hn|Hp].
      - assert (E : v * v == (- v) * (- v)) by ring.
        rewrite E. apply Qmult_le_0_compat; lra.
      - apply Qmult_le_0_compat; assumption. }
    lra.
Qed.

Lemma concentration_const {A} (m : gmap string A) (c : Q) :
  map_fold (fun _ w acc => acc + w * w) 0 ((fun _ => c) <$> m)
  == c * c * inject_Z (Z.of_nat (size m)).
Proof.
  induction m as [|k v m Hk IH] using map_ind.
  - rewrite fmap_empty, map_fold_empty, map_size_empty. cbn. ring.
  - rewrite fmap_insert, concentration_insert by (rewrite lookup_fmap, Hk; reflexivity).
    rewrite IH, map_size_insert_None by exact Hk.
    rewrite Nat2Z.inj_succ. unfold Z.succ. rewrite inject_Z_plus. ring.
Qed.

(** The concentration index is never negative; for weights that are not
    negative it is at most the square of their sum, hence at most 1 once
    they sum to 1; and for [n] equal weights it is [1/n]. *)
Theorem concentration_bounds (p : Portfolio) :
  0 <= _calculate_concentration p /\
  (map_Forall (fun _ w => 0 <= w) (allocations p) ->
     _calculate_concentration p <= sum_values (allocations p) * sum_values (allocations p)) /\
  (map_Forall (fun _ w => 0 <= w) (allocations p) ->
     sum_values (allocations p) == 1 -> _calculate_concentration p <= 1) /\
  (strategies p <> ∅ ->
     _calculate_concentration
       (with_allocations p (_equal_weight_allocation (strategies p)))
     == 1 / inject_Z (Z.of_nat (size (strategies p)))).
Proof.
  unfold _calculate_concentration.
  split; [apply concentration_nonneg|].
  split; [intros H; apply concentration_below_square; exact H|].
  split.
  - intros H Hs. destruct (concentration_below_square _ H) as [_ Hsq].
    rewrite Hs in Hsq. lra.
  - intros Hne. cbn [allocations with_allocations]. unfold _equal_weight_allocation.
    destruct (size (strategies p) =? 0)%nat eqn:E.
    { apply Nat.eqb_eq, map_size_empty_iff in E. contradiction. }
    rewrite concentration_const. pose proof (size_positive _ Hne) as Hn.
    generalize dependent (inject_Z (Z.of_nat (size (strategies p)))). intros n Hn.
    field. lra.
Qed.

End PortfolioMore.

(** * The portfolio's return series and equity curve *)

Section PortfolioReturns.
Import PortfolioModel.

Lemma lookup_map {A B} (f : A -> B) (l : list A) (i : nat) :
  map f l !! i = f <$> l !! i.
Proof. exact (list_lookup_fmap f l i). Qed.

Lemma dict_values_length {A} (d : gmap string A) : length (dict_values d) = size d.
Proof. unfold dict_values. rewrite length_fmap. apply length_map_to_list. Qed.

Lemma dict_keys_length {A} (d : gmap string A) : length (dict_keys d) = size d.
Proof. unfold dict_keys. rewrite length_fmap. apply length_map_to_list. Qed.

Lemma dict_values_elem {A} (d : gmap string A) (k : string) (v : A) :
  d !! k = Some v -> v ∈ dict_values d.
Proof.
  intros H. unfold dict_values. apply list_elem_of_fmap. exists (k, v).
  split; [reflexivity|]. apply elem_of_map_to_list. exact H.
Qed.

Lemma dict_values_Forall {A} (P : A -> Prop) (d : gmap string A) :
  map_Forall (fun _ v => P v) d -> Forall P (dict_values d).
Proof.
  intros H. apply Forall_forall. intros v Hv. unfold dict_values in Hv.
  apply list_elem_of_fmap in Hv. destruct Hv as ([k w] & -> & Hin).
  apply elem_of_map_to_list in Hin. exact (H k w Hin).
Qed.

Lemma valid_series_length (vals : list Strategy) :
  (length (valid_series vals) <= length vals)%nat.
Proof.
  induction vals as [|s vals IH]; [cbn; lia|].
  rewrite valid_series_cons. cbn [length].
  destruct (returns s) as [r|]; [destruct (0 <? length r)%nat|]; cbn [length]; lia.
Qed.

(** One strategy without observations makes the matrix lose a row. *)
Lemma valid_series_short (vals : list Strategy) (s : Strategy) :
  s ∈ vals -> returns s = None \/ returns s = Some [] ->
  (length (valid_series vals) < length vals)%nat.
Proof.
  intros Hin Hs. induction vals as [|x vals IH]; [inversion Hin|].
  rewrite valid_series_cons. cbn [length].
  pose proof (valid_series_length vals) as Hle.
  apply elem_of_cons in Hin. destruct Hin as [<-|Hin].
  - destruct Hs as [-> | ->]; cbn; lia.
  - specialize (IH Hin).
    destruct (returns x) as [r|]; [destruct (0 <? length r)%nat|]; cbn [length]; lia.
Qed.

Lemma valid_series_all (vals : list Strategy) :
  Forall (fun s => exists r, returns s = Some r /\ r <> []) vals ->
  length (valid_series vals) = length vals.
Proof.
  induction 1 as [|s vals (r & Hr & Hne) _ IH]; [reflexivity|].
  rewrite valid_series_cons, Hr.
  destruct r as [|x r]; [contradiction|]. cbn. rewrite IH. reflexivity.
Qed.

(** The matrix in terms of the series that count. *)
Lemma returns_matrix_rows (strats : gmap string Strategy) :
  let series := valid_series (dict_values strats) in
  match series with
  | [] => _get_returns_matrix strats = None
  | _ :: _ =>
      exists n, (1 <= n)%nat /\ Forall (fun r => (n <= length r)%nat) series /\
        Exists (fun r => length r = n) series /\
        _get_returns_matrix strats = Some (map (py_slice_last n) series)
  end.
Proof.
  intros series. unfold _get_returns_matrix.
  destruct (size strats =? 0)%nat eqn:Esize.
  { apply Nat.eqb_eq in Esize. apply map_size_empty_iff in Esize. subst strats.
    subst series. unfold dict_values. rewrite map_to_list_empty. reflexivity. }
  rewrite collect_loop. cbn [app]. fold series.
  pose proof (shortest_None series) as Hs.
  pose proof (valid_series_nonempty (dict_values strats)) as Hne. fold series in Hne.
  destruct series as [|r rs] eqn:Eser; [reflexivity|].
  destruct Hs as (n & Hs & Hall & Hex). rewrite Hs.
  assert (Hn : (1 <= n)%nat).
  { apply Exists_exists in Hex. destruct Hex as (x & Hin & <-).
    rewrite Forall_forall in Hne. apply Hne. exact Hin. }
  destruct (n <? 1)%nat eqn:En; [apply Nat.ltb_lt in En; lia|].
  exists n. split; [exact Hn|]. split; [exact Hall|]. split; [exact Hex|]. reflexivity.
Qed.

Lemma portfolio_weights_length (p : Portfolio) :
  length (portfolio_weights p) = size (strategies p).
Proof. unfold portfolio_weights. rewrite length_map. apply dict_keys_length. Qed.

(** The return series of the portfolio, whatever double [np.sum] returns
    for the weights.  It is empty as soon as one strategy has no
    observation (whatever its weight), when there is no strategy, and when
    the computed sum of the weights is 0.  Otherwise it has the length [n]
    of the shortest series, and its entry [t] is the weighted sum of the
    entries [t] of the series cut to their last [n] observations (in exact
    arithmetic); the weights are used as they are, not normalized. *)
Theorem portfolio_returns_spec (np_sum_double : list Q -> Q) (p : Portfolio) :
  let series := valid_series (dict_values (strategies p)) in
  let weights := portfolio_weights p in
  (forall k s, strategies p !! k = Some s -> returns s = None \/ returns s = Some [] ->
     calculate_portfolio_returns np_sum_double p = []) /\
  (strategies p = ∅ -> calculate_portfolio_returns np_sum_double p = []) /\
  (np_sum_double weights == 0 -> calculate_portfolio_returns np_sum_double p = []) /\
  (strategies p <> ∅ ->
   map_Forall (fun _ s => exists r, returns s = Some r /\ r <> []) (strategies p) ->
   ~ np_sum_double weights == 0 ->
   exists n, (1 <= n)%nat /\
     Forall (fun r => (n <= length r)%nat) series /\
     Exists (fun r => length r = n) series /\
     length series = size (strategies p) /\
     length (calculate_portfolio_returns np_sum_double p) = n /\
     forall t, (t < n)%nat ->
       calculate_portfolio_returns np_sum_double p !! t
       = Some (np_sum (zip_with (fun r w => default 0 (r !! (length r - n + t)%nat) * w)
                                series weights))).
Proof.
  intros series weights.
  pose proof (returns_matrix_rows (strategies p)) as Hrows. fold series in Hrows.
  pose proof (portfolio_weights_length p) as Hw. fold weights in Hw.
  split; [|split; [|split]].
  - intros k s Hk Hs. unfold calculate_portfolio_returns. fold weights.
    pose proof (valid_series_short _ s (dict_values_elem _ _ _ Hk) Hs) as Hlt.
    fold series in Hlt. rewrite dict_values_length in Hlt.
    destruct series as [|r rs]; [rewrite Hrows; reflexivity|].
    destruct Hrows as (n & _ & _ & _ & ->).
    destruct (matrix_size _ =? 0)%nat; [reflexivity|].
    rewrite length_map.
    destruct (length weights =? length (r :: rs))%nat eqn:E; [|reflexivity].
    apply Nat.eqb_eq in E. lia.
  - intros He. unfold calculate_portfolio_returns.
    assert (Hs : series = []).
    { subst series. rewrite He. unfold dict_values. rewrite map_to_list_empty. reflexivity. }
    rewrite Hs in Hrows. rewrite Hrows. reflexivity.
  - intros Hz. unfold calculate_portfolio_returns. fold weights.
    destruct (_get_returns_matrix (strategies p)) as [rows|]; [|reflexivity].
    destruct (matrix_size rows =? 0)%nat; [reflexivity|].
    destruct (negb _); [reflexivity|].
    apply Qeq_eq_bool in Hz. rewrite Hz. reflexivity.
  - intros Hne Hall Hnz.
    pose proof (valid_series_all _ (dict_values_Forall _ _ Hall)) as Hlen.
    fold series in Hlen. rewrite dict_values_length in Hlen.
    assert (Hsize : size (strategies p) <> 0%nat).
    { intros H. apply map_size_empty_iff in H. contradiction. }
    unfold calculate_portfolio_returns. fold weights.
    destruct series as [|r rs] eqn:Eser; [cbn in Hlen; lia|].
    destruct Hrows as (n & Hn & Hge & Hex & ->).
    exists n. split; [exact Hn|]. split; [exact Hge|]. split; [exact Hex|].
    split; [exact Hlen|].
    assert (Hr : length (py_slice_last n r) = n).
    { apply py_slice_last_length. inversion Hge; subst. lia. }
    assert (Hm : (matrix_size (map (py_slice_last n) (r :: rs)) =? 0)%nat = false).
    { apply Nat.eqb_neq. cbn [map matrix_size]. rewrite Hr. cbn [length]. nia. }
    rewrite Hm, length_map.
    assert (Hd : (length weights =? length (r :: rs))%nat = true)
      by (apply Nat.eqb_eq; lia).
    rewrite Hd. cbn [negb].
    apply Qeq_bool_false in Hnz. rewrite Hnz.
    unfold matrix_T_dot. cbn [map]. rewrite Hr.
    split; [rewrite length_map, length_seq; reflexivity|].
    intros t Ht. rewrite lookup_map, lookup_seq_lt by exact Ht.
    cbn [fmap option_fmap option_map Nat.add]. f_equal. f_equal.
    change (py_slice_last n r :: map (py_slice_last n) rs)
      with (py_slice_last n <$> (r :: rs)).
    rewrite zip_with_fmap_l. apply zip_with_ext; [|reflexivity|reflexivity].
    intros x w. rewrite py_slice_last_suffix, lookup_drop by exact Hn. reflexivity.
Qed.

(** Two series of lengths 4 and 2 with weights 1/2 each: the two most
    recent observations are combined. *)
Example portfolio_returns_of_two :
  calculate_portfolio_returns Double.np_sum_of
    {| PortfolioModel.name := "P"; initial_capital := 100; current_capital := 100;
       strategies := {["long"%string := Examples.long_series;
                       "swinging"%string := Examples.swinging]};
       allocations := {["long"%string := 1#2; "swinging"%string := 1#2]} |}
  = [(1 * (1#2) + (3 * (1#2) + 0)); (-1 * (1#2) + (4 * (1#2) + 0))].
Proof. vm_compute. reflexivity. Qed.

(** The weight 0 of the strategy without observations does not save the
    portfolio's series. *)
Example portfolio_returns_with_an_empty_strategy :
  calculate_portfolio_returns Double.np_sum_of
    {| PortfolioModel.name := "P"; initial_capital := 100; current_capital := 100;
       strategies := {["long"%string := Examples.long_series;
                       "empty"%string := Examples.empty_series]};
       allocations := {["long"%string := 1; "empty"%string := 0]} |}
  = [].
Proof. vm_compute. reflexivity. Qed.

(** The guard on the sum of the weights is decided in doubles: the
    weights 0.1, 0.2 and -0.3 sum to 0, the doubles 0.1 + 0.2 - 0.3 to
    2^-54 (and to a positive value in the order of the model's map), and
    the portfolio has its two returns; 1e16, 1 and -1e16 sum to 1, the
    doubles to 0. *)
Example portfolio_returns_of_a_long_short :
  (np_sum (portfolio_weights Examples.long_short) == 0) /\
  (Double.np_sum_of [1#10; 2#10; -(3#10)] == 2 ^ (-54)) /\
  (0 < Double.np_sum_of (portfolio_weights Examples.long_short)) /\
  (length (calculate_portfolio_returns Double.np_sum_of Examples.long_short) = 2%nat) /\
  (Double.np_sum_of [10000000000000000; 1; -(10000000000000000)] == 0).
Proof. repeat split; vm_compute; reflexivity. Qed.

(** ** The equity curve *)

Lemma equity_loop_length (c : Q) (rets : list Q) : length (equity_loop c rets) = length rets.
Proof.
  revert c. induction rets as [|r rets IH]; intros c; [reflexivity|].
  cbn. rewrite IH. reflexivity.
Qed.

Lemma equity_loop_last (c : Q) (rets : list Q) :
  exists final, last (c :: equity_loop c rets) = Some final /\
                final == c * np_prod (map (fun r => 1 + r) rets).
Proof.
  revert c. induction rets as [|r rets IH]; intros c.
  - exists c. split; [reflexivity|]. unfold np_prod. cbn [map foldr]. ring.
  - cbn [equity_loop]. rewrite last_cons_cons.
    destruct (IH (c * (1 + r))) as (final & Hl & Hf).
    exists final. split; [exact Hl|]. rewrite Hf. unfold np_prod. cbn [map foldr]. ring.
Qed.

Lemma equity_loop_positive (c : Q) (rets : list Q) :
  0 < c -> Forall (fun r => -1 < r) rets -> Forall (fun v => 0 < v) (equity_loop c rets).
Proof.
  intros Hc Hr. revert c Hc. induction Hr as [|r rets Hr _ IH]; intros c Hc.
  - constructor.
  - cbn [equity_loop].
    assert (0 < c * (1 + r)) by (apply Qmult_lt_0_compat; lra).
    constructor; [assumption|]. apply IH. assumption.
Qed.

(** The equity curve has one value more than the portfolio has returns;
    it starts at the initial capital and ends at the initial capital
    compounded by the total return of the series, and with a positive
    capital and no return of -100% or worse it stays positive. *)
Theorem equity_curve_spec (np_sum_double : list Q -> Q) (p : Portfolio) :
  let portfolio_returns := calculate_portfolio_returns np_sum_double p in
  let curve := generate_equity_curve np_sum_double p in
  length curve = S (length portfolio_returns) /\
  head curve = Some (initial_capital p) /\
  (exists final, last curve = Some final /\
     final == initial_capital p
              * (1 + StrategyMetrics._calculate_total_return portfolio_returns)) /\
  (0 < initial_capital p -> Forall (fun r => -1 < r) portfolio_returns ->
     Forall (fun v => 0 < v) curve).
Proof.
  intros portfolio_returns curve. subst curve. unfold generate_equity_curve.
  fold portfolio_returns.
  split; [cbn [length]; rewrite equity_loop_length; reflexivity|].
  split; [reflexivity|]. split.
  - destruct (equity_loop_last (initial_capital p) portfolio_returns) as (final & Hl & Hf).
    exists final. split; [exact Hl|]. rewrite Hf.
    unfold StrategyMetrics._calculate_total_return. ring.
  - intros Hc Hr. constructor; [exact Hc|]. apply equity_loop_positive; assumption.
Qed.

End PortfolioReturns.

(** * The trade statistics *)

Section MetricsFacts.
Import PyEval StrategyMetrics.

Lemma count_pos (n : nat) : (0 < n)%nat -> 0 < inject_Z (Z.of_nat n).
Proof. intros H. change 0 with (inject_Z 0). rewrite <- Zlt_Qlt. lia. Qed.

Lemma count_nonneg (n : nat) : 0 <= inject_Z (Z.of_nat n).
Proof. change 0 with (inject_Z 0). rewrite <- Zle_Qle. lia. Qed.

Lemma count_le (a b : nat) : (a <= b)%nat -> inject_Z (Z.of_nat a) <= inject_Z (Z.of_nat b).
Proof. intros H. rewrite <- Zle_Qle. lia. Qed.

Lemma count_plus (a b : nat) :
  inject_Z (Z.of_nat (a + b)) == inject_Z (Z.of_nat a) + inject_Z (Z.of_nat b).
Proof. rewrite Nat2Z.inj_add, inject_Z_plus. reflexivity. Qed.

Lemma filter_length_le {A} (f : A -> bool) (l : list A) :
  (length (List.filter f l) <= length l)%nat.
Proof.
  induction l as [|x l IH]; [cbn; lia|].
  cbn [List.filter]. destruct (f x); cbn [length]; lia.
Qed.

Lemma filter_length_all {A} (f : A -> bool) (l : list A) :
  length (List.filter f l) = length l <-> Forall (fun x => f x = true) l.
Proof.
  induction l as [|x l IH]; [split; [constructor|reflexivity]|].
  pose proof (filter_length_le f l) as Hle.
  cbn [List.filter]. destruct (f x) eqn:E; cbn [length]; split; intros H.
  - constructor; [exact E|]. apply IH. lia.
  - inversion H; subst. f_equal. apply IH. assumption.
  - lia.
  - inversion H; subst. congruence.
Qed.

Lemma filter_Forall {A} (f : A -> bool) (l : list A) :
  Forall (fun x => f x = true) (List.filter f l).
Proof.
  induction l as [|x l IH]; [constructor|].
  cbn [List.filter]. destruct (f x) eqn:E; [constructor; assumption|assumption].
Qed.

Lemma wins_positive (returns : list Q) : Forall (fun r => 0 < r) (wins returns).
Proof.
  eapply Forall_impl; [apply filter_Forall|]. intros r H. apply Qlt_bool_iff. exact H.
Qed.

Lemma losses_negative (returns : list Q) : Forall (fun r => r < 0) (losses returns).
Proof.
  eapply Forall_impl; [apply filter_Forall|]. intros r H. apply Qlt_bool_iff. exact H.
Qed.

Lemma np_sum_positive (l : list Q) : l <> [] -> Forall (fun r => 0 < r) l -> 0 < np_sum l.
Proof.
  intros Hne H. destruct H as [|x l Hx Hl]; [contradiction|].
  rewrite np_sum_cons.
  assert (0 <= np_sum l).
  { apply np_sum_nonneg. eapply Forall_impl; [exact Hl|]. intros; cbn in *; lra. }
  lra.
Qed.

Lemma np_sum_negative (l : list Q) : l <> [] -> Forall (fun r => r < 0) l -> np_sum l < 0.
Proof.
  intros Hne H. induction H as [|x l Hx Hl IH]; [contradiction|].
  rewrite np_sum_cons. destruct l as [|y l]; [cbn; lra|].
  assert (np_sum (y :: l) < 0) by (apply IH; discriminate). lra.
Qed.

Lemma np_sum_not_positive (l : list Q) : Forall (fun r => r < 0) l -> np_sum l <= 0.
Proof.
  intros H. destruct l as [|x l]; [cbn; lra|].
  apply Qlt_le_weak. apply np_sum_negative; [discriminate|exact H].
Qed.

(** The returns that are zero are in neither list. *)
Lemma wins_losses_sum (returns : list Q) :
  np_sum returns == np_sum (wins returns) + np_sum (losses returns).
Proof.
  induction returns as [|r l IH]; [cbn; lra|].
  unfold wins, losses in *. cbn [List.filter]. rewrite np_sum_cons.
  qcase (Qlt_bool 0 r); qcase (Qlt_bool r 0); rewrite ?np_sum_cons; lra.
Qed.

Lemma wins_losses_length (returns : list Q) :
  (length (wins returns) + length (losses returns) <= length returns)%nat /\
  (Forall (fun r => ~ r == 0) returns ->
     (length (wins returns) + length (losses returns))%nat = length returns).
Proof.
  induction returns as [|r l [IH1 IH2]]; [split; [cbn; lia|reflexivity]|].
  unfold wins, losses in *. cbn [List.filter].
  qcase (Qlt_bool 0 r); qcase (Qlt_bool r 0); cbn [length]; try lra.
  - split; [lia|]. intros H. inversion H; subst. rewrite <- IH2 by assumption. lia.
  - split; [lia|]. intros H. inversion H; subst. rewrite <- IH2 by assumption. lia.
  - split; [lia|]. intros H. inversion H; subst. exfalso. apply H2. lra.
Qed.

Lemma win_rate_nonempty (returns : list Q) :
  returns <> [] ->
  _calculate_win_rate returns
  = Fin (inject_Z (Z.of_nat (length (wins returns))) / inject_Z (Z.of_nat (length returns))).
Proof. intros H. destruct returns; [contradiction|reflexivity]. Qed.

(** The win rate is a frequency: a number between 0 and 1, equal to 1
    exactly when every return is positive; on the empty series the
    division yields NaN. *)
Theorem win_rate_range (returns : list Q) :
  match _calculate_win_rate returns with
  | Fin w => returns <> [] /\ 0 <= w <= 1 /\ (w == 1 <-> Forall (fun r => 0 < r) returns)
  | NaN => returns = []
  | _ => False
  end.
Proof.
  destruct returns as [|r0 l]; [reflexivity|].
  set (returns := r0 :: l). unfold _calculate_win_rate. fold returns.
  change (match returns with [] => NaN | _ => ?x end) with x.
  cbv beta iota.
  pose proof (filter_length_le (fun r => Qlt_bool 0 r) returns) as Hle.
  fold (wins returns) in Hle.
  pose proof (count_le _ _ Hle) as Hq.
  pose proof (count_nonneg (length (wins returns))) as Ha.
  assert (Hn : 0 < inject_Z (Z.of_nat (length returns))) by (apply count_pos; cbn; lia).
  split; [discriminate|]. split; [split|].
  - apply Qle_shift_div_l; [exact Hn|]. lra.
  - apply Qle_shift_div_r; [exact Hn|]. lra.
  - split.
    + intros H1.
      assert (E : inject_Z (Z.of_nat (length (wins returns)))
                  == inject_Z (Z.of_nat (length returns))).
      { rewrite <- (Qmult_1_l (inject_Z (Z.of_nat (length returns)))), <- H1.
        field. lra. }
      apply (proj1 (inject_Z_injective _ _)), Nat2Z.inj in E.
      apply filter_length_all in E.
      eapply Forall_impl; [exact E|]. intros r H. apply Qlt_bool_iff. exact H.
    + intros H.
      assert (E : length (wins returns) = length returns).
      { apply filter_length_all. eapply Forall_impl; [exact H|].
        intros r Hr. apply Qlt_bool_iff. exact Hr. }
      rewrite E. field. lra.
Qed.

(** ** Omega and the profit factor *)

Lemma np_sum_minus_zero (l : list Q) : np_sum (map (fun r => r - 0) l) == np_sum l.
Proof.
  induction l as [|x l IH]; [reflexivity|].
  cbn [map]. rewrite !np_sum_cons, IH. ring.
Qed.

Lemma omega_losses_at_zero (returns : list Q) :
  np_sum (StrategyModel.omega_losses returns 0) == - np_sum (losses returns).
Proof.
  unfold StrategyModel.omega_losses, losses.
  induction returns as [|r l IH]; [reflexivity|].
  cbn [List.filter].
  qcase (Qle_bool r 0); qcase (Qlt_bool r 0); cbn [map]; rewrite ?np_sum_cons; lra.
Qed.

(** With the threshold 0 the Omega ratio is the profit factor: both are
    the sum of the positive returns over the sum of the losses, and both
    are infinite when nothing was lost. *)
Theorem omega_at_zero_is_profit_factor (returns : list Q) :
  match StrategyModel._calculate_omega_ratio returns 0, _calculate_profit_factor returns with
  | Fin omega, Fin profit_factor => omega == profit_factor
  | PInf, PInf => True
  | _, _ => False
  end.
Proof.
  unfold StrategyModel._calculate_omega_ratio, _calculate_profit_factor.
  pose proof (omega_losses_at_zero returns) as HL.
  pose proof (np_sum_not_positive _ (losses_negative returns)) as Hneg.
  assert (Habs : Qabs (np_sum (losses returns)) == np_sum (StrategyModel.omega_losses returns 0)).
  { rewrite Qabs_neg by exact Hneg. rewrite HL. reflexivity. }
  assert (HG : np_sum (StrategyModel.omega_gains returns 0) == np_sum (wins returns)).
  { unfold StrategyModel.omega_gains. apply np_sum_minus_zero. }
  destruct (length (StrategyModel.omega_losses returns 0) =? 0)%nat eqn:El.
  - apply Nat.eqb_eq in El.
    destruct (StrategyModel.omega_losses returns 0); [|discriminate].
    cbn [orb]. change (np_sum []) with 0 in Habs.
    apply Qeq_eq_bool in Habs. rewrite Habs. exact I.
  - cbn [orb].
    qcase (Qeq_bool (np_sum (StrategyModel.omega_losses returns 0)) 0).
    + rewrite E in Habs. apply Qeq_eq_bool in Habs. rewrite Habs. exact I.
    + assert (Hnz : ~ Qabs (np_sum (losses returns)) == 0) by (rewrite Habs; exact E).
      apply Qeq_bool_false in Hnz. rewrite Hnz.
      rewrite HG, Habs. reflexivity.
Qed.

(** ** The Kelly criterion *)

Lemma payoff_ratio_positive (returns : list Q) :
  wins returns <> [] -> losses returns <> [] ->
  exists b, _calculate_payoff_ratio returns = Fin b /\ 0 < b.
Proof.
  intros Hw Hl. unfold _calculate_payoff_ratio.
  destruct (length (losses returns) =? 0)%nat eqn:E1.
  { apply Nat.eqb_eq in E1. destruct (losses returns); [contradiction|discriminate]. }
  destruct (length (wins returns) =? 0)%nat eqn:E2.
  { apply Nat.eqb_eq in E2. destruct (wins returns); [contradiction|discriminate]. }
  apply Nat.eqb_neq in E1, E2.
  eexists. split; [reflexivity|].
  pose proof (np_sum_positive _ Hw (wins_positive returns)) as HW.
  pose proof (np_sum_negative _ Hl (losses_negative returns)) as HL.
  pose proof (count_pos (length (wins returns))) as Ha.
  pose proof (count_pos (length (losses returns))) as Hb.
  unfold np_mean.
  set (a := inject_Z (Z.of_nat (length (wins returns)))) in *.
  set (b := inject_Z (Z.of_nat (length (losses returns)))) in *.
  assert (0 < a) by (apply Ha; lia). assert (0 < b) by (apply Hb; lia).
  assert (Hm : np_sum (losses returns) / b < 0).
  { apply Qlt_shift_div_r; [assumption|]. lra. }
  rewrite (Qabs_neg _ (Qlt_le_weak _ _ Hm)).
  apply Qlt_shift_div_l.
  - set (m := np_sum (losses returns) / b) in *. clearbody m. lra.
  - rewrite Qmult_0_l. apply Qlt_shift_div_l; [assumption|]. lra.
Qed.

Lemma kelly_without_losses (returns : list Q) :
  losses returns = [] -> _calculate_kelly_criterion returns = NaN.
Proof.
  intros Hl. unfold _calculate_kelly_criterion, _calculate_payoff_ratio. rewrite Hl.
  cbn [length Nat.eqb is_zero].
  destruct (_calculate_win_rate returns) as [w| | |]; try reflexivity.
  cbn [fmul is_zero orb]. destruct (Qeq_bool w 0); [reflexivity|].
  cbn [is_neg xorb]. destruct (Qlt_bool w 0); reflexivity.
Qed.

(** The Kelly criterion of a series.  Without a losing return the payoff
    ratio is infinite and the criterion is NaN (inf/inf), which the Kelly
    allocation of the optimizer turns into the weight 0; with losing
    returns only it is 0; otherwise it is [w - (1 - w) / b] for the win
    rate [w] and the payoff ratio [b], a value below the win rate. *)
Theorem kelly_criterion_cases (returns : list Q) :
  (losses returns = [] ->
     _calculate_kelly_criterion returns = NaN /\
     forall s, PortfolioModel.metrics s !! "kelly_criterion"%string
               = Some (_calculate_kelly_criterion returns) ->
               PortfolioModel.kelly_weight s = 0) /\
  (losses returns <> [] -> wins returns = [] ->
     _calculate_kelly_criterion returns = Fin 0) /\
  (losses returns <> [] -> wins returns <> [] ->
     exists k w b,
       _calculate_kelly_criterion returns = Fin k /\
       _calculate_win_rate returns = Fin w /\
       _calculate_payoff_ratio returns = Fin b /\
       0 < b /\ k == w - (1 - w) / b /\ k < w).
Proof.
  split; [|split].
  - intros Hl.
    pose proof (kelly_without_losses returns Hl) as Hnan.
    split; [exact Hnan|].
    intros s Hs. unfold PortfolioModel.kelly_weight. rewrite Hs, Hnan. reflexivity.
  - intros Hl Hw. unfold _calculate_kelly_criterion, _calculate_payoff_ratio. rewrite Hw.
    destruct (length (losses returns) =? 0)%nat eqn:E1.
    { apply Nat.eqb_eq in E1. destruct (losses returns); [contradiction|discriminate]. }
    reflexivity.
  - intros Hl Hw.
    destruct (payoff_ratio_positive returns Hw Hl) as (b & Hb & Hbpos).
    destruct (wins_losses_length returns) as [Hcount _].
    assert (Hne : returns <> []) by (intros ->; apply Hw; reflexivity).
    assert (Hwr : exists w, _calculate_win_rate returns = Fin w /\ w < 1).
    { rewrite (win_rate_nonempty returns Hne). eexists. split; [reflexivity|].
      assert (0 < length (losses returns))%nat
        by (destruct (losses returns); [contradiction|cbn; lia]).
      apply Qlt_shift_div_r.
      - apply count_pos. lia.
      - rewrite Qmult_1_l. rewrite <- Zlt_Qlt. lia. }
    destruct Hwr as (w & Hwr & Hw1).
    exists ((b * w + - (1 + - w)) / b), w, b.
    split.
    { unfold _calculate_kelly_criterion. rewrite Hb, Hwr. cbn [is_zero].
      assert (Hbz : Qeq_bool b 0 = false) by (apply Qeq_bool_false; lra).
      rewrite Hbz. reflexivity. }
    split; [exact Hwr|]. split; [exact Hb|]. split; [exact Hbpos|].
    assert (E : (b * w + - (1 + - w)) / b == w - (1 - w) / b) by (field; lra).
    split; [exact E|]. rewrite E.
    assert (0 < (1 - w) / b).
    { apply Qlt_shift_div_l; [exact Hbpos|]. lra. }
    set (t := (1 - w) / b) in *. clearbody t. lra.
Qed.

(** ** The expectancy *)

Lemma expectancy_arith (n a b SW SL : Q) :
  0 < n -> 0 <= a -> 0 <= b -> a + b <= n -> SL <= 0 ->
  (a == 0 -> SW == 0) -> (b == 0 -> SL == 0) ->
  let avg_win := if Qeq_bool a 0 then 0 else SW / a in
  let avg_loss := if Qeq_bool b 0 then 0 else SL / b in
  let e := a / n * avg_win + (1 + - (a / n)) * avg_loss in
  e <= (SW + SL) / n /\ (a + b == n \/ b == 0 -> e == (SW + SL) / n).
Proof.
  intros Hn Ha Hb Hab HSL HW0 HL0 avg_win avg_loss e.
  assert (T1 : a / n * avg_win == SW / n).
  { subst avg_win. qcase (Qeq_bool a 0).
    - rewrite (HW0 E), E. field. lra.
    - field. split; lra. }
  assert (Hsplit : (SW + SL) / n == SW / n + SL / n) by (field; lra).
  subst e. rewrite T1, Hsplit.
  subst avg_loss. qcase (Qeq_bool b 0).
  - rewrite (HL0 E).
    assert (E0 : (1 + - (a / n)) * 0 == 0) by ring.
    assert (E1 : 0 / n == 0) by (field; lra).
    rewrite E0, E1. split; [lra|intros _; reflexivity].
  - assert (E2 : (1 + - (a / n)) * (SL / b)
                 == SL / n + - ((n - a - b) * (- SL) * / (n * b))) by (field; split; lra).
    rewrite E2.
    assert (Hnb : 0 < n * b) by (apply Qmult_lt_0_compat; lra).
    assert (Hpos : 0 <= (n - a - b) * (- SL) * / (n * b)).
    { apply Qmult_le_0_compat; [apply Qmult_le_0_compat; lra|].
      apply Qinv_le_0_compat. lra. }
    split.
    + set (t := (n - a - b) * (- SL) * / (n * b)) in *. clearbody t.
      set (u := SW / n). set (v := SL / n). clearbody u v. lra.
    + intros [Hs|Hb0]; [|contradiction].
      assert (E3 : (n - a - b) * (- SL) * / (n * b) == 0).
      { assert (Hz : n - a - b == 0) by lra. rewrite Hz. ring. }
      rewrite E3. ring.
Qed.

(** The expectancy weighs the average loss by the share of the returns
    that are not wins, so a return of exactly zero counts as a losing
    period: the expectancy is at most the mean return, and equal to it when
    no return is zero (or none is negative). *)
Theorem expectancy_below_mean (returns : list Q) :
  returns <> [] ->
  exists e, _calculate_expectancy returns = Fin e /\
    e <= np_mean returns /\
    (Forall (fun r => ~ r == 0) returns \/ losses returns = [] -> e == np_mean returns).
Proof.
  intros Hne.
  destruct (wins_losses_length returns) as [Hcount Hfull].
  pose proof (wins_losses_sum returns) as Hsum.
  pose proof (np_sum_not_positive _ (losses_negative returns)) as HSL.
  assert (Hn : 0 < inject_Z (Z.of_nat (length returns)))
    by (apply count_pos; destruct returns; [contradiction|cbn; lia]).
  pose proof (expectancy_arith
                (inject_Z (Z.of_nat (length returns)))
                (inject_Z (Z.of_nat (length (wins returns))))
                (inject_Z (Z.of_nat (length (losses returns))))
                (np_sum (wins returns)) (np_sum (losses returns)) Hn
                (count_nonneg _) (count_nonneg _)) as Harith.
  assert (Hzero : forall l' : list Q, inject_Z (Z.of_nat (length l')) == 0 -> l' = []).
  { intros l' H. change 0 with (inject_Z 0) in H.
    apply (proj1 (inject_Z_injective _ _)) in H.
    destruct l'; [reflexivity|cbn [length] in H; lia]. }
  assert (Hbool : forall l' : list Q,
             Qeq_bool (inject_Z (Z.of_nat (length l'))) 0 = negb (0 <? length l')%nat).
  { intros l'. destruct l' as [|x l']; [reflexivity|].
    apply Qeq_bool_false. intros H. apply Hzero in H. discriminate. }
  destruct Harith as [Hle Heq].
  - rewrite <- count_plus. apply count_le. exact Hcount.
  - exact HSL.
  - intros H. apply Hzero in H. rewrite H. reflexivity.
  - intros H. apply Hzero in H. rewrite H. reflexivity.
  - rewrite !Hbool in Hle, Heq.
    exists (inject_Z (Z.of_nat (length (wins returns)))
            / inject_Z (Z.of_nat (length returns))
            * (if (0 <? length (wins returns))%nat then np_mean (wins returns) else 0)
            + (1 + - (inject_Z (Z.of_nat (length (wins returns)))
                      / inject_Z (Z.of_nat (length returns))))
              * (if (0 <? length (losses returns))%nat
                 then np_mean (losses returns) else 0)).
    split; [|split].
    + unfold _calculate_expectancy. rewrite (win_rate_nonempty returns Hne). reflexivity.
    + unfold np_mean. rewrite Hsum.
      destruct (0 <? length (wins returns))%nat, (0 <? length (losses returns))%nat;
        cbn [negb] in Hle; exact Hle.
    + intros H. unfold np_mean. rewrite Hsum.
      assert (Hcond : inject_Z (Z.of_nat (length (wins returns)))
                      + inject_Z (Z.of_nat (length (losses returns)))
                      == inject_Z (Z.of_nat (length returns))
                      \/ inject_Z (Z.of_nat (length (losses returns))) == 0).
      { destruct H as [H|H].
        - left. rewrite <- count_plus, (Hfull H). reflexivity.
        - right. rewrite H. reflexivity. }
      destruct (0 <? length (wins returns))%nat, (0 <? length (losses returns))%nat;
        cbn [negb] in Heq; exact (Heq Hcond).
Qed.

Lemma expectancy_below_mean_witness :
  exists e, _calculate_expectancy [1; 0; -(1)] = Fin e /\
    e <= np_mean [1; 0; -(1)] /\
    (Forall (fun r => ~ r == 0) [1; 0; -(1)] \/ losses [1; 0; -(1)] = []
     -> e == np_mean [1; 0; -(1)]).
Proof. apply (expectancy_below_mean [1; 0; -(1)]). discriminate. Defined.

(** One win, one loss and one flat period: mean 0, expectancy -1/3. *)
Example expectancy_with_a_flat_period :
  _calculate_expectancy [1; 0; -(1)] = Fin ((1#3) * 1 + (1 + - (1#3)) * -(1))
  /\ np_mean [1; 0; -(1)] == 0.
Proof. split; [vm_compute; reflexivity|reflexivity]. Qed.

(** ** The maximum drawdown *)

Lemma mapM_Ret {A B} (f : A -> outcome B) (g : A -> B) (l : list A) :
  Forall (fun x => f x = Ret (g x)) l -> mapM f l = Ret (map g l).
Proof.
  induction 1 as [|x l Hx _ IH]; [reflexivity|].
  cbn [mapM map]. rewrite Hx. cbn [mbind outcome_bind]. rewrite IH. reflexivity.
Qed.

Lemma drawdown_invariant (l : list Q) (acc best : Q) :
  0 < acc -> acc <= best -> Forall (fun x => 0 < x) l ->
  Forall (fun pc : Q * Q => 0 < pc.2 /\ pc.2 <= pc.1)
         (zip (maximum_from best (cumprod_from acc l)) (cumprod_from acc l)).
Proof.
  intros Hacc Hbest Hl. revert acc best Hacc Hbest.
  induction Hl as [|x l Hx _ IH]; intros acc best Hacc Hbest; [constructor|].
  cbn [cumprod_from maximum_from zip zip_with].
  assert (Hc : 0 < acc * x) by (apply Qmult_lt_0_compat; assumption).
  constructor.
  - cbn [fst snd]. split; [exact Hc|]. qcase (Qlt_bool best (acc * x)); lra.
  - apply IH; [exact Hc|]. qcase (Qlt_bool best (acc * x)); lra.
Qed.

Lemma drawdown_invariant_rising (l : list Q) (acc best : Q) :
  0 < acc -> acc == best -> Forall (fun x => 1 <= x) l ->
  Forall (fun pc : Q * Q => pc.2 == pc.1)
         (zip (maximum_from best (cumprod_from acc l)) (cumprod_from acc l)).
Proof.
  intros Hacc Hbest Hl. revert acc best Hacc Hbest.
  induction Hl as [|x l Hx _ IH]; intros acc best Hacc Hbest; [constructor|].
  cbn [cumprod_from maximum_from zip zip_with].
  assert (Hc : acc * 1 <= acc * x) by (apply Qmult_le_l; assumption).
  constructor.
  - cbn [fst snd]. qcase (Qlt_bool best (acc * x)); [reflexivity|lra].
  - apply IH; [lra|]. qcase (Qlt_bool best (acc * x)); [reflexivity|lra].
Qed.

Lemma np_max_fold (P : Q -> Prop) (l : list Q) (x : Q) :
  P x -> Forall P l ->
  exists y, foldl (np_extremum (fun candidate best => flt best candidate)) (Fin x) (map Fin l)
            = Fin y /\ P y.
Proof.
  intros Hx Hl. revert x Hx. induction Hl as [|a l Ha _ IH]; intros x Hx.
  - exists x. split; [reflexivity|exact Hx].
  - cbn [map foldl]. unfold np_extremum at 2. cbn [is_nan flt].
    destruct (Qlt_bool x a); apply IH; assumption.
Qed.

(** The drawdowns of a series that never loses 100% in a period. *)
Lemma drawdown_series_spec (returns : list Q) :
  returns <> [] -> Forall (fun r => -1 < r) returns ->
  exists ds, _get_drawdown_series returns = Ret (map Fin ds) /\ ds <> [] /\
    Forall (fun d => 0 <= d < 1) ds /\
    (Forall (fun r => 0 <= r) returns -> Forall (fun d => d == 0) ds).
Proof.
  intros Hne Hr.
  destruct returns as [|r0 l]; [contradiction|]. clear Hne.
  inversion Hr as [|? ? Hr0 Hl]; subst.
  set (h := fun pc : Q * Q => (pc.1 - pc.2) / pc.1).
  set (pairs := zip (maximum_from (1 + r0) (cumprod_from (1 + r0) (map (fun r => 1 + r) l)))
                    (cumprod_from (1 + r0) (map (fun r => 1 + r) l))).
  assert (Hinv : Forall (fun pc : Q * Q => 0 < pc.2 /\ pc.2 <= pc.1) pairs).
  { apply drawdown_invariant; [lra|lra|].
    apply Forall_map. eapply Forall_impl; [exact Hl|]. intros r H. cbn in *. lra. }
  assert (Hfirst : h (1 + r0, 1 + r0) == 0).
  { unfold h. cbn [fst snd]. field. lra. }
  exists (map h ((1 + r0, 1 + r0) :: pairs)).
  split; [|split; [discriminate|split]].
  - rewrite (map_map h Fin).
    unfold _get_drawdown_series. cbn [map np_cumprod np_maximum_accumulate zip zip_with].
    apply (mapM_Ret drawdown_entry (fun pc => Fin (h pc)) ((1 + r0, 1 + r0) :: pairs)).
    constructor.
    + unfold drawdown_entry.
      assert (E : Qeq_bool (1 + r0) 0 = false) by (apply Qeq_bool_false; lra).
      rewrite E. reflexivity.
    + eapply Forall_impl; [exact Hinv|]. intros [p c] [Hc Hp]. cbn [fst snd] in *.
      unfold drawdown_entry.
      assert (E : Qeq_bool p 0 = false) by (apply Qeq_bool_false; lra).
      rewrite E. reflexivity.
  - cbn [map]. constructor; [rewrite Hfirst; lra|].
    apply Forall_map. eapply Forall_impl; [exact Hinv|].
    intros [p c] [Hc Hp]. unfold h. cbn [fst snd] in *. split.
    + apply Qle_shift_div_l; lra.
    + apply Qlt_shift_div_r; lra.
  - intros Hpos. inversion Hpos as [|? ? Hp0 Hpl]; subst.
    cbn [map]. constructor; [exact Hfirst|].
    assert (Hrise : Forall (fun pc : Q * Q => pc.2 == pc.1) pairs).
    { apply drawdown_invariant_rising; [lra|reflexivity|].
      apply Forall_map. eapply Forall_impl; [exact Hpl|]. intros r H. cbn in *. lra. }
    apply Forall_map. apply Forall_forall. intros [p c] Hin.
    rewrite Forall_forall in Hrise, Hinv.
    specialize (Hrise _ Hin). specialize (Hinv _ Hin).
    unfold h. cbn [fst snd] in *. rewrite Hrise. field. lra.
Qed.

Lemma np_max_of_series (P : Q -> Prop) (ds : list Q) :
  ds <> [] -> Forall P ds -> exists d, np_max (map Fin ds) = Ret (Fin d) /\ P d.
Proof.
  intros Hne Hall. destruct Hall as [|d0 ds Hd0 Hds]; [contradiction|].
  destruct (np_max_fold P ds d0 Hd0 Hds) as (d & Hd & HP).
  exists d. split; [|exact HP]. cbn [map np_max]. rewrite Hd. reflexivity.
Qed.

(** On a series that never loses 100% in a period the maximum drawdown
    is a fraction of the peak: a number in [0, 1), and 0 when no return is
    negative. *)
Theorem max_drawdown_range (returns : list Q) :
  returns <> [] -> Forall (fun r => -1 < r) returns ->
  exists d, _calculate_max_drawdown returns = Ret (Fin d) /\ 0 <= d < 1 /\
    (Forall (fun r => 0 <= r) returns -> d == 0).
Proof.
  intros Hne Hr.
  destruct (drawdown_series_spec returns Hne Hr) as (ds & Hseries & Hds & Hrange & Hflat).
  destruct (np_max_of_series
              (fun d => 0 <= d < 1 /\ (Forall (fun r => 0 <= r) returns -> d == 0)) ds Hds)
    as (d & Hd & Hdr & Hd0).
  - apply Forall_forall. intros d Hd. split.
    + rewrite Forall_forall in Hrange. apply Hrange. exact Hd.
    + intros Hpos. specialize (Hflat Hpos). rewrite Forall_forall in Hflat.
      apply Hflat. exact Hd.
  - exists d. split; [|split; [exact Hdr|exact Hd0]].
    unfold _calculate_max_drawdown. rewrite Hseries. cbn [mbind outcome_bind]. exact Hd.
Qed.

Lemma max_drawdown_range_witness :
  exists d, _calculate_max_drawdown [1#10; -(1#2)] = Ret (Fin d) /\ 0 <= d < 1 /\
    (Forall (fun r => 0 <= r) [1#10; -(1#2)] -> d == 0).
Proof.
  apply (max_drawdown_range [1#10; -(1#2)]); [discriminate|].
  repeat constructor.
Defined.

(** A gain of 10% followed by a loss of 50%: half the peak is lost.  On
    the empty series [np.max] raises. *)
Example max_drawdown_of_a_halving :
  (exists d, _calculate_max_drawdown [1#10; -(1#2)] = Ret (Fin d) /\ d == 1#2) /\
  _calculate_max_drawdown [] = Raise ValueError.
Proof. split; [eexists; split; [vm_compute; reflexivity|reflexivity]|reflexivity]. Qed.

(** ** The ratios built on the drawdown *)

Lemma sum_of_floats (l : list Q) : foldr fadd (Fin 0) (map Fin l) = Fin (np_sum l).
Proof.
  induction l as [|x l IH]; [reflexivity|].
  cbn [map foldr]. rewrite IH. reflexivity.
Qed.

Lemma np_mean_float_finite (l : list Q) :
  l <> [] -> np_mean_float (map Fin l) = Fin (np_mean l).
Proof.
  intros Hne. destruct l as [|x l]; [contradiction|].
  unfold np_mean_float. rewrite sum_of_floats, length_map. reflexivity.
Qed.

Lemma np_mean_bounds (lo hi : Q) (l : list Q) :
  l <> [] -> Forall (fun x => lo <= x <= hi) l -> lo <= np_mean l <= hi.
Proof.
  intros Hne Hall. unfold np_mean.
  assert (Hsum : lo * inject_Z (Z.of_nat (length l)) <= np_sum l
                 <= hi * inject_Z (Z.of_nat (length l))).
  { clear Hne. induction Hall as [|x l Hx _ IH].
    - unfold np_sum. cbn [foldr length]. change (inject_Z (Z.of_nat 0)) with 0. lra.
    - rewrite np_sum_cons. cbn [length]. rewrite Nat2Z.inj_succ. unfold Z.succ.
      rewrite inject_Z_plus. change (inject_Z 1) with 1.
      set (n := inject_Z (Z.of_nat (length l))) in *. clearbody n. lra. }
  assert (Hn : 0 < inject_Z (Z.of_nat (length l))).
  { apply count_pos. destruct l; [contradiction|cbn; lia]. }
  split; [apply Qle_shift_div_l|apply Qle_shift_div_r]; lra.
Qed.

(** The ratios that divide by a drawdown, on a series that never loses
    100% in a period.  The pain index is a number in [0, 1), and the
    recovery factor is finite, with the sign of the total return.  When no
    return is negative the maximum drawdown and the pain index are 0 and
    the guards of the code return 0 for the recovery factor, the
    gain-to-pain ratio and the Calmar ratio, whatever the total and the
    annualized return are. *)
Theorem drawdown_ratios (annualized_return : list Q -> pyfloat) (returns : list Q) :
  returns <> [] -> Forall (fun r => -1 < r) returns ->
  (exists p, _calculate_pain_index returns = Ret (Fin p) /\ 0 <= p < 1) /\
  (exists x, _calculate_recovery_factor returns = Ret (Fin x) /\
             (0 <= _calculate_total_return returns -> 0 <= x) /\
             (_calculate_total_return returns <= 0 -> x <= 0)) /\
  (Forall (fun r => 0 <= r) returns ->
     (exists p, _calculate_pain_index returns = Ret (Fin p) /\ p == 0) /\
     _calculate_recovery_factor returns = Ret (Fin 0) /\
     _calculate_gain_to_pain_ratio returns = Ret (Fin 0) /\
     _calculate_calmar_ratio annualized_return returns = Ret (Fin 0)).
Proof.
  intros Hne Hr.
  destruct (drawdown_series_spec returns Hne Hr) as (ds & Hseries & Hds & Hrange & Hflat).
  assert (Habs : map fabs (map Fin ds) = map Fin ds).
  { rewrite map_map. apply map_ext_Forall. eapply Forall_impl; [exact Hrange|].
    intros d [Hd _]. cbn [fabs]. f_equal.
    (* the drawdowns are not negative, but [Qabs d] is [d] only up to [==] *)
    unfold Qabs. destruct d as [[|n|n] q]; try reflexivity.
    exfalso. unfold Qle in Hd. cbn in Hd. lia. }
  assert (Hpain : _calculate_pain_index returns = Ret (Fin (np_mean ds))).
  { unfold _calculate_pain_index. rewrite Hseries. cbn [mbind outcome_bind].
    rewrite Habs, (np_mean_float_finite ds Hds). reflexivity. }
  destruct (np_max_of_series
              (fun d => 0 <= d < 1 /\ (Forall (fun r => 0 <= r) returns -> d == 0)) ds Hds)
    as (d & Hd & Hdr & Hd0).
  { apply Forall_forall. intros d Hd. split.
    - rewrite Forall_forall in Hrange. apply Hrange. exact Hd.
    - intros Hpos. specialize (Hflat Hpos). rewrite Forall_forall in Hflat.
      apply Hflat. exact Hd. }
  assert (Hmax : _calculate_max_drawdown returns = Ret (Fin d)).
  { unfold _calculate_max_drawdown. rewrite Hseries. cbn [mbind outcome_bind]. exact Hd. }
  split; [|split].
  - exists (np_mean ds). split; [exact Hpain|].
    assert (Hm : 0 <= np_mean ds <= 1).
    { apply np_mean_bounds; [exact Hds|].
      eapply Forall_impl; [exact Hrange|]. intros x Hx. cbn beta in Hx. lra. }
    split; [lra|].
    destruct (Qlt_le_dec (np_mean ds) 1) as [Hlt|Hge]; [exact Hlt|exfalso].
    (* a mean of 1 needs an entry of at least 1 *)
    assert (Hall : Forall (fun x => 0 <= 1 - x) ds).
    { eapply Forall_impl; [exact Hrange|]. intros x Hx. cbn beta in Hx. lra. }
    assert (Hsum : np_sum ds == inject_Z (Z.of_nat (length ds))).
    { assert (Hn : 0 < inject_Z (Z.of_nat (length ds))).
      { apply count_pos. destruct ds; [contradiction|cbn; lia]. }
      assert (E : np_mean ds == 1) by lra. unfold np_mean in E.
      rewrite <- (Qmult_1_l (inject_Z (Z.of_nat (length ds)))), <- E. field. lra. }
    clear - Hrange Hsum Hds.
    assert (Hstrict : np_sum ds < inject_Z (Z.of_nat (length ds))).
    { destruct Hrange as [|x l Hx Hl]; [contradiction|]. clear Hds Hsum.
      rewrite np_sum_cons. cbn [length]. rewrite Nat2Z.inj_succ. unfold Z.succ.
      rewrite inject_Z_plus. change (inject_Z 1) with 1.
      assert (np_sum l <= inject_Z (Z.of_nat (length l))).
      { induction Hl as [|y l Hy _ IH];
          [unfold np_sum; cbn [foldr length];
           change (inject_Z (Z.of_nat 0)) with 0; lra|].
        rewrite np_sum_cons. cbn [length]. rewrite Nat2Z.inj_succ. unfold Z.succ.
        rewrite inject_Z_plus. change (inject_Z 1) with 1. lra. }
      lra. }
    lra.
  - unfold _calculate_recovery_factor. rewrite Hmax. cbn [mbind outcome_bind is_zero].
    qcase (Qeq_bool d 0).
    + exists 0. split; [reflexivity|]. split; intros _; lra.
    + eexists. split; [reflexivity|].
      assert (Hdpos : 0 < Qabs d) by (rewrite Qabs_pos; lra).
      split; intros Ht.
      * apply Qle_shift_div_l; [exact Hdpos|]. lra.
      * apply Qle_shift_div_r; [exact Hdpos|]. lra.
  - intros Hpos. specialize (Hd0 Hpos). specialize (Hflat Hpos).
    assert (Hz : Qeq_bool d 0 = true) by (apply Qeq_eq_bool; exact Hd0).
    assert (Hp0 : np_mean ds == 0).
    { assert (H0 : 0 <= np_mean ds <= 0); [|lra].
      apply np_mean_bounds; [exact Hds|].
      eapply Forall_impl; [exact Hflat|]. intros x Hx. cbn beta in Hx. lra. }
    split; [exists (np_mean ds); split; [exact Hpain|exact Hp0]|].
    split; [unfold _calculate_recovery_factor; rewrite Hmax;
            cbn [mbind outcome_bind is_zero]; rewrite Hz; reflexivity|].
    split.
    + unfold _calculate_gain_to_pain_ratio. rewrite Hpain.
      cbn [mbind outcome_bind is_zero].
      apply Qeq_eq_bool in Hp0. rewrite Hp0. reflexivity.
    + unfold _calculate_calmar_ratio. rewrite Hmax.
      cbn [mbind outcome_bind is_zero]. rewrite Hz. reflexivity.
Qed.

Lemma drawdown_ratios_witness :
  (exists p, _calculate_pain_index [1#10; 2#10] = Ret (Fin p) /\ 0 <= p < 1) /\
  (exists x, _calculate_recovery_factor [1#10; 2#10] = Ret (Fin x) /\
             (0 <= _calculate_total_return [1#10; 2#10] -> 0 <= x) /\
             (_calculate_total_return [1#10; 2#10] <= 0 -> x <= 0)) /\
  (Forall (fun r => 0 <= r) [1#10; 2#10] ->
     (exists p, _calculate_pain_index [1#10; 2#10] = Ret (Fin p) /\ p == 0) /\
     _calculate_recovery_factor [1#10; 2#10] = Ret (Fin 0) /\
     _calculate_gain_to_pain_ratio [1#10; 2#10] = Ret (Fin 0) /\
     _calculate_calmar_ratio (fun _ => PInf) [1#10; 2#10] = Ret (Fin 0)).
Proof.
  apply (drawdown_ratios (fun _ => PInf) [1#10; 2#10]); [discriminate|].
  repeat constructor.
Defined.

(** After a gain of 10% and a loss of 50% the total return is -45% and
    the maximum drawdown 50%: the recovery factor is -0.9. *)
Example recovery_factor_of_a_halving :
  exists x, _calculate_recovery_factor [1#10; -(1#2)] = Ret (Fin x) /\ x == -(9#10).
Proof. eexists. split; [vm_compute; reflexivity|reflexivity]. Qed.

(** ** The position size *)

Lemma flt_irreflexive (a : pyfloat) : flt a a = false.
Proof.
  destruct a as [x| | |]; try reflexivity. cbn [flt]. apply Qlt_bool_false. lra.
Qed.

Lemma py_min_not_above (a b : pyfloat) : flt b (py_min a b) = false.
Proof.
  unfold py_min. destruct (flt b a) eqn:E; [apply flt_irreflexive|exact E].
Qed.

(** The position size of a known method never exceeds [max_position];
    an unknown method gets 2% whatever [max_position] is; and the Kelly
    size of a series without a losing return is NaN, not the cap. *)
Theorem position_size_cap (optimal_f volatility_target risk_parity : list Q -> pyfloat)
    (returns : list Q) (method : string) (max_position : Q) :
  let size := optimize_position_size optimal_f volatility_target risk_parity
                                     returns method max_position in
  (method ∈ ["kelly"; "optimal_f"; "fixed_fractional"; "volatility_targeting";
             "risk_parity"]%string ->
     flt (Fin max_position) size = false) /\
  (method ∉ ["kelly"; "optimal_f"; "fixed_fractional"; "volatility_targeting";
             "risk_parity"]%string ->
     size = Fin (2#100)) /\
  (method = "kelly"%string -> losses returns = [] -> size = NaN).
Proof.
  intros size. subst size. unfold optimize_position_size, sizing_methods.
  cbn [List.find fst].
  destruct (String.eqb_spec method "kelly") as [->|N1].
  { split; [intros _; apply py_min_not_above|].
    split; [intros H; exfalso; apply H; set_solver|].
    intros _ Hl. rewrite (kelly_without_losses returns Hl). reflexivity. }
  destruct (String.eqb_spec method "optimal_f") as [->|N2].
  { split; [intros _; apply py_min_not_above|].
    split; [intros H; exfalso; apply H; set_solver|discriminate]. }
  destruct (String.eqb_spec method "fixed_fractional") as [->|N3].
  { split; [intros _; apply py_min_not_above|].
    split; [intros H; exfalso; apply H; set_solver|discriminate]. }
  destruct (String.eqb_spec method "volatility_targeting") as [->|N4].
  { split; [intros _; apply py_min_not_above|].
    split; [intros H; exfalso; apply H; set_solver|discriminate]. }
  destruct (String.eqb_spec method "risk_parity") as [->|N5].
  { split; [intros _; apply py_min_not_above|].
    split; [intros H; exfalso; apply H; set_solver|discriminate]. }
  split; [intros H; exfalso; rewrite !elem_of_cons, elem_of_nil in H; intuition|].
  split; [reflexivity|]. intros ->. contradiction.
Qed.

End MetricsFacts.

(** * The scenario runs of the Stress Test Engine *)

Section StressFacts.
Import PyEval StressTestEngine.

Lemma getitem_setitem_same (k : string) (v : pyfloat) (d : list (string * pyfloat)) :
  getitem k (setitem k v d) = Done v.
Proof.
  induction d as [|[k' v'] d IH]; cbn [setitem getitem].
  - rewrite String.eqb_refl. reflexivity.
  - destruct (String.eqb k k') eqn:E; cbn [getitem]; rewrite E; [reflexivity|exact IH].
Qed.

Lemma getitem_setitem_other (k k' : string) (v : pyfloat) (d : list (string * pyfloat)) :
  k <> k' -> getitem k (setitem k' v d) = getitem k d.
Proof.
  intros Hne. induction d as [|[k0 v0] d IH]; cbn [setitem getitem].
  - apply String.eqb_neq in Hne. rewrite Hne. reflexivity.
  - destruct (String.eqb_spec k' k0) as [->|N]; cbn [getitem].
    + apply String.eqb_neq in Hne. rewrite Hne. reflexivity.
    + destruct (String.eqb k k0); [reflexivity|exact IH].
Qed.

Lemma setitem_keys (k : string) (v v0 : pyfloat) (d : list (string * pyfloat)) :
  getitem k d = Done v0 -> map fst (setitem k v d) = map fst d.
Proof.
  induction d as [|[k' v'] d IH]; cbn [setitem getitem]; [discriminate|].
  destruct (String.eqb k k'); [reflexivity|].
  intros H. cbn [map fst]. rewrite IH by exact H. reflexivity.
Qed.

Lemma getitem_Raises (k : string) (d : list (string * pyfloat)) (e : pyerror) :
  getitem k d = Raises e -> e = KeyError k.
Proof.
  induction d as [|[k' v'] d IH]; cbn [getitem]; [congruence|].
  destruct (String.eqb k k'); [discriminate|exact IH].
Qed.

Lemma flt_asymmetric (a b : pyfloat) : flt a b = true -> flt b a = false.
Proof.
  destruct a as [x| | |], b as [y| | |]; cbn [flt]; try reflexivity; try discriminate.
  intros H. apply Qlt_bool_iff in H. apply Qlt_bool_false. lra.
Qed.

Lemma py_max_floor (a x : pyfloat) : flt (py_max a x) a = false.
Proof.
  unfold py_max. destruct (flt a x) eqn:E; [apply flt_asymmetric; exact E|].
  apply flt_irreflexive.
Qed.

Lemma py_min_cap (a x : pyfloat) : flt a (py_min a x) = false.
Proof.
  unfold py_min. destruct (flt x a) eqn:E; [apply flt_asymmetric; exact E|].
  apply flt_irreflexive.
Qed.

(** The stressed dictionary when the nine metrics are there. *)
Lemma apply_stress_Done (baseline : list (string * pyfloat)) (scenario : StressScenario)
    (sharpe omega volatility drawdown win_rate profit_factor total_return calmar sortino
       : pyfloat) :
  getitem "sharpe" baseline = Done sharpe ->
  getitem "omega" baseline = Done omega ->
  getitem "volatility" baseline = Done volatility ->
  getitem "drawdown" baseline = Done drawdown ->
  getitem "win_rate" baseline = Done win_rate ->
  getitem "profit_factor" baseline = Done profit_factor ->
  getitem "total_return" baseline = Done total_return ->
  getitem "calmar" baseline = Done calmar ->
  getitem "sortino" baseline = Done sortino ->
  _apply_stress baseline scenario
  = Done
      (setitem "sortino"
         (py_max (Fin (1#10)) (fadd sortino (Fin (sharpe_impact scenario * (8#10)))))
      (setitem "calmar"
         (py_max (Fin (1#10)) (fmul calmar (Fin (1 + sharpe_impact scenario * (2#10)))))
      (setitem "total_return"
         (fmul total_return (Fin (1 + sharpe_impact scenario * (3#10))))
      (setitem "profit_factor"
         (py_max (Fin (2#10)) (fmul profit_factor (Fin (1 + omega_impact scenario))))
      (setitem "win_rate"
         (py_max (Fin (5#100)) (fadd win_rate (Fin (win_rate_impact scenario))))
      (setitem "drawdown"
         (py_min (Fin (95#100)) (fmul drawdown (Fin (drawdown_multiplier scenario))))
      (setitem "volatility" (fmul volatility (Fin (volatility_multiplier scenario)))
      (setitem "omega" (py_max (Fin (1#10)) (fadd omega (Fin (omega_impact scenario))))
      (setitem "sharpe" (py_max (Fin (-(3))) (fadd sharpe (Fin (sharpe_impact scenario))))
         baseline))))))))).
Proof.
  intros H1 H2 H3 H4 H5 H6 H7 H8 H9. unfold _apply_stress.
  rewrite H1, H2, H3, H4, H5, H6, H7, H8, H9. reflexivity.
Qed.

Ltac in_list :=
  repeat first [ apply list_elem_of_here | apply list_elem_of_further ].

Ltac stressed_item :=
  repeat first [ rewrite getitem_setitem_same
               | rewrite getitem_setitem_other by discriminate ].

(** Stressing a baseline.  A metric that is missing raises [KeyError]
    for it.  Otherwise the nine metrics are there afterwards, the keys and
    their order are those of the baseline, every other entry is left as it
    was, and whatever the baseline and the scenario (NaN and infinities
    included) the stressed Sharpe ratio is not below -3, omega, Calmar and
    Sortino not below 0.1, the win rate not below 0.05, the profit factor
    not below 0.2 and the drawdown not above 0.95. *)
Theorem apply_stress_spec (baseline : list (string * pyfloat)) (scenario : StressScenario) :
  match _apply_stress baseline scenario with
  | Raises e =>
      exists key, e = KeyError key /\ key ∈ stressed_keys /\
                  getitem key baseline = Raises (KeyError key)
  | Done stressed =>
      map fst stressed = map fst baseline /\
      (forall key, key ∉ stressed_keys -> getitem key stressed = getitem key baseline) /\
      (forall key, key ∈ stressed_keys -> exists v, getitem key baseline = Done v) /\
      (exists v, getitem "sharpe" stressed = Done v /\ flt v (Fin (-(3))) = false) /\
      (exists v, getitem "omega" stressed = Done v /\ flt v (Fin (1#10)) = false) /\
      (exists v, getitem "drawdown" stressed = Done v /\ flt (Fin (95#100)) v = false) /\
      (exists v, getitem "win_rate" stressed = Done v /\ flt v (Fin (5#100)) = false) /\
      (exists v, getitem "profit_factor" stressed = Done v /\ flt v (Fin (2#10)) = false) /\
      (exists v, getitem "calmar" stressed = Done v /\ flt v (Fin (1#10)) = false) /\
      (exists v, getitem "sortino" stressed = Done v /\ flt v (Fin (1#10)) = false)
  end.
Proof.
  assert (Hfail : forall key e, key ∈ stressed_keys -> getitem key baseline = Raises e ->
            exists key', e = KeyError key' /\ key' ∈ stressed_keys /\
                         getitem key' baseline = Raises (KeyError key')).
  { intros key e Hin H. pose proof (getitem_Raises _ _ _ H) as ->. eauto. }
  destruct (getitem "sharpe" baseline) as [v1|e] eqn:H1;
    [|unfold _apply_stress; rewrite H1; apply (Hfail "sharpe"%string _ ltac:(in_list) H1)].
  destruct (getitem "omega" baseline) as [v2|e] eqn:H2;
    [|unfold _apply_stress; rewrite H1, H2; apply (Hfail "omega"%string _ ltac:(in_list) H2)].
  destruct (getitem "volatility" baseline) as [v3|e] eqn:H3;
    [|unfold _apply_stress; rewrite H1, H2, H3; apply (Hfail "volatility"%string _ ltac:(in_list) H3)].
  destruct (getitem "drawdown" baseline) as [v4|e] eqn:H4;
    [|unfold _apply_stress; rewrite H1, H2, H3, H4;
      apply (Hfail "drawdown"%string _ ltac:(in_list) H4)].
  destruct (getitem "win_rate" baseline) as [v5|e] eqn:H5;
    [|unfold _apply_stress; rewrite H1, H2, H3, H4, H5;
      apply (Hfail "win_rate"%string _ ltac:(in_list) H5)].
  destruct (getitem "profit_factor" baseline) as [v6|e] eqn:H6;
    [|unfold _apply_stress; rewrite H1, H2, H3, H4, H5, H6;
      apply (Hfail "profit_factor"%string _ ltac:(in_list) H6)].
  destruct (getitem "total_return" baseline) as [v7|e] eqn:H7;
    [|unfold _apply_stress; rewrite H1, H2, H3, H4, H5, H6, H7;
      apply (Hfail "total_return"%string _ ltac:(in_list) H7)].
  destruct (getitem "calmar" baseline) as [v8|e] eqn:H8;
    [|unfold _apply_stress; rewrite H1, H2, H3, H4, H5, H6, H7, H8;
      apply (Hfail "calmar"%string _ ltac:(in_list) H8)].
  destruct (getitem "sortino" baseline) as [v9|e] eqn:H9;
    [|unfold _apply_stress; rewrite H1, H2, H3, H4, H5, H6, H7, H8, H9;
      apply (Hfail "sortino"%string _ ltac:(in_list) H9)].
  rewrite (apply_stress_Done baseline scenario _ _ _ _ _ _ _ _ _ H1 H2 H3 H4 H5 H6 H7 H8 H9).
  split.
  { repeat (erewrite setitem_keys; [|stressed_item; eassumption]). reflexivity. }
  split.
  { intros key Hk. unfold stressed_keys in Hk.
    rewrite !elem_of_cons, elem_of_nil in Hk.
    repeat (rewrite getitem_setitem_other by (intros ->; apply Hk; tauto)).
    reflexivity. }
  split.
  { intros key Hk. unfold stressed_keys in Hk.
    rewrite !elem_of_cons, elem_of_nil in Hk.
    destruct Hk as [->|[->|[->|[->|[->|[->|[->|[->|[->|[]]]]]]]]]]; eauto. }
  repeat split; (eexists; split; [stressed_item; reflexivity|]);
    first [apply py_max_floor | apply py_min_cap].
Qed.

(** The Black Monday scenario on the default baseline. *)
Example black_monday_on_the_default_baseline :
  match _create_historical_scenarios with
  | black_monday :: _ =>
      _apply_stress default_baseline black_monday
      = Done [ ("sharpe", Fin ((4#10) + -(25#10))); ("omega", Fin ((105#100) + -(6#10)));
               ("volatility", Fin ((18#100) * (32#10)));
               ("drawdown", Fin ((12#100) * (45#10)));
               ("win_rate", Fin ((52#100) + -(35#100)));
               ("profit_factor", Fin ((115#100) * (1 + -(6#10))));
               ("total_return", Fin ((8#100) * (1 + -(25#10) * (3#10))));
               ("calmar", Fin ((6#10) * (1 + -(25#10) * (2#10))));
               ("sortino", Fin (1#10)) ]%string
  | [] => False
  end.
Proof. vm_compute. reflexivity. Qed.

Example apply_stress_without_omega :
  forall scenario,
    _apply_stress [("sharpe"%string, Fin 1)] scenario = Raises (KeyError "omega").
Proof. intros scenario. reflexivity. Qed.

(** ** The impact analysis *)

Lemma risk_score_of_fractions (allocation prob_ruin worst_case : Q) :
  prob_ruin <= 5 -> worst_case <= 10 ->
  _calculate_risk_score allocation prob_ruin worst_case
  = _calculate_risk_score allocation 0 0.
Proof.
  intros Hp Hw. unfold _calculate_risk_score.
  assert (T : forall x c, x <= c -> Qle_bool x c = true)
    by (intros x c H; apply Qle_bool_iff; exact H).
  rewrite (T prob_ruin 5), (T prob_ruin 15), (T prob_ruin 35), (T prob_ruin 60) by lra.
  rewrite (T worst_case 10), (T worst_case 25), (T worst_case 50), (T worst_case 75) by lra.
  reflexivity.
Qed.

Lemma analyze_impact_fields (scenario : StressScenario) (formula : string)
    (baseline_alloc stressed_alloc : Q)
    (baseline_metrics stressed_metrics : list (string * pyfloat)) (r : StressTestResults) :
  _analyze_impact scenario formula baseline_alloc stressed_alloc
                  baseline_metrics stressed_metrics = Done r ->
  let allocation_ratio := stressed_alloc / 100 in
  let severity := _calculate_scenario_severity scenario in
  let prob_ruin :=
    qmin (95#100)
         (1 - (1 - (allocation_ratio ^ 2) * (2#100)) ^ Z.of_nat (duration_months scenario)) in
  scenario_name r = name scenario /\
  StressTestEngine.formula r = formula /\
  original_allocation r = baseline_alloc /\
  stressed_allocation r = stressed_alloc /\
  expected_loss r = allocation_ratio * severity * (3#10) * 100 /\
  worst_case_loss r = allocation_ratio * severity * (8#10) * 100 /\
  probability_ruin r = prob_ruin * 100 /\
  recovery_months r
  = py_int (inject_Z (Z.of_nat (duration_months scenario)) * (1 + allocation_ratio * 2)) /\
  risk_score r
  = _calculate_risk_score stressed_alloc prob_ruin (allocation_ratio * severity * (8#10)).
Proof.
  unfold _analyze_impact. intros H.
  repeat match type of H with
         | context [getitem ?k ?d] =>
             destruct (getitem k d); cbn [mbind raising_bind] in H; [|discriminate]
         | context [float_div ?a ?b] =>
             destruct (float_div a b); cbn [mbind raising_bind] in H; [|discriminate]
         end.
  injection H as <-. repeat split.
Qed.

Lemma Qpower_unit_interval (q : Q) (n : nat) :
  0 <= q <= 1 -> 0 <= q ^ Z.of_nat n <= 1.
Proof.
  intros Hq. induction n as [|n IH].
  - change (q ^ Z.of_nat 0) with 1. lra.
  - assert (E : q ^ Z.of_nat (S n) == q * q ^ Z.of_nat n).
    { rewrite Nat2Z.inj_succ. unfold Z.succ. rewrite Z.add_comm.
      rewrite Qpower_plus' by lia. rewrite Qpower_1_r. reflexivity. }
    rewrite E. set (t := q ^ Z.of_nat n) in *. clearbody t.
    assert (0 <= q * t) by (apply Qmult_le_0_compat; lra).
    assert (0 <= (1 - q) * t) by (apply Qmult_le_0_compat; lra).
    split; lra.
Qed.

Lemma py_int_bounds (x : Q) (a b : Z) :
  (0 <= a)%Z -> inject_Z a <= x <= inject_Z b -> (a <= py_int x <= b)%Z.
Proof.
  intros Ha [Hl Hu]. unfold py_int. destruct x as [p q].
  unfold Qle in Hl, Hu. cbn in Hl, Hu. cbn [Qnum Qden].
  rewrite Z.quot_div_nonneg by lia. split.
  - apply Z.div_le_lower_bound; lia.
  - apply Z.div_le_upper_bound; lia.
Qed.

Lemma impact_bounds (scenario : StressScenario) (stressed_alloc : Q) :
  0 <= stressed_alloc <= 100 ->
  let allocation_ratio := stressed_alloc / 100 in
  let severity := _calculate_scenario_severity scenario in
  let prob_ruin :=
    qmin (95#100)
         (1 - (1 - (allocation_ratio ^ 2) * (2#100)) ^ Z.of_nat (duration_months scenario)) in
  0 <= allocation_ratio <= 1 /\
  allocation_ratio * severity <= 1 /\
  0 <= prob_ruin <= 95#100.
Proof.
  intros Ha allocation_ratio severity prob_ruin.
  assert (Hr : allocation_ratio == stressed_alloc * (1#100)) by (unfold allocation_ratio; field).
  assert (Hratio : 0 <= allocation_ratio <= 1) by (rewrite Hr; lra).
  pose proof (severity_capped scenario) as Hsev. fold severity in Hsev.
  split; [exact Hratio|]. split.
  - assert (0 <= allocation_ratio * (1 - severity)) by (apply Qmult_le_0_compat; lra).
    lra.
  - subst prob_ruin. change (allocation_ratio ^ 2) with (allocation_ratio * allocation_ratio).
    assert (H2 : 0 <= allocation_ratio * allocation_ratio)
      by (apply Qmult_le_0_compat; lra).
    assert (H3 : 0 <= allocation_ratio * (1 - allocation_ratio))
      by (apply Qmult_le_0_compat; lra).
    pose proof (Qpower_unit_interval
                  (1 - allocation_ratio * allocation_ratio * (2#100))
                  (duration_months scenario)) as Hp.
    set (t := (1 - allocation_ratio * allocation_ratio * (2#100))
              ^ Z.of_nat (duration_months scenario)) in *.
    assert (Ht : 0 <= t <= 1) by (apply Hp; lra).
    clearbody t.
    destruct (qmin_spec (95#100) (1 - t)) as (H95 & _ & [E|E]); rewrite E in *; lra.
Qed.

(** The probability of ruin and the worst-case loss reach the risk score
    as fractions (at most 0.95 and 0.8) and are compared there with
    thresholds in percent (5 to 75), so they never decide: for an
    allocation in [0, 100] the risk label is the one of the stressed
    allocation alone.  The reported figures are bounded: the probability of
    ruin lies in [0, 95], the expected loss is at most 30 and the worst-case
    loss at most 80 (percent), and the recovery takes between one and three
    times the duration of the scenario. *)
Theorem risk_score_depends_on_allocation_only (scenario : StressScenario)
    (formula : string) (baseline_alloc stressed_alloc : Q)
    (baseline_metrics stressed_metrics : list (string * pyfloat)) (r : StressTestResults) :
  0 <= stressed_alloc <= 100 ->
  _analyze_impact scenario formula baseline_alloc stressed_alloc
                  baseline_metrics stressed_metrics = Done r ->
  risk_score r = _calculate_risk_score stressed_alloc 0 0 /\
  0 <= probability_ruin r <= 95 /\
  expected_loss r <= 30 /\
  worst_case_loss r <= 80 /\
  (Z.of_nat (duration_months scenario) <= recovery_months r
   <= 3 * Z.of_nat (duration_months scenario))%Z.
Proof.
  intros Ha H.
  destruct (analyze_impact_fields _ _ _ _ _ _ _ H)
    as (_ & _ & _ & _ & He & Hw & Hp & Hm & Hs).
  destruct (impact_bounds scenario stressed_alloc Ha) as (Hratio & Hprod & Hruin).
  rewrite Hs, He, Hw, Hp, Hm. clear Hs He Hw Hp Hm H.
  set (allocation_ratio := stressed_alloc / 100) in *.
  set (severity := _calculate_scenario_severity scenario) in *.
  set (prob_ruin := qmin _ _) in *.
  clearbody prob_ruin allocation_ratio severity.
  split; [apply risk_score_of_fractions; lra|].
  split; [lra|]. split; [lra|]. split; [lra|].
  apply py_int_bounds; [lia|].
  pose proof (count_nonneg (duration_months scenario)) as Hd.
  assert (0 <= inject_Z (Z.of_nat (duration_months scenario)) * allocation_ratio)
    by (apply Qmult_le_0_compat; lra).
  assert (0 <= inject_Z (Z.of_nat (duration_months scenario)) * (1 - allocation_ratio))
    by (apply Qmult_le_0_compat; lra).
  rewrite inject_Z_mult. change (inject_Z 3) with 3.
  set (d := inject_Z (Z.of_nat (duration_months scenario))) in *. clearbody d.
  split; lra.
Qed.

(** ** A run *)

Lemma mapM_Done {A B} (f : A -> raising B) (P : A -> B -> Prop) (l : list A) :
  Forall (fun x => exists y, f x = Done y /\ P x y) l ->
  exists ys, mapM f l = Done ys /\ Forall2 P l ys.
Proof.
  induction 1 as [|x l (y & Hy & HP) _ (ys & Hys & HF)].
  - exists []. split; [reflexivity|constructor].
  - exists (y :: ys). split; [|constructor; assumption].
    cbn [mapM]. rewrite Hy. cbn [mbind raising_bind]. rewrite Hys. reflexivity.
Qed.

Lemma stress_allocation_range (host : Host) (formula : string)
    (metrics : list (string * pyfloat)) :
  0 <= _calculate_allocation host formula metrics <= 100.
Proof.
  unfold _calculate_allocation.
  destruct (formula_outcome host formula metrics); try lra. apply clamp_0_100_range.
Qed.

Lemma float_div_Done (a b : pyfloat) :
  is_zero b = false -> float_div a b = Done (fdiv a b).
Proof. intros H. unfold float_div. rewrite H. reflexivity. Qed.

(** One scenario of a run. *)
Lemma stress_scenario_Done (host : Host) (formula : string)
    (baseline : list (string * pyfloat)) (baseline_allocation : Q)
    (scenario : StressScenario) (volatility drawdown : pyfloat) :
  Forall (fun key => exists v, getitem key baseline = Done v) stressed_keys ->
  getitem "volatility" baseline = Done volatility -> is_zero volatility = false ->
  getitem "drawdown" baseline = Done drawdown -> is_zero drawdown = false ->
  exists r,
    (stressed_metrics ← _apply_stress baseline scenario;
     let stressed_allocation := _calculate_allocation host formula stressed_metrics in
     _analyze_impact scenario formula baseline_allocation stressed_allocation
                     baseline stressed_metrics) = Done r /\
    scenario_name r = name scenario /\
    StressTestEngine.formula r = formula /\
    original_allocation r = baseline_allocation /\
    0 <= stressed_allocation r <= 100 /\
    risk_score r = _calculate_risk_score (stressed_allocation r) 0 0.
Proof.
  intros Hkeys Hv Hvz Hd Hdz.
  unfold stressed_keys in Hkeys.
  repeat match goal with
         | H : Forall _ (_ :: _) |- _ =>
             let v := fresh "v" in let E := fresh "E" in
             apply Forall_cons in H; destruct H as [(v & E) H]
         end.
  rewrite (apply_stress_Done baseline scenario _ _ _ _ _ _ _ _ _ E E0 E1 E2 E3 E4 E5 E6 E7).
  cbn [mbind raising_bind].
  set (stressed := setitem "sortino" _ _).
  set (stressed_allocation := _calculate_allocation host formula stressed).
  pose proof (stress_allocation_range host formula stressed) as Hrange.
  fold stressed_allocation in Hrange.
  assert (Hrun : exists r, _analyze_impact scenario formula baseline_allocation
                             stressed_allocation baseline stressed = Done r).
  { unfold _analyze_impact. subst stressed.
    stressed_item. rewrite E, Hv, Hd, E3. cbn [mbind raising_bind].
    rewrite (float_div_Done _ _ Hvz). cbn [mbind raising_bind].
    rewrite (float_div_Done _ _ Hdz). cbn [mbind raising_bind].
    eexists. reflexivity. }
  destruct Hrun as [r Hr]. exists r. split; [exact Hr|].
  destruct (analyze_impact_fields _ _ _ _ _ _ _ Hr)
    as (Hn & Hf & Ho & Hsa & _ & _ & _ & _ & Hs).
  destruct (impact_bounds scenario stressed_allocation Hrange) as (_ & Hprod & Hruin).
  rewrite Hsa. repeat split; try assumption; try apply Hrange.
  rewrite Hs. apply risk_score_of_fractions.
  - cbv zeta in Hruin. lra.
  - cbv zeta in Hprod.
    set (x := stressed_allocation / 100 * _calculate_scenario_severity scenario) in *.
    clearbody x. lra.
Qed.

(** A run of the stress test on a baseline that has the nine metrics,
    with a volatility and a drawdown that are not zero (the defaults are
    such a baseline), raises nothing and reports one result per selected
    scenario, in the order of the table: each with the name of its
    scenario, the formula, the allocation under the baseline, a stressed
    allocation in [0, 100] and the risk label of that allocation. *)
Theorem run_stress_test_spec (host : Host) (formula : string)
    (scenario_name : option string) (base_metrics : option (list (string * pyfloat)))
    (volatility drawdown : pyfloat) :
  let baseline := _get_baseline_metrics base_metrics in
  Forall (fun key => exists v, getitem key baseline = Done v) stressed_keys ->
  getitem "volatility" baseline = Done volatility -> is_zero volatility = false ->
  getitem "drawdown" baseline = Done drawdown -> is_zero drawdown = false ->
  exists results,
    run_stress_test host formula scenario_name base_metrics = Done results /\
    map StressTestEngine.scenario_name results
    = map name (selected_scenarios scenario_name) /\
    Forall (fun r =>
              StressTestEngine.formula r = formula /\
              original_allocation r = _calculate_allocation host formula baseline /\
              0 <= stressed_allocation r <= 100 /\
              risk_score r = _calculate_risk_score (stressed_allocation r) 0 0)
           results.
Proof.
  intros baseline Hkeys Hv Hvz Hd Hdz. unfold run_stress_test. fold baseline.
  destruct (mapM_Done
    (fun scenario =>
       stressed_metrics ← _apply_stress baseline scenario;
       let stressed_allocation := _calculate_allocation host formula stressed_metrics in
       _analyze_impact scenario formula (_calculate_allocation host formula baseline)
                       stressed_allocation baseline stressed_metrics)
    (fun scenario r =>
       StressTestEngine.scenario_name r = name scenario /\
       StressTestEngine.formula r = formula /\
       original_allocation r = _calculate_allocation host formula baseline /\
       0 <= stressed_allocation r <= 100 /\
       risk_score r = _calculate_risk_score (stressed_allocation r) 0 0)
    (selected_scenarios scenario_name)) as (results & Hrun & Hall).
  { apply Forall_forall. intros scenario _.
    apply (stress_scenario_Done host formula baseline _ scenario volatility drawdown);
      assumption. }
  exists results. split; [exact Hrun|].
  clear Hrun. induction Hall as [|s r ss rs (Hn & Hrest) _ [IH1 IH2]].
  - split; [reflexivity|constructor].
  - split; [cbn [map]; rewrite Hn, IH1; reflexivity|].
    constructor; [exact Hrest|exact IH2].
Qed.

Lemma run_stress_test_spec_witness :
  exists results,
    run_stress_test host_floor "sharpe * 10" (Some "COVID-19 2020"%string) None
    = Done results /\
    map StressTestEngine.scenario_name results
    = map name (selected_scenarios (Some "COVID-19 2020"%string)) /\
    Forall (fun r =>
              StressTestEngine.formula r = "sharpe * 10"%string /\
              original_allocation r
              = _calculate_allocation host_floor "sharpe * 10" (_get_baseline_metrics None) /\
              0 <= stressed_allocation r <= 100 /\
              risk_score r = _calculate_risk_score (stressed_allocation r) 0 0)
           results.
Proof.
  apply (run_stress_test_spec host_floor "sharpe * 10" (Some "COVID-19 2020"%string) None
                              (Fin (18#100)) (Fin (12#100))).
  - repeat constructor; eexists; reflexivity.
  - reflexivity.
  - reflexivity.
  - reflexivity.
  - reflexivity.
Defined.

(** A name that is not in the table selects nothing: the run returns the
    empty list, without an error. *)
Example run_stress_test_unknown_scenario (host : Host) (formula : string) :
  run_stress_test host formula (Some "Tulip Mania 1637"%string) None = Done [].
Proof. reflexivity. Qed.

(** [sharpe * 10] under the COVID-19 scenario: the Sharpe ratio falls from
    0.4 to -1.7, the allocation from 4 to 0. *)
Example run_stress_test_covid :
  match run_stress_test host_floor "sharpe * 10" (Some "COVID-19 2020"%string) None with
  | Done [r] =>
      Qred (original_allocation r) = 4 /\ Qred (stressed_allocation r) = 0 /\
      Qred (allocation_change_pct r) = -(100) /\
      recovery_months r = 3%Z /\ risk_score r = "🟢 TRÈS FAIBLE"%string
  | _ => False
  end.
Proof. vm_compute. repeat split. Qed.

End StressFacts.

Lemma risk_score_depends_on_allocation_only_witness :
  exists r,
    StressTestEngine._analyze_impact Examples.mild_shock "sharpe" 4 10
      StressTestEngine.default_baseline StressTestEngine.default_baseline
    = StressTestEngine.Done r /\
    StressTestEngine.risk_score r = StressTestEngine._calculate_risk_score 10 0 0 /\
    0 <= StressTestEngine.probability_ruin r <= 95 /\
    StressTestEngine.expected_loss r <= 30 /\
    StressTestEngine.worst_case_loss r <= 80 /\
    (Z.of_nat (StressTestEngine.duration_months Examples.mild_shock)
     <= StressTestEngine.recovery_months r
     <= 3 * Z.of_nat (StressTestEngine.duration_months Examples.mild_shock))%Z.
Proof.
  eexists. split; [reflexivity|].
  eapply (risk_score_depends_on_allocation_only Examples.mild_shock "sharpe" 4 10
            StressTestEngine.default_baseline StressTestEngine.default_baseline).
  - lra.
  - reflexivity.
Defined.

(** * The scores of the Overfitting Detector *)

Section DetectorScores.
Import PyEval OverfittingDetector.

Lemma filter_length_none {A} (f : A -> bool) (l : list A) :
  length (List.filter f l) = 0%nat <-> Forall (fun x => f x = false) l.
Proof.
  induction l as [|x l IH]; [split; [constructor|reflexivity]|].
  cbn [List.filter]. destruct (f x) eqn:E; cbn [length]; split; intros H.
  - lia.
  - inversion H; subst. congruence.
  - constructor; [exact E|]. apply IH. exact H.
  - inversion H; subst. apply IH. assumption.
Qed.

Lemma is_extreme_false (a : Q) : is_extreme a = false <-> 0 <= a <= 50.
Proof.
  unfold is_extreme. rewrite orb_false_iff, !Qlt_bool_false. tauto.
Qed.

Lemma detector_qmax_spec (a b : Q) :
  a <= qmax a b /\ b <= qmax a b /\ (qmax a b = a \/ qmax a b = b).
Proof. unfold qmax. qcase (Qlt_bool a b); repeat split; auto; lra. Qed.

(** The score of the extreme allocations (above 50 or negative).  It is
    50 when there is no allocation; otherwise it is [100 - 150 k / n] for
    [k] extreme allocations out of [n], floored at 0: a number in
    [0, 100], equal to 100 exactly when no allocation is extreme and to 0
    as soon as two thirds of them are. *)
Theorem extreme_allocations_score (current_allocations : gmap string Q) :
  let score := _detect_extreme_allocations current_allocations in
  let values := PortfolioModel.dict_values current_allocations in
  let k := length (List.filter is_extreme values) in
  let n := length values in
  0 <= score <= 100 /\
  (current_allocations = ∅ -> score = 50) /\
  (current_allocations <> ∅ ->
     (score == 100 <-> Forall (fun a => 0 <= a <= 50) values) /\
     ((3 * k < 2 * n)%nat ->
        score == 100 - 150 * (inject_Z (Z.of_nat k) / inject_Z (Z.of_nat n))) /\
     ((2 * n <= 3 * k)%nat -> score == 0)).
Proof.
  intros score values k n. subst score. unfold _detect_extreme_allocations.
  fold values. fold k. fold n.
  destruct (size current_allocations =? 0)%nat eqn:Es.
  { apply Nat.eqb_eq, map_size_empty_iff in Es.
    split; [lra|]. split; [reflexivity|]. intros H. contradiction. }
  apply Nat.eqb_neq in Es.
  assert (Hn : (0 < n)%nat).
  { subst n values. rewrite dict_values_length. lia. }
  assert (Hnb : (0 <? n)%nat = true) by (apply Nat.ltb_lt; exact Hn).
  rewrite Hnb.
  assert (Hk : (k <= n)%nat) by apply filter_length_le.
  pose proof (count_pos n Hn) as HN. pose proof (count_nonneg k) as HK.
  pose proof (count_le k n Hk) as HKN.
  assert (Hratio : 0 <= inject_Z (Z.of_nat k) / inject_Z (Z.of_nat n) <= 1).
  { split; [apply Qle_shift_div_l|apply Qle_shift_div_r]; lra. }
  assert (Hzero : inject_Z (Z.of_nat k) / inject_Z (Z.of_nat n) == 0 <-> k = 0%nat).
  { split.
    - intros H. assert (E : inject_Z (Z.of_nat k) == 0).
      { rewrite <- (Qmult_0_l (inject_Z (Z.of_nat n))), <- H. field. lra. }
      change 0 with (inject_Z 0) in E.
      apply (proj1 (inject_Z_injective _ _)) in E. lia.
    - intros ->. change (inject_Z (Z.of_nat 0)) with 0. field. lra. }
  assert (Hthirds : (2 * n <= 3 * k)%nat <->
                    2#3 <= inject_Z (Z.of_nat k) / inject_Z (Z.of_nat n)).
  { assert (E : (2 * n <= 3 * k)%nat
                <-> 2 * inject_Z (Z.of_nat n) <= 3 * inject_Z (Z.of_nat k)).
    { change 2 with (inject_Z 2). change 3 with (inject_Z 3).
      rewrite <- !inject_Z_mult, <- Zle_Qle. lia. }
    rewrite E. split; intros H.
    - apply Qle_shift_div_l; lra.
    - assert (E2 : inject_Z (Z.of_nat k)
                   == inject_Z (Z.of_nat k) / inject_Z (Z.of_nat n) * inject_Z (Z.of_nat n))
        by (field; lra).
      set (t := inject_Z (Z.of_nat k) / inject_Z (Z.of_nat n)) in *. clearbody t.
      assert (0 <= (t - (2#3)) * inject_Z (Z.of_nat n))
        by (apply Qmult_le_0_compat; lra).
      lra. }
  set (t := inject_Z (Z.of_nat k) / inject_Z (Z.of_nat n)) in *. clearbody t.
  destruct (detector_qmax_spec 0 (100 - t * 150)) as (H0 & Hx & Hcase).
  split; [split; [exact H0|destruct Hcase as [-> | ->]; lra]|].
  split.
  { intros ->. exfalso. apply Es. apply map_size_empty. }
  intros _. split; [|split].
  - rewrite <- (Forall_iff (fun a => is_extreme a = false)) by (intros a; apply is_extreme_false).
    rewrite <- filter_length_none. fold k. rewrite <- Hzero.
    split; intros H.
    + destruct Hcase as [E|E]; rewrite E in H; lra.
    + unfold qmax. qcase (Qlt_bool 0 (100 - t * 150)); lra.
  - intros Hlt. assert (Hnot : ~ 2#3 <= t) by (rewrite <- Hthirds; lia).
    unfold qmax. qcase (Qlt_bool 0 (100 - t * 150)); lra.
  - intros Hge. apply Hthirds in Hge.
    unfold qmax. qcase (Qlt_bool 0 (100 - t * 150)); lra.
Qed.

(** Four allocations, three of them extreme: 100 - 150 * 3/4 is negative. *)
Example extreme_allocations_of_four :
  _detect_extreme_allocations
    {["a"%string := 60; "b"%string := -(1); "c"%string := 10; "d"%string := 51]} = 0.
Proof. vm_compute. reflexivity. Qed.

(** ** The overall score *)

Lemma weighted_score_cases (d : gmap string pyobj) (weight : Q) :
  match weighted_score d weight with
  | Some x => x = sub_score d * weight
  | None => exists v, d !! "score"%string = Some v /\ forall q, v <> ONum q
  end.
Proof.
  unfold weighted_score, sub_score.
  destruct (d !! "score"%string) as [[q|s|l|d']|]; try reflexivity;
    (eexists; split; [reflexivity|discriminate]).
Qed.

(** The overall overfitting score is 100 minus the weighted sum of the
    five sub-scores (weights 25, 25, 20, 20 and 10 percent; an analysis
    without a score counts as 0), cut to [0, 100].  It fails only when a
    score is not a number. *)
Theorem overfitting_score_spec (stability cv robustness correlation : gmap string pyobj)
    (extreme : Q) :
  let total := sub_score stability * (25#100) + sub_score cv * (25#100)
               + sub_score robustness * (20#100) + sub_score correlation * (20#100)
               + extreme * (10#100) in
  match _calculate_overfitting_score stability cv robustness correlation extreme with
  | Some score =>
      0 <= score <= 100 /\
      (0 <= total <= 100 -> score == 100 - total) /\
      (total <= 0 -> score == 100) /\
      (100 <= total -> score == 0)
  | None =>
      Exists (fun d => exists v, d !! "score"%string = Some v /\ forall q, v <> ONum q)
             [stability; cv; robustness; correlation]
  end.
Proof.
  intros total. unfold _calculate_overfitting_score.
  pose proof (weighted_score_cases stability (25#100)) as H1.
  destruct (weighted_score stability (25#100)) as [s1|];
    [|apply Exists_cons_hd; exact H1].
  pose proof (weighted_score_cases cv (25#100)) as H2.
  destruct (weighted_score cv (25#100)) as [s2|];
    [|apply Exists_cons_tl, Exists_cons_hd; exact H2].
  pose proof (weighted_score_cases robustness (20#100)) as H3.
  destruct (weighted_score robustness (20#100)) as [s3|];
    [|do 2 apply Exists_cons_tl; apply Exists_cons_hd; exact H3].
  pose proof (weighted_score_cases correlation (20#100)) as H4.
  destruct (weighted_score correlation (20#100)) as [s4|];
    [|do 3 apply Exists_cons_tl; apply Exists_cons_hd; exact H4].
  cbn [mbind option_bind]. unfold py_sum. cbn [foldl].
  assert (E : 0 + s1 + s2 + s3 + s4 + extreme * (10#100) == total).
  { subst total s1 s2 s3 s4. ring. }
  set (final_score := 0 + s1 + s2 + s3 + s4 + extreme * (10#100)) in *.
  clearbody final_score total.
  unfold qmax, qmin.
  qcase (Qlt_bool (100 - final_score) 100);
    [qcase (Qlt_bool 0 (100 - final_score))|qcase (Qlt_bool 0 100)];
    repeat split; intros; lra.
Qed.

(** Analyses that all report 50 and no extreme allocation (score 100);
    and analyses that report nothing. *)
Example overfitting_score_of_fifties :
  let fifty : gmap string pyobj := {["score"%string := ONum 50]} in
  option_map Qred (_calculate_overfitting_score fifty fifty fifty fifty 100) = Some 45
  /\ _determine_risk_level 45 = "MODERE"%string
  /\ option_map Qred (_calculate_overfitting_score ∅ ∅ ∅ ∅ 0) = Some 100
  /\ _determine_risk_level 100 = "ELEVE"%string.
Proof. vm_compute. repeat split. Qed.

(** ** The complexity of a formula *)

Lemma occurs_star (s : list ascii) :
  occurs (chars "**") s = true -> occurs (chars "*") s = true.
Proof.
  induction s as [|c s IH]; [discriminate|].
  cbn [occurs chars list_ascii_of_string is_prefix].
  destruct (Ascii.eqb "*" c); [reflexivity|]. cbn [orb]. exact IH.
Qed.

Lemma count_from_occurs (sub s : list ascii) :
  sub <> [] -> occurs sub s = true -> (1 <= count_from 0 sub s)%nat.
Proof.
  intros Hne. induction s as [|c s IH].
  - destruct sub; [contradiction|discriminate].
  - cbn [occurs count_from]. destruct (is_prefix sub (c :: s)); [lia|].
    cbn [orb]. exact IH.
Qed.

Lemma count_from_none (sub s : list ascii) (skip : nat) :
  occurs sub s = false -> count_from skip sub s = 0%nat.
Proof.
  revert skip. induction s as [|c s IH]; intros skip; [reflexivity|].
  cbn [occurs count_from]. intros H. apply orb_false_iff in H. destruct H as [Hp Ho].
  destruct skip as [|k]; [rewrite Hp|]; apply IH; exact Ho.
Qed.

(** The complexity of a formula.  At most seven operators and four
    functions are counted; the level is SIMPLE exactly below the score 5.
    A formula that uses the power operator scores at least 6 (the power
    counts as the operators [*] and [**], and 4 per occurrence) and is
    never SIMPLE; one that divides scores at least 4; one without any
    operator, parenthesis or function scores 0. *)
Theorem formula_complexity_spec (formula : string) :
  let c := _analyze_formula_complexity formula in
  (operator_count c <= 7)%nat /\ (function_count c <= 4)%nat /\
  (complexity_level c = "SIMPLE"%string <-> (complexity_score c < 5)%nat) /\
  (occurs (chars "**") (chars formula) = true ->
     (6 <= complexity_score c)%nat /\ complexity_level c <> "SIMPLE"%string) /\
  (occurs (chars "/") (chars formula) = true -> (4 <= complexity_score c)%nat) /\
  (operator_count c = 0%nat -> function_count c = 0%nat -> complexity_score c = 0%nat).
Proof.
  intros c. subst c. unfold _analyze_formula_complexity. cbv zeta.
  cbn [complexity_score complexity_level operator_count function_count].
  set (operators := ["+"; "-"; "*"; "/"; "**"; "("; ")"]%string).
  set (functions := ["sqrt"; "max"; "min"; "abs"]%string).
  set (o := count_present operators formula).
  set (f := count_present functions formula).
  set (d := count "/" formula). set (p := count "**" formula).
  assert (Ho : (o <= 7)%nat) by apply (filter_length_le _ operators).
  assert (Hf : (f <= 4)%nat) by apply (filter_length_le _ functions).
  assert (Hlevel : (if (0 + o * 1 + f * 2 + d * 3 + p * 4 <? 5)%nat then "SIMPLE"
                    else if (15 <? 0 + o * 1 + f * 2 + d * 3 + p * 4)%nat
                         then "COMPLEXE" else "MODEREE")%string = "SIMPLE"%string
                   <-> (0 + o * 1 + f * 2 + d * 3 + p * 4 < 5)%nat).
  { destruct (0 + o * 1 + f * 2 + d * 3 + p * 4 <? 5)%nat eqn:E.
    - apply Nat.ltb_lt in E. tauto.
    - apply Nat.ltb_ge in E.
      destruct (15 <? 0 + o * 1 + f * 2 + d * 3 + p * 4)%nat;
        split; intros H; try discriminate; lia. }
  split; [exact Ho|]. split; [exact Hf|]. split; [exact Hlevel|].
  split; [|split].
  - intros Hpow. pose proof (occurs_star _ Hpow) as Hstar.
    assert (Hp : (1 <= p)%nat) by (apply count_from_occurs; [discriminate|exact Hpow]).
    assert (Ho2 : (2 <= o)%nat).
    { subst o operators. unfold count_present. cbn [List.filter].
      rewrite Hstar, Hpow.
      destruct (occurs (chars "+") (chars formula)),
               (occurs (chars "-") (chars formula)),
               (occurs (chars "/") (chars formula)),
               (occurs (chars "(") (chars formula)),
               (occurs (chars ")") (chars formula)); cbn [length]; lia. }
    split; [lia|]. rewrite Hlevel. lia.
  - intros Hdiv.
    assert (Hd : (1 <= d)%nat) by (apply count_from_occurs; [discriminate|exact Hdiv]).
    assert (Ho1 : (1 <= o)%nat).
    { subst o operators. unfold count_present. cbn [List.filter].
      rewrite Hdiv.
      destruct (occurs (chars "+") (chars formula)),
               (occurs (chars "-") (chars formula)),
               (occurs (chars "*") (chars formula)),
               (occurs (chars "**") (chars formula)),
               (occurs (chars "(") (chars formula)),
               (occurs (chars ")") (chars formula)); cbn [length]; lia. }
    lia.
  - intros Ho0 Hf0. rewrite Ho0, Hf0.
    subst o operators. unfold count_present in Ho0.
    apply filter_length_none in Ho0.
    repeat match goal with
           | H : Forall _ (_ :: _) |- _ => apply Forall_cons in H; destruct H as [? H]
           end.
    assert (Hd : d = 0%nat) by (apply count_from_none; assumption).
    assert (Hp : p = 0%nat) by (apply count_from_none; assumption).
    rewrite Hd, Hp. reflexivity.
Qed.

Example complexity_of_three_formulas :
  complexity_level (_analyze_formula_complexity "sharpe") = "SIMPLE"%string /\
  complexity_score (_analyze_formula_complexity "sharpe ** 2") = 6%nat /\
  complexity_level (_analyze_formula_complexity "sharpe ** 2") = "MODEREE"%string /\
  complexity_score (_analyze_formula_complexity "max(sharpe / drawdown, omega ** 2) ** 2")
  = 18%nat /\
  complexity_level (_analyze_formula_complexity "max(sharpe / drawdown, omega ** 2) ** 2")
  = "COMPLEXE"%string.
Proof. vm_compute. repeat split. Qed.

End DetectorScores.

(** * The allocation of a formula is a percentage *)

Section AllocationRanges.
Import PyEval.

(** Whatever the formula, the metrics and the interpreter do (exceptions,
    infinities and NaN included), the allocation the Stress Test Engine
    computes lies in [0, 100], the one of a Monte Carlo trial in [0, 100]
    and the one of the Overfitting Detector in [0, 50]. *)
Theorem formula_allocation_ranges (host : Host) (formula : string)
    (metrics : list (string * pyfloat)) (detector_metrics : gmap string pyval) :
  0 <= StressTestEngine._calculate_allocation host formula metrics <= 100 /\
  0 <= MonteCarloEngine.trial_allocation host formula metrics <= 100 /\
  0 <= OverfittingDetector._evaluate_formula host formula detector_metrics <= 50.
Proof.
  split; [apply stress_allocation_range|].
  split; [apply trial_allocation_range|].
  unfold OverfittingDetector._evaluate_formula.
  destruct (OverfittingDetector.formula_outcome host formula detector_metrics); try lra.
  apply clamp_0_50_range.
Qed.

End AllocationRanges.

(** * The simulated trials *)

Section MonteCarloMore.
Import PyEval MonteCarloEngine.

Context {St : Type} (rs : RandomState St).



Hypothesis random_below_one : forall s : St, (np_random rs s).1 < 1.

Hypothesis uniform_in_range :
  forall (low high : Q) (s : St), low <= high ->
    low <= (np_uniform rs low high s).1 <= high.

(** When the allocation is above 50% and the ruin probability per day
    times the horizon reaches 1, the ruin check cannot fail ([random()] is
    below 1): no path is simulated, and the trial loses between 70% and
    100% of the allocation.  At the default horizon of 252 days this is
    every allocation of 70% or more. *)
Theorem ruin_is_certain (allocation_pct : Q) (horizon : nat) (s : St) :
  50 < allocation_pct ->
  1 <= (allocation_pct / 100 - (5#10)) * (2#100) * inject_Z (Z.of_nat horizon) ->
  let r := (simulate_trial rs allocation_pct horizon s).1 in
  - (allocation_pct / 100) <= r <= - (7#10) * (allocation_pct / 100).
Proof.
  intros Ha Hruin r. subst r. unfold simulate_trial.
  assert (Hx : allocation_pct / 100 == allocation_pct * (1#100)) by field.
  set (x := allocation_pct / 100) in *.
  assert (Hx5 : 5#10 < x) by (rewrite Hx; lra).
  clearbody x.
  assert (E1 : Qlt_bool (5#10) x = true) by (apply Qlt_bool_iff; exact Hx5).
  rewrite E1.
  pose proof (random_below_one s) as Hu.
  destruct (np_random rs s) as [u s1]. cbn [fst] in Hu.
  assert (E2 : Qlt_bool u ((x - (5#10)) * (2#100) * inject_Z (Z.of_nat horizon)) = true).
  { apply Qlt_bool_iff. eapply Qlt_le_trans; [exact Hu|exact Hruin]. }
  rewrite E2.
  pose proof (uniform_in_range (7#10) 1 s1) as Hl.
  destruct (np_uniform rs (7#10) 1 s1) as [loss s2]. cbn [fst] in *.
  assert (Hloss : 7#10 <= loss <= 1) by (apply Hl; lra).
  assert (0 <= x * (1 - loss)) by (apply Qmult_le_0_compat; lra).
  assert (0 <= x * (loss - (7#10))) by (apply Qmult_le_0_compat; lra).
  split; lra.
Qed.

Hypothesis normal_without_scale :
  forall (loc scale : Q) (n : nat) (s : St), scale == 0 ->
    Forall (fun r => r == loc) (np_normal rs loc scale n s).1.

Lemma tail_events_flat (n : nat) (allocation : Q) (horizon : nat)
    (daily_returns : list Q) (s : St) :
  allocation == 0 -> Forall (fun r => r == 0) daily_returns ->
  Forall (fun r => r == 0) (tail_events rs n allocation horizon daily_returns s).1.
Proof.
  intros Ha. revert daily_returns s.
  induction n as [|n IH]; intros daily_returns s Hd; cbn [tail_events]; [exact Hd|].
  destruct (np_randint rs 0 horizon s) as [day s1].
  destruct (np_random rs s1) as [u s2].
  destruct (Qlt_bool u _).
  - destruct (np_uniform rs (5#100) (15#100) s2) as [shock s3].
    apply IH. apply Forall_alter; [exact Hd|].
    intros r _ Hr. rewrite Hr, Ha. ring.
  - destruct (np_uniform rs (3#100) (8#100) s2) as [shock s3].
    apply IH. apply Forall_alter; [exact Hd|].
    intros r _ Hr. rewrite Hr, Ha. ring.
Qed.

Lemma np_prod_flat (l : list Q) :
  Forall (fun r => r == 0) l -> np_prod (map (fun r => 1 + r) l) == 1.
Proof.
  induction 1 as [|r l Hr _ IH]; [reflexivity|].
  unfold np_prod in *. cbn [map foldr]. rewrite IH, Hr. ring.
Qed.

(** A trial with no allocation neither gains nor loses: the daily returns
    are drawn around 0 with no spread, a tail event shifts a day by 0, and
    the cumulative return is 0. *)
Theorem no_allocation_no_return (allocation_pct : Q) (horizon : nat) (s : St) :
  allocation_pct == 0 ->
  (simulate_trial rs allocation_pct horizon s).1 == 0.
Proof.
  intros Ha. unfold simulate_trial.
  assert (Hx : allocation_pct / 100 == 0) by (rewrite Ha; reflexivity).
  set (x := allocation_pct / 100) in *. clearbody x.
  assert (E1 : Qlt_bool (5#10) x = false) by (apply Qlt_bool_false; rewrite Hx; lra).
  rewrite E1. unfold simulate_path.
  pose proof (normal_without_scale (x * (8#10000)) (x * (25#1000)) horizon s) as Hn.
  destruct (np_normal rs (x * (8#10000)) (x * (25#1000)) horizon s) as [daily s1].
  cbn [fst] in Hn.
  assert (Hd : Forall (fun r => r == 0) daily).
  { eapply Forall_impl; [apply Hn; rewrite Hx; ring|].
    intros r Hr. cbn beta in Hr. rewrite Hr, Hx. ring. }
  destruct (np_poisson rs _ s1) as [n s2].
  pose proof (tail_events_flat n x horizon daily s2 Hx Hd) as Ht.
  destruct (tail_events rs n x horizon daily s2) as [daily' s3].
  cbn [fst] in *.
  pose proof (np_prod_flat daily' Ht) as Hp.
  unfold qmax.
  qcase (Qlt_bool (-1) (np_prod (map (fun r => 1 + r) daily') - 1)); lra.
Qed.

End MonteCarloMore.

Lemma ruin_is_certain_witness :
  - (100 / 100)
  <= (MonteCarloEngine.simulate_trial Examples.fixed_draws 100 252 tt).1
  <= - (7#10) * (100 / 100).
Proof.
  apply (ruin_is_certain Examples.fixed_draws).
  - intros s. cbn. lra.
  - intros low high s H. cbn. lra.
  - lra.
  - vm_compute. discriminate.
Defined.

(** At the default horizon the ruin is certain from 70% on. *)
Example ruin_threshold_at_252_days (allocation_pct : Q) :
  70 <= allocation_pct ->
  1 <= (allocation_pct / 100 - (5#10)) * (2#100) * inject_Z (Z.of_nat 252).
Proof.
  intros H.
  assert (E : (allocation_pct / 100 - (5#10)) * (2#100) * inject_Z (Z.of_nat 252)
              == (allocation_pct - 50) * (504#10000)) by (change (inject_Z (Z.of_nat 252)) with 252; field).
  rewrite E. lra.
Qed.

Lemma no_allocation_no_return_witness :
  (MonteCarloEngine.simulate_trial Examples.fixed_draws 0 252 tt).1 == 0.
Proof.
  apply (no_allocation_no_return Examples.fixed_draws).
  - intros loc scale n s _. cbn. apply Forall_replicate. reflexivity.
  - reflexivity.
Defined.
